(** * EntitySet: relationship graph, registration and consistency checks

    A shallow embedding of [featuretools/entityset/ww_entityset.py]:
    the [EntitySet] class with its path queries
    ([_forward_entity_paths], [find_forward_paths], [find_backward_paths],
    [has_unique_forward_path]), relationship and table registration
    ([add_relationship], [add_dataframe], [set_secondary_time_index]),
    the time-index checks, the metadata cache and [normalize_dataframe].

    Python objects are modelled by value; the places where the source
    relies on object identity (the tables held by the entity set, the
    column lists handed to [normalize_dataframe]) go through an explicit
    store. *)

From stdpp Require Import gmap strings list.

Open Scope string_scope.
Open Scope list_scope.
Open Scope nat_scope.

(** ** Exceptions and results *)

Inductive exn :=
| ValueError
| TypeError
| KeyError
| AttributeError
| AssertionError
| IndexError
| StopIteration.

#[global] Instance exn_eq_dec : EqDecision exn.
Proof. solve_decision. Defined.

Inductive result (A : Type) :=
| Ok (a : A)
| Raise (e : exn).
Arguments Ok {A} a.
Arguments Raise {A} e.

#[global] Instance result_ret : MRet result := fun A a => Ok a.
#[global] Instance result_bind : MBind result := fun A B f m =>
  match m with
  | Ok a => f a
  | Raise e => Raise e
  end.

(** ** Tables as the entity set sees them

    The dataframe engine and the schema accessor ([df.ww]) are external
    collaborators.  A table is modelled by what the entity set reads and
    writes through them: the engine kind, the physical columns, and the
    schema (absent until the accessor is initialised). *)

Inductive Engine := Pandas | Dask | Koalas.

#[global] Instance Engine_eq_dec : EqDecision Engine.
Proof. solve_decision. Defined.

Inductive Dtype :=
| dtype_int64
| dtype_Int64
| dtype_float64
| dtype_bool
| dtype_object
| dtype_category
| dtype_datetime64.

#[global] Instance Dtype_eq_dec : EqDecision Dtype.
Proof. solve_decision. Defined.

Inductive Value :=
| VInt (z : Z)
| VFloat (mantissa : Z) (exponent : Z)
| VBool (b : bool)
| VStr (s : string)
| VTimestamp (ns : Z)
| VNone.

#[global] Instance Value_eq_dec : EqDecision Value.
Proof. solve_decision. Defined.

Record Series := mkSeries {
  dtype : Dtype;
  values : list Value
}.

#[global] Instance Series_eq_dec : EqDecision Series.
Proof. solve_decision. Defined.

Inductive LogicalType :=
| Integer
| IntegerNullable
| Double
| Boolean
| Categorical
| Datetime
| NaturalLanguage.

#[global] Instance LogicalType_eq_dec : EqDecision LogicalType.
Proof. solve_decision. Defined.

(** [ww[column].is_numeric]: the logical types that carry the numeric tag. *)
Definition is_numeric (lt : LogicalType) : bool :=
  match lt with
  | Integer | IntegerNullable | Double => true
  | _ => false
  end.

Record ColumnSchema := mkColumnSchema {
  logical_type : LogicalType;
  semantic_tags : gset string
}.

#[global] Instance ColumnSchema_eq_dec : EqDecision ColumnSchema.
Proof. solve_decision. Defined.

(** The table-level [metadata] mapping is only used under its
    ['secondary_time_index'] key, which holds a dict from a time column to
    the list of columns that depend on it. *)
Record Schema := mkSchema {
  ww_name : string;
  ww_index : option string;
  ww_time_index : option string;
  ww_columns : gmap string ColumnSchema;
  ww_secondary_time_index : option (list (string * list string))
}.

#[global] Instance Schema_eq_dec : EqDecision Schema.
Proof. solve_decision. Defined.

Record DataFrame := mkDataFrame {
  engine : Engine;
  data : list (string * Series);
  ww : option Schema
}.

#[global] Instance DataFrame_eq_dec : EqDecision DataFrame.
Proof. solve_decision. Defined.

(** ** Python dicts with string keys, in insertion order *)

Fixpoint dict_get {V : Type} (d : list (string * V)) (k : string) : option V :=
  match d with
  | [] => None
  | (k', v) :: d' => if decide (k' = k) then Some v else dict_get d' k
  end.

(** [d[k] = v]: an existing key keeps its position, a new key goes last. *)
Fixpoint dict_set {V : Type} (d : list (string * V)) (k : string) (v : V)
  : list (string * V) :=
  match d with
  | [] => [(k, v)]
  | (k', v') :: d' =>
      if decide (k' = k) then (k, v) :: d' else (k', v') :: dict_set d' k v
  end.

(** ** Relationships

    [relationship.py] is not part of the sources at hand; the attribute
    names are the ones [EntitySet.__repr__] reads. *)

Record Relationship := mkRelationship {
  _parent_dataframe_id : string;
  _parent_column_id : string;
  _child_dataframe_id : string;
  _child_column_id : string
}.

(** Modelled from the spec: [Relationship.__eq__], which is missing from
    the sources.  Two relationships are equal iff all four identifying
    fields match, so Python's [==] and [in] on relationships are Leibniz
    equality and list membership on this record. *)
#[global] Instance Relationship_eq_dec : EqDecision Relationship.
Proof. solve_decision. Defined.

(** ** The entity set *)

(** Modelled from the spec: the metadata snapshot produced by
    [serialize.entityset_to_description] followed by
    [deserialize.description_to_entityset], both missing from the sources:
    a schema-only description of the entity set, without row data. *)
Record Description := mkDescription {
  d_id : option string;
  d_dataframes : list (string * option Schema);
  d_relationships : list Relationship
}.

#[global] Instance Description_eq_dec : EqDecision Description.
Proof. solve_decision. Defined.

Inductive TimeType := numeric | datetime.

#[global] Instance TimeType_eq_dec : EqDecision TimeType.
Proof. solve_decision. Defined.

Record EntitySet := mkEntitySet {
  es_id : option string;
  dataframe_dict : list (string * DataFrame);
  relationships : list Relationship;
  time_type : option TimeType;
  _data_description : option Description
}.

#[global] Instance EntitySet_eq_dec : EqDecision EntitySet.
Proof. solve_decision. Defined.

(** [EntitySet.__getitem__] *)
Definition __getitem__ (es : EntitySet) (dataframe_id : string) : result DataFrame :=
  match dict_get (dataframe_dict es) dataframe_id with
  | Some df => Ok df
  | None => Raise KeyError
  end.

(** Reading an attribute of [df.ww] needs an initialised schema. *)
Definition ww_schema (df : DataFrame) : result Schema :=
  match ww df with
  | Some s => Ok s
  | None => Raise AttributeError
  end.

(** Modelled from the spec: the [parent_dataframe] and [child_dataframe]
    properties of [Relationship] (missing from the sources), which look the
    relationship's table ids up in the entity set holding it. *)
Definition parent_dataframe (es : EntitySet) (r : Relationship) : result DataFrame :=
  __getitem__ es (_parent_dataframe_id r).

Definition child_dataframe (es : EntitySet) (r : Relationship) : result DataFrame :=
  __getitem__ es (_child_dataframe_id r).

(** ** Generators

    A generator that only reads is determined by the values it yields, in
    order, and by how it ends: by returning or by raising. *)

Inductive ending :=
| Exhausted
| Raised (e : exn).

Record Gen (A : Type) := mkGen {
  yields : list A;
  finish : ending
}.
Arguments mkGen {A} yields finish.
Arguments yields {A} g.
Arguments finish {A} g.

Definition gen_return {A : Type} : Gen A := mkGen [] Exhausted.

Definition gen_raise {A : Type} (e : exn) : Gen A := mkGen [] (Raised e).

(** [yield a] followed by the rest of the body. *)
Definition gen_yield {A : Type} (a : A) (rest : Gen A) : Gen A :=
  mkGen (a :: yields rest) (finish rest).

(** One generator body after another; the second runs only if the first
    returned. *)
Definition gen_seq {A : Type} (g1 g2 : Gen A) : Gen A :=
  match finish g1 with
  | Exhausted => mkGen (yields g1 ++ yields g2) (finish g2)
  | Raised _ => g1
  end.

(** [for x in xs: body x] inside a generator, where iterating [xs] ends
    with [fin]. *)
Fixpoint gen_for_list {A B : Type} (xs : list A) (fin : ending)
  (body : A -> Gen B) : Gen B :=
  match xs with
  | [] => mkGen [] fin
  | x :: xs' => gen_seq (body x) (gen_for_list xs' fin body)
  end.

Definition gen_for {A B : Type} (g : Gen A) (body : A -> Gen B) : Gen B :=
  gen_for_list (yields g) (finish g) body.

(** [next(g)]: the next value and the generator left over. *)
Definition next {A : Type} (g : Gen A) : result A * Gen A :=
  match yields g with
  | x :: xs => (Ok x, mkGen xs (finish g))
  | [] =>
      match finish g with
      | Exhausted => (Raise StopIteration, g)
      | Raised e => (Raise e, gen_return)
      end
  end.

(** [next(g, None)]: exhaustion gives [None] instead of raising. *)
Definition next_default {A : Type} (g : Gen A) : result (option A) * Gen A :=
  match yields g with
  | x :: xs => (Ok (Some x), mkGen xs (finish g))
  | [] =>
      match finish g with
      | Exhausted => (Ok None, g)
      | Raised e => (Raise e, gen_return)
      end
  end.

(** ** Relationship access and path search *)

Section Traversal.

(** Line 393 reads the parent's id as [parent_dataframe.ww.id], while the
    relationship filters read [ww.name].  What the accessor answers for
    [id] is left to the collaborator. *)
Variable ww_id : DataFrame -> result string.

Variable es : EntitySet.

Definition child_name (r : Relationship) : result string :=
  df ← child_dataframe es r;
  s ← ww_schema df;
  Ok (ww_name s).

Definition parent_name (r : Relationship) : result string :=
  df ← parent_dataframe es r;
  s ← ww_schema df;
  Ok (ww_name s).

(** The comprehension [[r for r in rels if key(r) == entity_id]]; it
    raises as soon as one key cannot be read. *)
Fixpoint filter_by (key : Relationship -> result string) (entity_id : string)
  (rels : list Relationship) : result (list Relationship) :=
  match rels with
  | [] => Ok []
  | r :: rels' =>
      k ← key r;
      rest ← filter_by key entity_id rels';
      Ok (if decide (k = entity_id) then r :: rest else rest)
  end.

Definition get_forward_relationships (entity_id : string)
  : result (list Relationship) :=
  filter_by child_name entity_id (relationships es).

Definition get_backward_relationships (entity_id : string)
  : result (list Relationship) :=
  filter_by parent_name entity_id (relationships es).

Definition Step : Type := string * list Relationship.

(** The loop over the forward relationships in [_forward_entity_paths];
    [descendants] is the recursive call. *)
Fixpoint forward_loop (descendants : string -> option (Gen Step))
  (rels : list Relationship) : option (Gen Step) :=
  match rels with
  | [] => Some gen_return
  | relationship :: rels' =>
      match parent_dataframe es relationship ≫= ww_id with
      | Raise e => Some (gen_raise e)
      | Ok next_dataframe =>
          match descendants next_dataframe with
          | None => None
          | Some sub =>
              let g := gen_for sub (fun '(sub_dataframe_id, sub_path) =>
                         gen_yield (sub_dataframe_id, relationship :: sub_path)
                                   gen_return) in
              match finish g with
              | Raised _ => Some g
              | Exhausted =>
                  match forward_loop descendants rels' with
                  | None => None
                  | Some rest => Some (gen_seq g rest)
                  end
              end
          end
      end
  end.

(** [_forward_entity_paths], by recursion on a depth bound: [None] means
    the bound was reached. *)
Fixpoint forward_entity_paths_depth (depth : nat) (start_dataframe_id : string)
  (seen_dataframes : gset string) : option (Gen Step) :=
  match depth with
  | O => None
  | S depth' =>
      if decide (start_dataframe_id ∈ seen_dataframes) then Some gen_return
      else
        let seen_dataframes := seen_dataframes ∪ {[start_dataframe_id]} in
        match
          match get_forward_relationships start_dataframe_id with
          | Raise e => Some (gen_raise e)
          | Ok rels =>
              forward_loop
                (fun next_dataframe =>
                   forward_entity_paths_depth depth' next_dataframe seen_dataframes)
                rels
          end
        with
        | None => None
        | Some rest => Some (gen_yield (start_dataframe_id, []) rest)
        end
  end.

(** Every recursive call adds a table id to its copy of the seen set, and
    the ids come from the parents of the registered relationships, so the
    nesting is at most one deeper than their number (plus the start). *)
Definition search_depth : nat := S (S (length (relationships es))).

(** The table ids a recursive call can be made on. *)
Definition parent_ids : gset string :=
  list_to_set
    (omap (fun r => match parent_dataframe es r ≫= ww_id with
                    | Ok next => Some next
                    | Raise _ => None
                    end)
       (relationships es)).

Definition _forward_entity_paths (start_dataframe_id : string) : Gen Step :=
  default gen_return
    (forward_entity_paths_depth search_depth start_dataframe_id ∅).

Definition find_forward_paths (start_dataframe_id goal_dataframe_id : string)
  : Gen (list Relationship) :=
  gen_for (_forward_entity_paths start_dataframe_id)
    (fun '(sub_dataframe_id, path) =>
       if decide (sub_dataframe_id = goal_dataframe_id)
       then gen_yield path gen_return
       else gen_return).


(** Truth value of what [next(paths, None)] gives: [None] and the empty
    list are false. *)
Definition truthy (second_path : option (list Relationship)) : bool :=
  match second_path with
  | None => false
  | Some [] => false
  | Some (_ :: _) => true
  end.

Definition has_unique_forward_path (start_dataframe_id end_dataframe_id : string)
  : result bool :=
  let paths := find_forward_paths start_dataframe_id end_dataframe_id in
  let '(first, paths) := next paths in
  _ ← first;
  let '(second, _) := next_default paths in
  second_path ← second;
  Ok (negb (truthy second_path)).

End Traversal.

(** ** Mutable state

    The methods below update the entity set in place and leave it partly
    updated when they raise, so a computation returns its result together
    with the state it left.  Besides the entity set the state holds the
    warnings emitted so far and the Python list objects the caller passed
    in, by reference. *)

Inductive Warning :=
| DuplicateRelationshipWarning (relationship : Relationship).

Record State := mkState {
  entityset : EntitySet;
  warnings : list Warning;
  heap : list (list string)
}.

Definition M (A : Type) : Type := State -> result A * State.

#[global] Instance M_ret : MRet M := fun A a st => (Ok a, st).
#[global] Instance M_bind : MBind M := fun A B f m st =>
  match m st with
  | (Ok a, st') => f a st'
  | (Raise e, st') => (Raise e, st')
  end.

Definition raise {A : Type} (e : exn) : M A := fun st => (Raise e, st).

Definition lift {A : Type} (r : result A) : M A := fun st => (r, st).

Definition get_es : M EntitySet := fun st => (Ok (entityset st), st).

Definition put_es (es : EntitySet) : M unit := fun st =>
  (Ok tt, mkState es (warnings st) (heap st)).

Definition warn (w : Warning) : M unit := fun st =>
  (Ok tt, mkState (entityset st) (warnings st ++ [w]) (heap st)).

Definition set_cache (d : option Description) (es : EntitySet) : EntitySet :=
  mkEntitySet (es_id es) (dataframe_dict es) (relationships es) (time_type es) d.

Definition set_time_type (t : option TimeType) (es : EntitySet) : EntitySet :=
  mkEntitySet (es_id es) (dataframe_dict es) (relationships es) t
    (_data_description es).

Definition set_relationships (rels : list Relationship) (es : EntitySet) : EntitySet :=
  mkEntitySet (es_id es) (dataframe_dict es) rels (time_type es)
    (_data_description es).

Definition set_dataframe (dataframe_id : string) (df : DataFrame) (es : EntitySet)
  : EntitySet :=
  mkEntitySet (es_id es) (dict_set (dataframe_dict es) dataframe_id df)
    (relationships es) (time_type es) (_data_description es).

Definition set_schema (s : Schema) (df : DataFrame) : DataFrame :=
  mkDataFrame (engine df) (data df) (Some s).

(** The state after the table held under [dataframe_id] was updated in
    place. *)
Definition with_dataframe (dataframe_id : string) (df : DataFrame) (st : State)
  : State :=
  mkState (set_dataframe dataframe_id df (entityset st)) (warnings st) (heap st).

(** *** The metadata cache *)

(** Modelled from the spec: [serialize.entityset_to_description] and
    [deserialize.description_to_entityset] (missing from the sources) give
    a copy of the entity set that keeps the schemas and drops the rows. *)
Definition entityset_to_description (es : EntitySet) : Description :=
  mkDescription (es_id es)
    (map (fun '(k, df) => (k, ww df)) (dataframe_dict es))
    (relationships es).

Definition metadata : M Description :=
  es ← get_es;
  match _data_description es with
  | Some d => mret d
  | None =>
      let description := entityset_to_description es in
      put_es (set_cache (Some description) es);;
      mret description
  end.

Definition reset_data_description : M unit :=
  es ← get_es;
  put_es (set_cache None es).

(** *** What the entity set asks of a table *)

(** [df.empty]: no columns or no rows. *)
Definition df_empty (df : DataFrame) : bool :=
  match data df with
  | [] => true
  | (_, s) :: _ => bool_decide (values s = [])
  end.

(** [df[column]] *)
Definition df_column (df : DataFrame) (column : string) : result Series :=
  match dict_get (data df) column with
  | Some s => Ok s
  | None => Raise KeyError
  end.

(** [df.ww[column]], and the dict lookups [df.ww.semantic_tags[column]]
    and [df.ww.logical_types[column]]. *)
Definition ww_column (df : DataFrame) (column : string) : result ColumnSchema :=
  s ← ww_schema df;
  match ww_columns s !! column with
  | Some c => Ok c
  | None => Raise KeyError
  end.

(** [df.ww.add_semantic_tags({column: tag})] *)
Definition ww_add_semantic_tags (df : DataFrame) (column tag : string)
  : result DataFrame :=
  s ← ww_schema df;
  c ← ww_column df column;
  let c' := mkColumnSchema (logical_type c) (semantic_tags c ∪ {[tag]}) in
  Ok (set_schema
        (mkSchema (ww_name s) (ww_index s) (ww_time_index s)
           (<[column := c']> (ww_columns s)) (ww_secondary_time_index s))
        df).

(** [df.ww.set_index(column)]: the column becomes the table's index.  The
    collaborator's own validation of the column is not modelled. *)
Definition ww_set_index (df : DataFrame) (column : string) : result DataFrame :=
  s ← ww_schema df;
  _ ← ww_column df column;
  Ok (set_schema
        (mkSchema (ww_name s) (Some column) (ww_time_index s)
           (ww_columns s) (ww_secondary_time_index s))
        df).

(** [df[column] = pd.Series(name=column, dtype=np.int64)] *)
Definition df_set_empty_int64 (df : DataFrame) (column : string) : DataFrame :=
  mkDataFrame (engine df) (dict_set (data df) column (mkSeries dtype_int64 []))
    (ww df).

(** Python truth value of an optional string argument. *)
Definition truthy_str (o : option string) : bool :=
  match o with
  | None => false
  | Some s => negb (bool_decide (s = ""))
  end.

(** [a or b] on optional strings. *)
Definition or_str (a b : option string) : option string :=
  if truthy_str a then a else b.

(** ** Registration and consistency checks *)

(** The engine test of [add_dataframe] passes: there is no table yet, or
    the new one is of the engine of the first. *)
Definition same_engine_as_first (es : EntitySet) (dataframe : DataFrame) : Prop :=
  match dataframe_dict es with
  | (_, first) :: _ => engine dataframe = engine first
  | [] => True
  end.

(** [already_sorted] is a flag, except where [normalize_dataframe] compares
    a column name with the column [base_dataframe.time_index] (line 690),
    which gives an element-wise comparison instead. *)
Inductive AlreadySorted :=
| sorted_flag (b : bool)
| sorted_elementwise (column : Series).

(** [normalize_dataframe]'s list arguments as the caller passes them: the
    default [None], a list object (by reference into the heap), or some
    other sequence, for which a tuple stands. *)
Inductive ColumnsArg :=
| ColumnsNone
| ColumnsList (ref : nat)
| ColumnsTuple (items : list string).

(** [make_time_index]: [None], a bool or a column name. *)
Inductive MakeTimeIndex :=
| MtiNone
| MtiBool (b : bool)
| MtiStr (s : string).

Definition truthy_mti (m : MakeTimeIndex) : bool :=
  match m with
  | MtiNone => false
  | MtiBool b => b
  | MtiStr s => negb (bool_decide (s = ""))
  end.

(** *** Python lists held by reference *)

Definition alloc (l : list string) : M nat := fun st =>
  (Ok (length (heap st)), mkState (entityset st) (warnings st) (heap st ++ [l])).

(** Reading a list; a reference in use always points to a list. *)
Definition read_list (ref : nat) : M (list string) := fun st =>
  (Ok (default [] (heap st !! ref)), st).

(** [l.append(x)] *)
Definition list_append_state (ref : nat) (x : string) (st : State) : State :=
  mkState (entityset st) (warnings st)
    (<[ref := default [] (heap st !! ref) ++ [x]]> (heap st)).

Definition list_append (ref : nat) (x : string) : M unit := fun st =>
  (Ok tt, list_append_state ref x st).

(** The columns a list argument stands for when the call starts. *)
Definition columns_of (st : State) (columns : ColumnsArg) : list string :=
  match columns with
  | ColumnsNone => []
  | ColumnsList ref => default [] (heap st !! ref)
  | ColumnsTuple items => items
  end.

(** A list argument refers to a list object that exists. *)
Definition list_exists (st : State) (columns : ColumnsArg) : Prop :=
  match columns with
  | ColumnsList ref => is_Some (heap st !! ref)
  | _ => True
  end.

(** [isinstance(columns, list)] on the argument as passed. *)
Definition is_list (columns : ColumnsArg) : bool :=
  match columns with
  | ColumnsList _ => true
  | _ => false
  end.

(** A true value that is not a list. *)
Definition not_a_list (columns : ColumnsArg) : Prop :=
  match columns with
  | ColumnsTuple (_ :: _) => True
  | _ => False
  end.

(** Every list of [st] is still there, unchanged, in [st']: what happens
    when lists are only allocated in between. *)
Definition heap_kept (st st' : State) : Prop :=
  ∀ i x, heap st !! i = Some x → heap st' !! i = Some x.

(** The keyword arguments [add_dataframe] hands to [dataframe.ww.init]. *)
Record InitArgs := mkInitArgs {
  init_name : string;
  init_index : option string;
  init_time_index : option string;
  init_logical_types : list (string * LogicalType);
  init_semantic_tags : list (string * gset string);
  init_make_index : bool;
  init_already_sorted : AlreadySorted
}.

Section Registration.

(** [Relationship(entityset, parent_dataframe_id, parent_column_id,
    child_dataframe_id, child_column_id)]: the constructor lives in
    [relationship.py], which is not among the sources, so it is a
    parameter.  It may update the state and may raise. *)
Variable Relationship_init :
  option string -> option string -> option string -> option string ->
  M Relationship.

(** [dataframe.ww.init(...)], the collaborator's schema inference. *)
Variable ww_init : DataFrame -> InitArgs -> result DataFrame.

(** [vtypes.DEFAULT_DTYPE_VALUES] and [wrangle._check_time_type] are
    imported from modules that are not among the sources. *)
Variable DEFAULT_DTYPE_VALUES : Dtype -> option Value.
Variable _check_time_type : Value -> option TimeType.

(** Modelled from the spec: the [child_column] and [parent_column]
    properties of [Relationship] (missing from the sources) give the
    column of the table under the relationship's column id; its [name]
    is that id.  Reading a column the schema does not have raises. *)
Definition column_name (df : DataFrame) (column_id : string) : result string :=
  _ ← ww_column df column_id;
  Ok column_id.

Definition add_semantic_tags (dataframe_id column tag : string) : M unit :=
  es ← get_es;
  df ← lift (__getitem__ es dataframe_id);
  df' ← lift (ww_add_semantic_tags df column tag);
  put_es (set_dataframe dataframe_id df' es).

Definition set_index (dataframe_id column : string) : M unit :=
  es ← get_es;
  df ← lift (__getitem__ es dataframe_id);
  df' ← lift (ww_set_index df column);
  put_es (set_dataframe dataframe_id df' es).

(** Lines 315-319: whether the empty child column is to be replaced.
    [and] evaluates left to right and stops at the first false operand. *)
Definition needs_int64_cast (child_df parent_df : DataFrame)
  (child_column parent_column : string) : result bool :=
  if bool_decide (engine child_df = Pandas) then
    if df_empty child_df then
      c ← df_column child_df child_column;
      if bool_decide (dtype c = dtype_object) then
        p ← ww_column parent_df parent_column;
        Ok (is_numeric (logical_type p))
      else Ok false
    else Ok false
  else Ok false.

(* The tables [child_df] and [parent_df] of [add_relationship] are the
   objects the entity set holds under the relationship's ids, so every
   update goes to the entity set and every later read comes from it. *)

(** Lines 304-305: the child column gets the [foreign_key] tag. *)
Definition ensure_foreign_key (child_id child_column : string) : M unit :=
  es ← get_es;
  child_df ← lift (__getitem__ es child_id);
  child_col ← lift (ww_column child_df child_column);
  if decide ("foreign_key" ∈ semantic_tags child_col) then mret tt
  else add_semantic_tags child_id child_column "foreign_key".

(** Lines 308-310: the parent column becomes the parent's index. *)
Definition ensure_index (parent_id parent_column : string) : M unit :=
  es ← get_es;
  parent_df ← lift (__getitem__ es parent_id);
  parent_schema ← lift (ww_schema parent_df);
  if decide (ww_index parent_schema = Some parent_column) then mret tt
  else set_index parent_id parent_column.

(** Lines 315-319: an empty object column of the child is replaced by an
    empty int64 column when the parent column is numeric. *)
Definition cast_empty_child (child_id parent_id child_column parent_column : string)
  : M unit :=
  es ← get_es;
  child_df ← lift (__getitem__ es child_id);
  parent_df ← lift (__getitem__ es parent_id);
  cast ← lift (needs_int64_cast child_df parent_df child_column parent_column);
  if cast : bool
  then put_es (set_dataframe child_id
                 (df_set_empty_int64 child_df child_column) es)
  else mret tt.

(** Lines 321-327: both columns must have the same dtype. *)
Definition check_dtypes (child_id parent_id child_column parent_column : string)
  : M unit :=
  es ← get_es;
  parent_df ← lift (__getitem__ es parent_id);
  child_df ← lift (__getitem__ es child_id);
  parent_series ← lift (df_column parent_df parent_column);
  child_series ← lift (df_column child_df child_column);
  if decide (dtype parent_series = dtype child_series) then mret tt
  else raise ValueError.

(** [add_relationship] *)
Definition add_relationship
  (parent_dataframe_id parent_column_id child_dataframe_id child_column_id
     : option string)
  (relationship : option Relationship) : M unit :=
  if bool_decide (is_Some relationship)
     && (truthy_str parent_dataframe_id || truthy_str parent_column_id
         || truthy_str child_dataframe_id || truthy_str child_column_id)
  then raise ValueError
  else
    relationship ←
      match relationship with
      | Some r => mret r
      | None => Relationship_init parent_dataframe_id parent_column_id
                  child_dataframe_id child_column_id
      end;
    es ← get_es;
    if decide (relationship ∈ relationships es) then
      warn (DuplicateRelationshipWarning relationship)
    else
      let child_id := _child_dataframe_id relationship in
      let parent_id := _parent_dataframe_id relationship in
      child_df ← lift (child_dataframe es relationship);
      child_column ← lift (column_name child_df (_child_column_id relationship));
      child_schema ← lift (ww_schema child_df);
      if decide (ww_index child_schema = Some child_column) then raise ValueError
      else
        parent_df ← lift (parent_dataframe es relationship);
        parent_column ←
          lift (column_name parent_df (_parent_column_id relationship));
        ensure_foreign_key child_id child_column;;
        ensure_index parent_id parent_column;;
        cast_empty_child child_id parent_id child_column parent_column;;
        check_dtypes child_id parent_id child_column parent_column;;
        es ← get_es;
        put_es (set_relationships (relationships es ++ [relationship]) es);;
        reset_data_description.

(** [_get_time_type]; its local [variable_id] is never read. *)
Definition _get_time_type (dataframe : DataFrame) (column_id : string)
  : result TimeType :=
  time_to_check ←
    (if negb (bool_decide (engine dataframe = Pandas)) || df_empty dataframe
     then
       _ ← ww_schema dataframe;
       c ← df_column dataframe column_id;
       match DEFAULT_DTYPE_VALUES (dtype c) with
       | Some v => Ok v
       | None => Raise KeyError
       end
     else
       c ← df_column dataframe column_id;
       match values c with
       | v :: _ => Ok v
       | [] => Raise IndexError
       end);
  match _check_time_type time_to_check with
  | None => Raise TypeError
  | Some time_type => Ok time_type
  end.

(** [_check_uniform_time_index] *)
Definition _check_uniform_time_index (dataframe : DataFrame)
  (column_id : option string) : M unit :=
  column_id ←
    (if truthy_str column_id then mret column_id
     else s ← lift (ww_schema dataframe); mret (ww_time_index s));
  match column_id with
  | None => mret tt
  | Some column_id =>
      t ← lift (_get_time_type dataframe column_id);
      es ← get_es;
      match time_type es with
      | None => put_es (set_time_type (Some t) es)
      | Some t0 => if decide (t0 = t) then mret tt else raise TypeError
      end
  end.

(** The loop of [_check_secondary_time_index] over the items of the
    dict; the result is the dict with the lists as the loop leaves them. *)
Fixpoint check_secondary_items (dataframe : DataFrame)
  (items : list (string * list string)) : M (list (string * list string)) :=
  match items with
  | [] => mret []
  | (time_index, columns) :: items' =>
      _check_uniform_time_index dataframe (Some time_index);;
      let columns :=
        if decide (time_index ∈ columns) then columns
        else columns ++ [time_index] in
      rest ← check_secondary_items dataframe items';
      mret ((time_index, columns) :: rest)
  end.

(** [_check_secondary_time_index].  A dict is true when it is not empty;
    with no dict given the one stored in the table's metadata is checked,
    and its lists are updated in place. *)
Definition _check_secondary_time_index (dataframe : DataFrame)
  (secondary_time_index : option (list (string * list string)))
  : M (DataFrame * list (string * list string)) :=
  match secondary_time_index with
  | Some (item :: items) =>
      checked ← check_secondary_items dataframe (item :: items);
      mret (dataframe, checked)
  | _ =>
      s ← lift (ww_schema dataframe);
      match ww_secondary_time_index s with
      | None => mret (dataframe, [])
      | Some stored =>
          checked ← check_secondary_items dataframe stored;
          mret (set_schema
                  (mkSchema (ww_name s) (ww_index s) (ww_time_index s)
                     (ww_columns s) (Some checked))
                  dataframe, checked)
      end
  end.

(** [set_secondary_time_index], called with a dict; the table is handed
    back as the call leaves it.  The check rebinds only its own local, so
    an empty dict is stored as it is. *)
Definition set_secondary_time_index (dataframe : DataFrame)
  (secondary_time_index : list (string * list string)) : M DataFrame :=
  '(dataframe, checked) ←
    _check_secondary_time_index dataframe (Some secondary_time_index);
  s ← lift (ww_schema dataframe);
  let stored :=
    match secondary_time_index with
    | [] => []
    | _ :: _ => checked
    end in
  mret (set_schema
          (mkSchema (ww_name s) (ww_index s) (ww_time_index s)
             (ww_columns s) (Some stored))
          dataframe).

(** [es.set_secondary_time_index(es[dataframe_id], ...)]: the table is
    the object the entity set holds, so the update shows in the entity
    set. *)
Definition set_secondary_time_index_of (dataframe_id : string)
  (secondary_time_index : list (string * list string)) : M unit :=
  es ← get_es;
  dataframe ← lift (__getitem__ es dataframe_id);
  dataframe ← set_secondary_time_index dataframe secondary_time_index;
  es ← get_es;
  put_es (set_dataframe dataframe_id dataframe es).

(** Lines 556-560: every table must be of the engine of the first one.
    The error message reads [self.dataframes[0].df], an attribute of the
    first dataframe, before the [ValueError] is raised. *)
Definition check_same_engine (dataframe : DataFrame) : M unit :=
  es ← get_es;
  match dataframe_dict es with
  | (_, first) :: _ =>
      if decide (engine dataframe = engine first) then mret tt
      else
        _ ← lift (match dict_get (data first) "df" with
                  | Some s => Ok s
                  | None => Raise AttributeError
                  end);
        raise ValueError
  | [] => mret tt
  end.

(** Lines 562-576: a table without schema is initialised from the
    arguments; one that has a schema is only renamed. *)
Definition with_schema (dataframe_id : string) (dataframe : DataFrame)
  (args : InitArgs) : result DataFrame :=
  match ww dataframe with
  | None => ww_init dataframe args
  | Some s =>
      Ok (set_schema
            (mkSchema dataframe_id (ww_index s) (ww_time_index s)
               (ww_columns s) (ww_secondary_time_index s))
            dataframe)
  end.

(** [add_dataframe] *)
Definition add_dataframe (dataframe_id : string) (dataframe : DataFrame)
  (index : option string)
  (logical_types : option (list (string * LogicalType)))
  (semantic_tags : option (list (string * gset string)))
  (make_index : bool) (time_index : option string)
  (secondary_time_index : option (list (string * list string)))
  (already_sorted : AlreadySorted) : M unit :=
  let logical_types := default [] logical_types in
  let semantic_tags := default [] semantic_tags in
  check_same_engine dataframe;;
  dataframe ←
    lift (with_schema dataframe_id dataframe
            (mkInitArgs dataframe_id index time_index logical_types
               semantic_tags make_index already_sorted));
  dataframe ←
    match secondary_time_index with
    | Some (item :: items) => set_secondary_time_index dataframe (item :: items)
    | _ => mret dataframe
    end;
  s ← lift (ww_schema dataframe);
  dataframe ←
    match ww_time_index s with
    | Some _ =>
        _check_uniform_time_index dataframe None;;
        '(dataframe, _) ← _check_secondary_time_index dataframe None;
        mret dataframe
    | None => mret dataframe
    end;
  es ← get_es;
  put_es (set_dataframe dataframe_id dataframe es);;
  reset_data_description.

(** *** [normalize_dataframe] *)

(** The dataframe engine's part in building the new table. *)
Variable ww_copy : DataFrame -> result DataFrame.
Variable drop_duplicates_select :
  DataFrame -> string -> bool -> list string -> result DataFrame.
Variable df_rename : DataFrame -> option string -> option string -> DataFrame.
Variable df_join_on : DataFrame -> DataFrame -> string -> result DataFrame.
Variable ww_drop : DataFrame -> list string -> result DataFrame.

(** [columns or []]: a false value (None, an empty list, an empty tuple)
    is replaced by a new empty list. *)
Definition or_empty_list (columns : ColumnsArg) : M ColumnsArg :=
  match columns with
  | ColumnsNone => ref ← alloc []; mret (ColumnsList ref)
  | ColumnsList ref =>
      l ← read_list ref;
      match l with
      | [] => ref' ← alloc []; mret (ColumnsList ref')
      | _ :: _ => mret columns
      end
  | ColumnsTuple [] => ref ← alloc []; mret (ColumnsList ref)
  | ColumnsTuple (_ :: _) => mret columns
  end.

(** The [isinstance(columns, list)] test followed by the test
    [len(columns) != len(set(columns))]. *)
Definition check_columns (columns : ColumnsArg) : M nat :=
  match columns with
  | ColumnsList ref =>
      l ← read_list ref;
      if decide (length l = size (list_to_set l : gset string))
      then mret ref
      else raise ValueError
  | _ => raise TypeError
  end.

(** [for v in columns: if v == index: raise ValueError] *)
Fixpoint check_not_index (columns : list string) (index : string) : M unit :=
  match columns with
  | [] => mret tt
  | v :: columns' =>
      if decide (v = index) then raise ValueError
      else check_not_index columns' index
  end.

(** [for v in additional_columns: if v == base_dataframe.ww.time_index: raise] *)
Fixpoint check_not_time_index (base_dataframe : DataFrame)
  (additional_columns : list string) : M unit :=
  match additional_columns with
  | [] => mret tt
  | v :: columns' =>
      s ← lift (ww_schema base_dataframe);
      if decide (Some v = ww_time_index s) then raise ValueError
      else check_not_time_index base_dataframe columns'
  end.

(** The loop filling [transfer_types] for the moved and copied columns. *)
Fixpoint transfer_columns (base_dataframe : DataFrame) (columns : list string)
  (transfer_types : list (string * (LogicalType * gset string)))
  : result (list (string * (LogicalType * gset string))) :=
  match columns with
  | [] => Ok transfer_types
  | col_name :: columns' =>
      c ← ww_column base_dataframe col_name;
      transfer_columns base_dataframe columns'
        (dict_set transfer_types col_name
           (logical_type c, semantic_tags c ∖ {["time_index"]}))
  end.

(** [base_dataframe.time_index]: an attribute of the dataframe itself, not
    of its schema accessor; the engine answers with the column of that
    name. *)
Definition df_attr_time_index (df : DataFrame) : result Series :=
  match dict_get (data df) "time_index" with
  | Some s => Ok s
  | None => Raise AttributeError
  end.

Record NormalizeLocals := mkNormalizeLocals {
  nl_base_dataframe : DataFrame;
  nl_additional_columns : nat;
  nl_copy_columns : nat;
  nl_transfer_types : list (string * (LogicalType * gset string));
  nl_new_dataframe : DataFrame;
  nl_make_time_index : MakeTimeIndex;
  nl_base_time_index : option string;
  nl_new_dataframe_time_index : option string;
  nl_already_sorted : AlreadySorted
}.

(** Lines 631-671 of [normalize_dataframe]: the checks on the arguments.
    The result is the base table and the two column lists. *)
Definition normalize_dataframe_validate (base_dataframe_id : string)
  (index : string) (additional_columns copy_columns : ColumnsArg)
  (make_time_index : MakeTimeIndex) : M (DataFrame * nat * nat) :=
  es ← get_es;
  base_dataframe ←
    lift (match dict_get (dataframe_dict es) base_dataframe_id with
          | Some df => Ok df
          | None => Raise KeyError
          end);
  additional_columns ← or_empty_list additional_columns;
  copy_columns ← or_empty_list copy_columns;
  additional_ref ← check_columns additional_columns;
  copy_ref ← check_columns copy_columns;
  additional ← read_list additional_ref;
  copied ← read_list copy_ref;
  check_not_index (additional ++ copied) index;;
  check_not_time_index base_dataframe additional;;
  match make_time_index with
  | MtiStr s =>
      if decide (s ∈ (data base_dataframe).*1) then
        if decide (s ∈ additional ++ copied) then mret tt
        else raise ValueError
      else raise ValueError
  | _ => mret tt
  end;;
  base_schema ← lift (ww_schema base_dataframe);
  (if decide (Some index = ww_index base_schema) then raise ValueError
   else mret tt);;
  mret (base_dataframe, additional_ref, copy_ref).

(** Lines 631-712 of [normalize_dataframe]: everything up to the point
    where the new table is built. *)
Definition normalize_dataframe_checks (base_dataframe_id : string)
  (index : string) (additional_columns copy_columns : ColumnsArg)
  (make_time_index : MakeTimeIndex)
  (new_dataframe_time_index : option string) : M NormalizeLocals :=
  '(base_dataframe, additional_ref, copy_ref) ←
    normalize_dataframe_validate base_dataframe_id index additional_columns
      copy_columns make_time_index;
  additional ← read_list additional_ref;
  copied ← read_list copy_ref;
  base_schema ← lift (ww_schema base_dataframe);
  index_col ← lift (ww_column base_dataframe index);
  transfer_types ←
    lift (transfer_columns base_dataframe (additional ++ copied)
            [(index, (logical_type index_col, semantic_tags index_col))]);
  new_dataframe ← (es ← get_es;
                   df ← lift (__getitem__ es base_dataframe_id);
                   lift (ww_copy df));
  make_time_index ←
    match make_time_index with
    | MtiNone =>
        (* any column is [not None] *)
        _ ← lift (df_attr_time_index base_dataframe);
        mret (MtiBool true)
    | other => mret other
    end;
  '(base_time_index, new_dataframe_time_index, already_sorted, transfer_types) ←
    match make_time_index with
    | MtiStr s =>
        column ← lift (df_attr_time_index base_dataframe);
        mret (Some s, Some s, sorted_elementwise column, transfer_types)
    | MtiBool true =>
        let base_time_index := ww_time_index base_schema in
        let new_dataframe_time_index :=
          match new_dataframe_time_index with
          | None =>
              Some (String.append "first_"
                      (String.append (ww_name base_schema) "_time"))
          | Some t => Some t
          end in
        match base_time_index with
        | None => raise AssertionError
        | Some time_index =>
            (if decide (time_index ∈ additional) then mret tt
             else list_append copy_ref time_index);;
            time_col ← lift (ww_column base_dataframe time_index);
            mret (base_time_index, new_dataframe_time_index, sorted_flag true,
                  match new_dataframe_time_index with
                  | Some t =>
                      dict_set transfer_types t
                        (logical_type time_col, semantic_tags time_col)
                  | None => transfer_types
                  end)
        end
    | _ => mret (None, None, sorted_flag false, transfer_types)
    end;
  (if decide (new_dataframe_time_index = Some index) then raise ValueError
   else mret tt);;
  mret (mkNormalizeLocals base_dataframe additional_ref copy_ref transfer_types
          new_dataframe make_time_index base_time_index
          new_dataframe_time_index already_sorted).

(** Lines 714-750: the new table, and the secondary time index renamed. *)
Definition normalize_dataframe_build (index : string) (l : NormalizeLocals)
  (make_secondary_time_index : option (list (string * list string)))
  (new_dataframe_secondary_time_index : option string)
  : M (DataFrame * option (list (string * list string))) :=
  additional ← read_list (nl_additional_columns l);
  copied ← read_list (nl_copy_columns l);
  let selected_columns := [index] ++ additional ++ copied in
  new_dataframe2 ←
    lift (drop_duplicates_select (nl_new_dataframe l) index true selected_columns);
  let new_dataframe2 :=
    if truthy_mti (nl_make_time_index l)
    then df_rename new_dataframe2 (nl_base_time_index l)
           (nl_new_dataframe_time_index l)
    else new_dataframe2 in
  match make_secondary_time_index with
  | Some (item :: items) =>
      (if decide (length (item :: items) = 1) then mret tt
       else raise AssertionError);;
      let '(secondary_time_index, ti_cols) := item in
      let secondary_columns := [index; secondary_time_index] ++ ti_cols in
      secondary_df ←
        lift (drop_duplicates_select (nl_new_dataframe l) index false
                secondary_columns);
      let renamed := truthy_str new_dataframe_secondary_time_index in
      let secondary_df :=
        if renamed
        then df_rename secondary_df (Some secondary_time_index)
               new_dataframe_secondary_time_index
        else secondary_df in
      let new_name :=
        if renamed then default secondary_time_index
                          new_dataframe_secondary_time_index
        else secondary_time_index in
      new_dataframe ← lift (df_join_on new_dataframe2 secondary_df index);
      let ti_cols :=
        map (fun c => if decide (c = secondary_time_index) then new_name else c)
          ti_cols in
      mret (new_dataframe, Some [(new_name, ti_cols)])
  | other => mret (new_dataframe2, other)
  end.

Definition normalize_dataframe (base_dataframe_id new_dataframe_id : string)
  (index : string) (additional_columns copy_columns : ColumnsArg)
  (make_time_index : MakeTimeIndex)
  (make_secondary_time_index : option (list (string * list string)))
  (new_dataframe_time_index new_dataframe_secondary_time_index : option string)
  : M unit :=
  l ← normalize_dataframe_checks base_dataframe_id index additional_columns
        copy_columns make_time_index new_dataframe_time_index;
  '(new_dataframe, make_secondary_time_index) ←
    normalize_dataframe_build index l make_secondary_time_index
      new_dataframe_secondary_time_index;
  let already_sorted :=
    if bool_decide (engine new_dataframe = Koalas) then sorted_flag false
    else nl_already_sorted l in
  add_dataframe new_dataframe_id new_dataframe (Some index)
    (Some (map (fun '(col_name, (lt, _)) => (col_name, lt))
             (nl_transfer_types l)))
    (Some (map (fun '(col_name, (_, tags)) => (col_name, tags ∖ {["time_index"]}))
             (nl_transfer_types l)))
    false (nl_new_dataframe_time_index l) make_secondary_time_index
    already_sorted;;
  additional ← read_list (nl_additional_columns l);
  es ← get_es;
  base ← lift (__getitem__ es base_dataframe_id);
  base ← lift (ww_drop base additional);
  put_es (set_dataframe base_dataframe_id base es);;
  es ← get_es;
  new_dataframe ← lift (__getitem__ es new_dataframe_id);
  add_semantic_tags base_dataframe_id index "foreign_key";;
  new_schema ← lift (ww_schema new_dataframe);
  base_schema ← lift (ww_schema (nl_base_dataframe l));
  add_relationship (Some (ww_name new_schema)) (Some index)
    (Some (ww_name base_schema)) (Some index) None;;
  reset_data_description.

End Registration.

(** ** Paths with direction flags

    [get_forward_entities] (line 412) and [get_backward_entities] wrap their
    steps as [RelationshipPath([(is_forward, relationship)])]; the path
    search above builds plain lists with [[relationship] + sub_path]. *)

Definition RelationshipPath : Type := list (bool * Relationship).



(** ** A small entity set: cards and their transactions *)

Module Cards.

(** The accessor's [id] answering with the table's name. *)
Definition ww_id (df : DataFrame) : result string :=
  s ← ww_schema df;
  Ok (ww_name s).

Definition cards_schema : Schema :=
  mkSchema "cards" (Some "id") None
    {[ "id" := mkColumnSchema Integer {[ "index" ]} ]} None.

Definition cards : DataFrame :=
  mkDataFrame Pandas [("id", mkSeries dtype_int64 [VInt 1; VInt 2])]
    (Some cards_schema).

Definition transactions_columns (card_id_tags : gset string)
  : gmap string ColumnSchema :=
  <[ "id" := mkColumnSchema Integer {[ "index" ]} ]>
  (<[ "card_id" := mkColumnSchema Integer card_id_tags ]>
   (<[ "settled_time" := mkColumnSchema Datetime ∅ ]>
    {[ "transaction_time" := mkColumnSchema Datetime {[ "time_index" ]} ]})).

Definition transactions_data : list (string * Series) :=
  [("id", mkSeries dtype_int64 [VInt 10; VInt 11; VInt 12]);
   ("card_id", mkSeries dtype_int64 [VInt 1; VInt 2; VInt 1]);
   ("transaction_time",
    mkSeries dtype_datetime64 [VTimestamp 100; VTimestamp 200; VTimestamp 300]);
   ("settled_time",
    mkSeries dtype_datetime64 [VTimestamp 150; VTimestamp 250; VTimestamp 350])].

Definition transactions (card_id_tags : gset string) : DataFrame :=
  mkDataFrame Pandas transactions_data
    (Some (mkSchema "transactions" (Some "id") (Some "transaction_time")
             (transactions_columns card_id_tags) None)).

Definition card_of_transaction : Relationship :=
  mkRelationship "cards" "id" "transactions" "card_id".

(** Both tables registered, no relationship yet. *)
Definition es0 : EntitySet :=
  mkEntitySet (Some "cards") [("cards", cards); ("transactions", transactions ∅)]
    [] (Some datetime) None.

(** After [add_relationship("cards", "id", "transactions", "card_id")]. *)
Definition es1 : EntitySet :=
  mkEntitySet (Some "cards")
    [("cards", cards); ("transactions", transactions {[ "foreign_key" ]})]
    [card_of_transaction] (Some datetime) None.

Definition state (es : EntitySet) : State := mkState es [] [].

End Cards.



(** ** A diamond: two forward paths from [orders] to [regions] *)

Module Diamond.

Definition table (name : string) : DataFrame :=
  mkDataFrame Pandas [] (Some (mkSchema name None None ∅ None)).

Definition to_customers := mkRelationship "customers" "id" "orders" "customer_id".
Definition to_stores := mkRelationship "stores" "id" "orders" "store_id".
Definition customers_region := mkRelationship "regions" "id" "customers" "region_id".
Definition stores_region := mkRelationship "regions" "id" "stores" "region_id".

Definition es : EntitySet :=
  mkEntitySet None
    [("orders", table "orders"); ("customers", table "customers");
     ("stores", table "stores"); ("regions", table "regions")]
    [to_customers; to_stores; customers_region; stores_region]
    None None.

End Diamond.

(** ** Collaborators for the examples *)

Module Collaborators.

(** A constructor that records the four ids and leaves the tables alone. *)
Definition Relationship_init
  (parent_dataframe_id parent_column_id child_dataframe_id child_column_id
     : option string) : M Relationship :=
  match parent_dataframe_id, parent_column_id,
        child_dataframe_id, child_column_id with
  | Some p, Some pc, Some c, Some cc => mret (mkRelationship p pc c cc)
  | _, _, _, _ => raise TypeError
  end.

(** Schema initialisation from the arguments alone: the named columns get
    the given logical types and tags. *)
Definition ww_init (df : DataFrame) (args : InitArgs) : result DataFrame :=
  let tags_of column :=
    default ∅ (dict_get (init_semantic_tags args) column) in
  Ok (set_schema
        (mkSchema (init_name args) (init_index args) (init_time_index args)
           (list_to_map
              (map (fun '(column, lt) =>
                      (column, mkColumnSchema lt (tags_of column)))
                 (init_logical_types args)))
           None)
        df).

Definition DEFAULT_DTYPE_VALUES (d : Dtype) : option Value :=
  match d with
  | dtype_int64 | dtype_Int64 => Some (VInt 0)
  | dtype_float64 => Some (VFloat 1 (-1))
  | dtype_bool => Some (VBool false)
  | dtype_object | dtype_category => Some (VStr "object")
  | dtype_datetime64 => Some (VTimestamp 0)
  end.

(** Modelled from the spec: [wrangle._check_time_type], missing from the
    sources: a time value is classified as numeric or as datetime, and
    anything else is not recognised. *)
Definition _check_time_type (v : Value) : option TimeType :=
  match v with
  | VInt _ | VFloat _ _ => Some numeric
  | VTimestamp _ => Some datetime
  | _ => None
  end.

Definition ww_copy (df : DataFrame) : result DataFrame := Ok df.

(** The positions of the rows that [drop_duplicates] keeps: the first, or
    the last, row of each value. *)
Fixpoint keep_first (seen vs : list Value) : list bool :=
  match vs with
  | [] => []
  | v :: vs' => negb (bool_decide (v ∈ seen)) :: keep_first (v :: seen) vs'
  end.

Definition keep_rows (first : bool) (vs : list Value) : list bool :=
  if first then keep_first [] vs else rev (keep_first [] (rev vs)).

Fixpoint select_rows (keep : list bool) (vs : list Value) : list Value :=
  match keep, vs with
  | true :: keep', v :: vs' => v :: select_rows keep' vs'
  | false :: keep', _ :: vs' => select_rows keep' vs'
  | _, _ => []
  end.

Fixpoint select_columns (df : DataFrame) (keep : list bool)
  (columns : list string) : result (list (string * Series)) :=
  match columns with
  | [] => Ok []
  | column :: columns' =>
      c ← df_column df column;
      rest ← select_columns df keep columns';
      Ok ((column, mkSeries (dtype c) (select_rows keep (values c))) :: rest)
  end.

(** [df.drop_duplicates(index, keep=...)[columns]]: a new dataframe,
    without schema. *)
Definition drop_duplicates_select (df : DataFrame) (index : string)
  (first : bool) (columns : list string) : result DataFrame :=
  key ← df_column df index;
  selected ← select_columns df (keep_rows first (values key)) columns;
  Ok (mkDataFrame (engine df) selected None).

Definition df_rename (df : DataFrame) (old new : option string) : DataFrame :=
  mkDataFrame (engine df)
    (map (fun '(column, c) =>
            (if decide (Some column = old) then default column new else column,
             c))
       (data df))
    (ww df).

(** A join of two tables that list every key once and in the same order:
    the columns of the right table are put next to those of the left. *)
Definition df_join_on (left right : DataFrame) (index : string)
  : result DataFrame :=
  Ok (mkDataFrame (engine left)
        (data left
         ++ List.filter (fun '(column, _) => negb (bool_decide (column = index)))
              (data right))
        (ww left)).

Definition ww_drop (df : DataFrame) (columns : list string) : result DataFrame :=
  s ← ww_schema df;
  Ok (mkDataFrame (engine df)
        (List.filter (fun '(column, _) => negb (bool_decide (column ∈ columns)))
           (data df))
        (Some (mkSchema (ww_name s) (ww_index s) (ww_time_index s)
                 (foldr delete (ww_columns s) columns)
                 (ww_secondary_time_index s)))).

End Collaborators.

(** ** Further example tables *)

Module Stale.

(** [cards] registered again with another index, and [transactions]
    registered again without the foreign key tag, while the relationship
    between them stays in the list. *)
Definition cards : DataFrame :=
  mkDataFrame Pandas
    [("id", mkSeries dtype_int64 [VInt 1; VInt 2]);
     ("number", mkSeries dtype_int64 [VInt 7; VInt 8])]
    (Some (mkSchema "cards" (Some "number") None
             (<[ "id" := mkColumnSchema Integer ∅ ]>
              {[ "number" := mkColumnSchema Integer {[ "index" ]} ]}) None)).

Definition es : EntitySet :=
  mkEntitySet (Some "cards")
    [("cards", cards); ("transactions", Cards.transactions ∅)]
    [Cards.card_of_transaction] (Some datetime) None.

(** [transactions] registered again with [card_id] as its index. *)
Definition transactions_by_card : DataFrame :=
  mkDataFrame Pandas Cards.transactions_data
    (Some (mkSchema "transactions" (Some "card_id") (Some "transaction_time")
             (Cards.transactions_columns {[ "index" ]}) None)).

Definition es_child_index : EntitySet :=
  mkEntitySet (Some "cards")
    [("cards", Cards.cards); ("transactions", transactions_by_card)]
    [Cards.card_of_transaction] (Some datetime) None.

End Stale.

Module NewChildIndex.

(** Both tables registered, [transactions] indexed by [card_id], and no
    relationship yet. *)
Definition es : EntitySet :=
  mkEntitySet (Some "cards")
    [("cards", Cards.cards); ("transactions", Stale.transactions_by_card)]
    [] (Some datetime) None.

End NewChildIndex.

Module Ratings.

(** A table whose time index holds plain numbers. *)
Definition ratings : DataFrame :=
  mkDataFrame Pandas
    [("id", mkSeries dtype_int64 [VInt 1; VInt 2]);
     ("rated_at", mkSeries dtype_int64 [VInt 5; VInt 9])]
    (Some (mkSchema "ratings" (Some "id") (Some "rated_at")
             (<[ "id" := mkColumnSchema Integer {[ "index" ]} ]>
              {[ "rated_at" := mkColumnSchema Integer {[ "time_index" ]} ]})
             None)).

End Ratings.

Module EmptyChild.

(** Tables without rows, as a metadata snapshot has them: the child's
    [card_id] came out as an object column, while the parent's index holds
    floating point numbers. *)
Definition cards (id_type : LogicalType) (id_dtype : Dtype) : DataFrame :=
  mkDataFrame Pandas [("id", mkSeries id_dtype [])]
    (Some (mkSchema "cards" (Some "id") None
             {[ "id" := mkColumnSchema id_type {[ "index" ]} ]} None)).

Definition transactions : DataFrame :=
  mkDataFrame Pandas
    [("id", mkSeries dtype_int64 []); ("card_id", mkSeries dtype_object [])]
    (Some (mkSchema "transactions" (Some "id") None
             (<[ "id" := mkColumnSchema Integer {[ "index" ]} ]>
              {[ "card_id" := mkColumnSchema Categorical ∅ ]})
             None)).

Definition es (id_type : LogicalType) (id_dtype : Dtype) : EntitySet :=
  mkEntitySet (Some "cards")
    [("cards", cards id_type id_dtype); ("transactions", transactions)]
    [] None None.

End EmptyChild.

Module Brands.

(** A table without time index: cards and their brand. *)
Definition cards : DataFrame :=
  mkDataFrame Pandas
    [("id", mkSeries dtype_int64 [VInt 1; VInt 2; VInt 3]);
     ("brand", mkSeries dtype_object [VStr "a"; VStr "b"; VStr "a"])]
    (Some (mkSchema "cards" (Some "id") None
             (<[ "id" := mkColumnSchema Integer {[ "index" ]} ]>
              {[ "brand" := mkColumnSchema Categorical {[ "category" ]} ]})
             None)).

Definition es : EntitySet :=
  mkEntitySet (Some "brands") [("cards", cards)] [] None None.

End Brands.


(** ** Chains of relationships

    What it means for a list of relationships to lead from one table to
    another, one hop at a time.  [source] reads the table a relationship is
    followed from and [target] the table it leads to. *)

#[global] Instance result_eq_dec {A : Type} `{EqDecision A}
  : EqDecision (result A).
Proof. solve_decision. Defined.

Section Chains.

Variable es : EntitySet.
Variables source target : Relationship -> result string.

(** [chain start path ids]: every relationship of [path] is registered, the
    first one is followed from [start], each next one from the table the
    previous one led to, and [ids] lists the tables reached, in order. *)
Fixpoint chain (start : string) (path : list Relationship) (ids : list string)
  : Prop :=
  match path, ids with
  | [], [] => True
  | r :: path', next :: ids' =>
      r ∈ relationships es
      ∧ source r = Ok start
      ∧ target r = Ok next
      ∧ chain next path' ids'
  | _, _ => False
  end.

(** The table a chain ends at. *)
Fixpoint chain_end (start : string) (ids : list string) : string :=
  match ids with
  | [] => start
  | next :: ids' => chain_end next ids'
  end.

End Chains.

(** The table a forward hop leads to, as [_forward_entity_paths] reads it
    (line 393). *)
Definition forward_target (ww_id : DataFrame -> result string) (es : EntitySet)
  (r : Relationship) : result string :=
  parent_dataframe es r ≫= ww_id.


(** A chain of forward hops as the path search follows them. *)
Definition follows (ww_id : DataFrame -> result string) (es : EntitySet)
  : string -> list Relationship -> list string -> Prop :=
  chain es (child_name es) (forward_target ww_id es).

(** ** Direct and deep neighbours *)

Section Neighbours.

Variable ww_id : DataFrame -> result string.
Variable es : EntitySet.

Definition EntityStep : Type := string * RelationshipPath.

(** The loop of [get_forward_entities] and of [get_backward_entities], which
    differ in the relationships they go through, in the table a
    relationship leads to ([target]) and in the direction flag.
    [sub_entities] is the recursive call with [deep=True]. *)
Fixpoint entities_loop (is_forward : bool)
  (target : Relationship -> result string) (deep : bool)
  (sub_entities : string -> option (Gen EntityStep))
  (rels : list Relationship) : option (Gen EntityStep) :=
  match rels with
  | [] => Some gen_return
  | relationship :: rels' =>
      match target relationship with
      | Raise e => Some (gen_raise e)
      | Ok dataframe_id =>
          let direct_path : RelationshipPath := [(is_forward, relationship)] in
          match (if deep then sub_entities dataframe_id else Some gen_return) with
          | None => None
          | Some sub =>
              let g :=
                gen_yield (dataframe_id, direct_path)
                  (gen_for sub (fun '(sub_dataframe_id, path) =>
                     gen_yield (sub_dataframe_id, direct_path ++ path)
                               gen_return)) in
              match finish g with
              | Raised _ => Some g
              | Exhausted =>
                  match entities_loop is_forward target deep sub_entities rels'
                  with
                  | None => None
                  | Some rest => Some (gen_seq g rest)
                  end
              end
          end
      end
  end.

(** [get_forward_entities], by recursion on a depth bound ([None]: the bound
    was reached).  The parent is read as [parent_dataframe.ww.name]
    (line 411).  Nothing keeps track of the tables already visited. *)
Fixpoint get_forward_entities_depth (depth : nat) (entity_id : string)
  (deep : bool) : option (Gen EntityStep) :=
  match depth with
  | O => None
  | S depth' =>
      match get_forward_relationships es entity_id with
      | Raise e => Some (gen_raise e)
      | Ok rels =>
          entities_loop true (parent_name es) deep
            (fun parent_dataframe_id =>
               get_forward_entities_depth depth' parent_dataframe_id true)
            rels
      end
  end.


End Neighbours.

(** ** A table related to itself *)

Module Managers.

(** Employees, each with the id of their manager, who is an employee. *)
Definition employees : DataFrame :=
  mkDataFrame Pandas
    [("id", mkSeries dtype_int64 [VInt 1; VInt 2]);
     ("manager_id", mkSeries dtype_int64 [VInt 1; VInt 1])]
    (Some (mkSchema "employees" (Some "id") None
             (<[ "id" := mkColumnSchema Integer {[ "index" ]} ]>
              {[ "manager_id" := mkColumnSchema Integer {[ "foreign_key" ]} ]})
             None)).

Definition manager_of_employee : Relationship :=
  mkRelationship "employees" "id" "employees" "manager_id".

Definition es : EntitySet :=
  mkEntitySet (Some "staff") [("employees", employees)]
    [manager_of_employee] None None.

End Managers.

(** ** Several relationships, and all the time indexes *)

(** An element of the list handed to [add_relationships]: a
    [Relationship] object, or a tuple of the four ids. *)
Inductive RelationshipArg :=
| rel_object (relationship : Relationship)
| rel_tuple (parent_dataframe_id parent_column_id
             child_dataframe_id child_column_id : string).

(** The entity set with another table dict. *)
Definition set_dataframe_dict (tables : list (string * DataFrame))
  (es : EntitySet) : EntitySet :=
  mkEntitySet (es_id es) tables (relationships es) (time_type es)
    (_data_description es).

Section Batches.

Variable Relationship_init :
  option string -> option string -> option string -> option string ->
  M Relationship.
Variable DEFAULT_DTYPE_VALUES : Dtype -> option Value.
Variable _check_time_type : Value -> option TimeType.

(** [add_relationships]: the relationships are added one after the other,
    and the first call that raises ends the loop. *)
Fixpoint add_relationships (relationships : list RelationshipArg) : M unit :=
  match relationships with
  | [] => mret tt
  | rel :: relationships' =>
      match rel with
      | rel_object r =>
          add_relationship Relationship_init None None None None (Some r)
      | rel_tuple p pc c cc =>
          add_relationship Relationship_init (Some p) (Some pc) (Some c)
            (Some cc) None
      end;;
      add_relationships relationships'
  end.

(** The loop of [_check_time_indexes] over the values of the table dict,
    from the given position on; a table's secondary time index lists are
    updated in the table the dict holds. *)
Fixpoint check_time_indexes_from (position : nat)
  (tables : list (string * DataFrame)) : M unit :=
  match tables with
  | [] => mret tt
  | (k, dataframe) :: tables' =>
      _check_uniform_time_index DEFAULT_DTYPE_VALUES _check_time_type
        dataframe None;;
      '(dataframe, _) ←
        _check_secondary_time_index DEFAULT_DTYPE_VALUES _check_time_type
          dataframe None;
      es ← get_es;
      put_es (set_dataframe_dict
                (<[position := (k, dataframe)]> (dataframe_dict es)) es);;
      check_time_indexes_from (S position) tables'
  end.

Definition _check_time_indexes : M unit :=
  es ← get_es;
  check_time_indexes_from 0 (dataframe_dict es).

End Batches.

(** ** What a call leaves alone *)

(** The ids of the tables, in order, each with the name its schema gives
    the table. *)
Definition table_names (es : EntitySet) : list (string * option string) :=
  map (fun '(k, df) => (k, ww_name <$> ww df)) (dataframe_dict es).

(** [st'] differs from [st] at most in what the tables hold: the tables
    are the same ones under the same names, and the rest of the state is
    as it was. *)
Definition only_tables_differ (st st' : State) : Prop :=
  es_id (entityset st') = es_id (entityset st)
  ∧ table_names (entityset st') = table_names (entityset st)
  ∧ relationships (entityset st') = relationships (entityset st)
  ∧ time_type (entityset st') = time_type (entityset st)
  ∧ _data_description (entityset st') = _data_description (entityset st)
  ∧ warnings st' = warnings st
  ∧ heap st' = heap st.

(** [st'] differs from [st] at most in a time type that was still open in
    [st] and is recorded in [st']. *)
Definition only_time_type_set (st st' : State) : Prop :=
  es_id (entityset st') = es_id (entityset st)
  ∧ dataframe_dict (entityset st') = dataframe_dict (entityset st)
  ∧ relationships (entityset st') = relationships (entityset st)
  ∧ _data_description (entityset st') = _data_description (entityset st)
  ∧ warnings st' = warnings st
  ∧ heap st' = heap st
  ∧ (time_type (entityset st') = time_type (entityset st)
     ∨ time_type (entityset st) = None
       ∧ ∃ t, time_type (entityset st') = Some t).

(** What [_check_secondary_time_index] does to one entry of the dict: the
    time index is appended to its own list unless it is there. *)
Definition checked_item (item : string * list string) : string * list string :=
  (item.1, if decide (item.1 ∈ item.2) then item.2 else item.2 ++ [item.1]).

Section Classified.

Variable DEFAULT_DTYPE_VALUES : Dtype -> option Value.
Variable _check_time_type : Value -> option TimeType.

(** The column of the table is classified, and its classification is the
    time type the entity set has recorded. *)
Definition classified_as (es : EntitySet) (dataframe : DataFrame)
  (column : string) : Prop :=
  ∃ t, _get_time_type DEFAULT_DTYPE_VALUES _check_time_type dataframe column
       = Ok t
       ∧ time_type es = Some t.

(** The column [_check_uniform_time_index] looks at: the one given unless
    it is a false value, else the time index of the table. *)
Definition column_to_check (dataframe : DataFrame) (column_id : option string)
  : option string :=
  if truthy_str column_id then column_id
  else ww dataframe ≫= ww_time_index.

End Classified.

(** The dict [_check_secondary_time_index] goes through: the one given
    unless it is a false value, else the one stored in the table. *)
Definition secondary_items (dataframe : DataFrame)
  (secondary_time_index : option (list (string * list string)))
  : list (string * list string) :=
  match secondary_time_index with
  | Some (item :: items) => item :: items
  | _ => default [] (ww dataframe ≫= ww_secondary_time_index)
  end.

(** Two tables that differ at most in the stored secondary time index. *)
Definition same_but_secondary (df df' : DataFrame) : Prop :=
  engine df' = engine df
  ∧ data df' = data df
  ∧ (fun s => (ww_name s, ww_index s, ww_time_index s, ww_columns s)) <$> ww df'
    = (fun s => (ww_name s, ww_index s, ww_time_index s, ww_columns s)) <$> ww df.

Section Uniform.

Variable DEFAULT_DTYPE_VALUES : Dtype -> option Value.
Variable _check_time_type : Value -> option TimeType.

(** The time index of the table and the time columns of its secondary
    time index are all classified as the entity set's time type, and every
    secondary time column is in its own list of columns. *)
Definition time_indexes_uniform (es : EntitySet) (df : DataFrame) : Prop :=
  (∀ column,
     ww df ≫= ww_time_index = Some column →
     classified_as DEFAULT_DTYPE_VALUES _check_time_type es df column)
  ∧ Forall (fun item =>
              item.1 ∈ item.2
              ∧ ∀ column,
                  column_to_check df (Some item.1) = Some column →
                  classified_as DEFAULT_DTYPE_VALUES _check_time_type es df
                    column)
      (default [] (ww df ≫= ww_secondary_time_index)).

End Uniform.

(** [st'] has the entity set and the warnings of [st]; the list objects of
    the caller may differ. *)
Definition entityset_kept (st st' : State) : Prop :=
  entityset st' = entityset st ∧ warnings st' = warnings st.

(** * Properties *)

(** ** Running a stateful computation *)

Section MonadFacts.

Context {A B : Type}.

Lemma bind_Ok (m : M A) (f : A -> M B) (st : State) (a : A) (st' : State) :
  m st = (Ok a, st') → (m ≫= f) st = f a st'.
Proof. intros H. unfold mbind, M_bind. by rewrite H. Qed.

Lemma bind_Raise (m : M A) (f : A -> M B) (st : State) (e : exn) (st' : State) :
  m st = (Raise e, st') → (m ≫= f) st = (Raise e, st').
Proof. intros H. unfold mbind, M_bind. by rewrite H. Qed.

Lemma bind_Ok_inv (m : M A) (f : A -> M B) (st : State) (b : B) (st' : State) :
  (m ≫= f) st = (Ok b, st') →
  ∃ a st1, m st = (Ok a, st1) ∧ f a st1 = (Ok b, st').
Proof.
  unfold mbind, M_bind. destruct (m st) as [[a|e] st1]; [|done].
  intros H. by exists a, st1.
Qed.

End MonadFacts.

Ltac bind_inv H :=
  let a := fresh "a" in
  let st := fresh "st" in
  let Hm := fresh "Hm" in
  apply bind_Ok_inv in H as (a & st & Hm & H).


(** ** Sets of names *)

Lemma size_list_to_set_le (l : list string) :
  size (list_to_set l : gset string) ≤ length l.
Proof.
  induction l as [|x l IH].
  - rewrite list_to_set_nil, size_empty. done.
  - rewrite list_to_set_cons, size_union_alt, size_singleton.
    cbn [length]. apply le_n_S. etrans; [|exact IH].
    apply subseteq_size. set_solver.
Qed.

(** ** Generators *)

Section GeneratorFacts.

Context {A B : Type}.


Lemma gen_seq_yields (g1 g2 : Gen A) (x : A) :
  x ∈ yields (gen_seq g1 g2) → x ∈ yields g1 ∨ x ∈ yields g2.
Proof.
  unfold gen_seq. destruct (finish g1); simpl.
  - rewrite elem_of_app. tauto.
  - tauto.
Qed.

End GeneratorFacts.

(** ** Path search *)

Section TraversalFacts.

Variable ww_id : DataFrame -> result string.
Variable es : EntitySet.


(** *** The search returns *)

Lemma filter_by_subset key entity_id rels found :
  filter_by key entity_id rels = Ok found → found ⊆ rels.
Proof.
  revert found. induction rels as [|r rels IH]; simpl; intros found H.
  - injection H as <-. done.
  - destruct (key r) as [k|]; simpl in H; [|done].
    destruct (filter_by key entity_id rels) as [rest|]; simpl in H; [|done].
    injection H as <-. specialize (IH rest eq_refl).
    case_decide; set_solver.
Qed.

Lemma parent_ids_size : size (parent_ids ww_id es) ≤ length (relationships es).
Proof.
  unfold parent_ids. etrans; [apply size_list_to_set_le|].
  induction (relationships es) as [|r rels IH]; [done|].
  cbn [omap list_omap length].
  destruct (parent_dataframe es r ≫= ww_id); cbn [length]; lia.
Qed.

Lemma forward_loop_is_Some descendants rels :
  rels ⊆ relationships es →
  (∀ next, next ∈ (parent_ids ww_id es) → is_Some (descendants next)) →
  is_Some ((forward_loop ww_id es) descendants rels).
Proof.
  intros Hsub Hdesc. induction rels as [|r rels IH]; simpl; [by eexists|].
  destruct (parent_dataframe es r ≫= ww_id) as [next|e] eqn:Hnext;
    [|by eexists].
  destruct (Hdesc next) as [sub ->].
  { unfold parent_ids. rewrite elem_of_list_to_set, list_elem_of_omap.
    exists r. split; [set_solver|]. by rewrite Hnext. }
  destruct (finish _); [|by eexists].
  destruct IH as [rest ->]; [set_solver|]. by eexists.
Qed.

Lemma forward_entity_paths_depth_is_Some depth start seen :
  start ∈ (parent_ids ww_id es) →
  size ((parent_ids ww_id es) ∖ seen) < depth →
  is_Some ((forward_entity_paths_depth ww_id es) depth start seen).
Proof.
  revert start seen. induction depth as [|depth IH]; intros start seen Hin Hsize;
    [lia|].
  simpl. case_decide as Hseen; [by eexists|].
  destruct (get_forward_relationships es start) as [rels|e] eqn:Hrels;
    [|by eexists].
  apply filter_by_subset in Hrels.
  destruct (forward_loop_is_Some
              (fun next => (forward_entity_paths_depth ww_id es) depth next (seen ∪ {[start]}))
              rels Hrels) as [rest ->]; [|by eexists].
  intros next Hnext. apply IH; [done|].
  assert (parent_ids ww_id es ∖ (seen ∪ {[start]}) ⊂ parent_ids ww_id es ∖ seen)
    as Hlt.
  { split; [set_solver|]. intros Hsub. specialize (Hsub start). set_solver. }
  apply subset_size in Hlt. lia.
Qed.

Lemma forward_entity_paths_depth_start depth start :
  size (parent_ids ww_id es) < depth →
  is_Some (forward_entity_paths_depth ww_id es (S depth) start ∅).
Proof.
  intros Hsize. simpl. case_decide as Hseen; [set_solver|].
  destruct (get_forward_relationships es start) as [rels|e] eqn:Hrels;
    [|by eexists].
  apply filter_by_subset in Hrels.
  destruct (forward_loop_is_Some
              (fun next => forward_entity_paths_depth ww_id es depth next
                             (∅ ∪ {[start]}))
              rels Hrels) as [rest ->]; [|by eexists].
  intros next Hnext. apply forward_entity_paths_depth_is_Some; [done|].
  assert (size (parent_ids ww_id es ∖ (∅ ∪ {[start]})) ≤ size (parent_ids ww_id es))
    by (apply subseteq_size; set_solver).
  lia.
Qed.

(** The depth bound is never reached: [(_forward_entity_paths ww_id es)] is the
    result of the recursion. *)
Lemma _forward_entity_paths_total start :
  (forward_entity_paths_depth ww_id es) (search_depth es) start ∅
  = Some ((_forward_entity_paths ww_id es) start).
Proof.
  unfold _forward_entity_paths, search_depth.
  destruct (forward_entity_paths_depth_start (S (length (relationships es))) start)
    as [g ->]; [|done].
  pose proof parent_ids_size. lia.
Qed.

(** A deeper bound gives the same generator: the result does not depend on
    the bound once it is large enough. *)
Lemma forward_loop_mono (descendants descendants' : string -> option (Gen Step))
  (rels : list Relationship) (g : Gen Step) :
  (∀ next sub, descendants next = Some sub → descendants' next = Some sub) →
  forward_loop ww_id es descendants rels = Some g →
  forward_loop ww_id es descendants' rels = Some g.
Proof.
  intros Hdesc. revert g. induction rels as [|r rels IH]; simpl; intros g Hg;
    [done|].
  destruct (parent_dataframe es r ≫= ww_id) as [next|e]; [|done].
  destruct (descendants next) as [sub|] eqn:Hsub; [|done].
  rewrite (Hdesc next sub Hsub).
  destruct (finish _); [|done].
  destruct (forward_loop ww_id es descendants rels) as [rest|]; [|done].
  by rewrite (IH rest eq_refl).
Qed.

Lemma forward_entity_paths_depth_mono (depth depth' : nat) (start : string)
  (seen : gset string) (g : Gen Step) :
  depth ≤ depth' →
  forward_entity_paths_depth ww_id es depth start seen = Some g →
  forward_entity_paths_depth ww_id es depth' start seen = Some g.
Proof.
  revert depth' start seen g.
  induction depth as [|depth IH]; intros depth' start seen g Hle; [done|].
  destruct depth' as [|depth']; [lia|]. simpl.
  case_decide; [done|].
  destruct (get_forward_relationships es start) as [rels|e]; [|done].
  destruct (forward_loop ww_id es
              (fun next => forward_entity_paths_depth ww_id es depth next
                             (seen ∪ {[start]})) rels) as [rest|] eqn:Hrest;
    [|done].
  intros [= <-].
  erewrite forward_loop_mono; [done| |exact Hrest].
  intros next sub. apply IH. lia.
Qed.

Lemma _forward_entity_paths_any_depth (depth : nat) (start : string) :
  search_depth es ≤ depth →
  forward_entity_paths_depth ww_id es depth start ∅
  = Some (_forward_entity_paths ww_id es start).
Proof.
  intros Hle. eapply forward_entity_paths_depth_mono; [exact Hle|].
  apply _forward_entity_paths_total.
Qed.

(** *** Shape of what is yielded *)

Lemma extended_paths_nonempty (r : Relationship) (xs : list Step) (fin : ending) :
  ∀ z, z ∈ yields
         (gen_for_list xs fin
            (fun '(sub_dataframe_id, sub_path) =>
               gen_yield (sub_dataframe_id, r :: sub_path) gen_return))
       → z.2 ≠ [].
Proof.
  intros z. induction xs as [|[i p] xs IH]; simpl; intros Hz.
  - by apply elem_of_nil in Hz.
  - apply elem_of_cons in Hz as [->|Hz]; [done|]. by apply IH.
Qed.

Lemma forward_loop_paths_nonempty descendants rels g :
  (forward_loop ww_id es) descendants rels = Some g →
  ∀ y, y ∈ yields g → y.2 ≠ [].
Proof.
  revert g. induction rels as [|r rels IH]; simpl; intros g Hg y Hy.
  - injection Hg as <-. simpl in Hy. by apply elem_of_nil in Hy.
  - destruct (parent_dataframe es r ≫= ww_id) as [next|e].
    2:{ injection Hg as <-. simpl in Hy. by apply elem_of_nil in Hy. }
    destruct (descendants next) as [sub|]; [|done].
    unfold gen_for in Hg.
    pose proof (extended_paths_nonempty r (yields sub) (finish sub)) as Hhead.
    destruct (finish _).
    + destruct ((forward_loop ww_id es) descendants rels) as [rest|]; [|done].
      injection Hg as <-. apply gen_seq_yields in Hy as [Hy|Hy].
      * by apply Hhead.
      * by eapply IH.
    + injection Hg as <-. by apply Hhead.
Qed.

Lemma forward_entity_paths_depth_yields depth start seen g :
  (forward_entity_paths_depth ww_id es) depth start seen = Some g →
  yields g = [] ∨
  ∃ ys, yields g = (start, []) :: ys ∧ ∀ y, y ∈ ys → y.2 ≠ [].
Proof.
  destruct depth as [|depth]; simpl; [done|].
  case_decide; [intros [= <-]; by left|].
  destruct (get_forward_relationships es start) as [rels|e].
  - destruct ((forward_loop ww_id es) _ rels) as [rest|] eqn:Hrest; [|done].
    intros [= <-]. right. exists (yields rest). split; [done|].
    by eapply forward_loop_paths_nonempty.
  - intros [= <-]. right. exists []. split; [done|].
    intros y Hy. by apply elem_of_nil in Hy.
Qed.

Lemma select_goal_yields (goal : string) (xs : list Step) (fin : ending) :
  gen_for_list xs fin
    (fun '(sub_dataframe_id, path) =>
       if decide (sub_dataframe_id = goal)
       then gen_yield path gen_return
       else gen_return)
  = mkGen (map snd (List.filter (fun y => bool_decide (y.1 = goal)) xs)) fin.
Proof.
  induction xs as [|[i p] xs IH]; simpl; [done|].
  rewrite IH. destruct (decide (i = goal)) as [Heq|Hne].
  - by rewrite bool_decide_eq_true_2.
  - by rewrite bool_decide_eq_false_2.
Qed.

Lemma find_forward_paths_unfold start goal :
  find_forward_paths ww_id es start goal
  = mkGen
      (map snd (List.filter (fun y => bool_decide (y.1 = goal))
                  (yields (_forward_entity_paths ww_id es start))))
      (finish (_forward_entity_paths ww_id es start)).
Proof. unfold find_forward_paths, gen_for. apply select_goal_yields. Qed.

(** The start table comes first with the empty path; every later path has
    at least one step. *)
Lemma _forward_entity_paths_yields start :
  ∃ ys, yields (_forward_entity_paths ww_id es start) = (start, []) :: ys
        ∧ ∀ y, y ∈ ys → y.2 ≠ [].
Proof.
  pose proof (_forward_entity_paths_total start) as Htotal.
  unfold search_depth in Htotal. simpl in Htotal.
  case_decide as Hseen; [set_solver|].
  destruct (get_forward_relationships es start) as [rels|e].
  - destruct (forward_loop _ _ _ rels) as [rest|] eqn:Hrest; [|done].
    injection Htotal as <-. exists (yields rest). split; [done|].
    by eapply forward_loop_paths_nonempty.
  - injection Htotal as <-. exists []. split; [done|].
    intros y Hy. by apply elem_of_nil in Hy.
Qed.

Lemma find_forward_paths_later_nonempty start goal p rest :
  yields (find_forward_paths ww_id es start goal) = p :: rest →
  ∀ q, q ∈ rest → q ≠ [].
Proof.
  rewrite find_forward_paths_unfold. simpl.
  destruct (_forward_entity_paths_yields start) as (ys & -> & Hys).
  assert (∀ q, q ∈ map snd (List.filter
                             (fun y : string * list Relationship =>
                                bool_decide (y.1 = goal)) ys)
               → q ≠ []) as Hlater.
  { intros q Hq. apply list_elem_of_fmap in Hq as (y & -> & Hy).
    apply Hys. apply list_elem_of_In, filter_In in Hy as [Hy _].
    by apply list_elem_of_In. }
  simpl. destruct (bool_decide (start = goal)); simpl.
  - intros [= <- <-]. exact Hlater.
  - intros Heq q Hq. apply Hlater. rewrite Heq. by apply elem_of_cons; right.
Qed.

End TraversalFacts.

(** *** Backward paths *)



(** *** Uniqueness of the forward path *)

(** C2: [has_unique_forward_path(A, B)] returns true if and only if
    [find_forward_paths(A, B)] yields exactly one path and is then
    exhausted; it returns false when two or more paths are yielded; and
    when no path is yielded it raises: [StopIteration] if the generator is
    exhausted, and otherwise the exception the generator raised. *)
Theorem has_unique_forward_path_iff_one_path
  (ww_id : DataFrame -> result string) (es : EntitySet) (A B : string) :
  let paths := find_forward_paths ww_id es A B in
  (has_unique_forward_path ww_id es A B = Ok true
   ↔ ∃ p, yields paths = [p] ∧ finish paths = Exhausted)
  ∧ (2 ≤ length (yields paths) → has_unique_forward_path ww_id es A B = Ok false)
  ∧ (yields paths = [] →
     has_unique_forward_path ww_id es A B
     = Raise match finish paths with
             | Exhausted => StopIteration
             | Raised e => e
             end).
Proof.
  intros paths.
  pose proof (find_forward_paths_later_nonempty ww_id es A B) as Hlater.
  fold paths in Hlater.
  unfold has_unique_forward_path. fold paths.
  unfold next, next_default.
  destruct paths as [ys fin]. simpl in *.
  destruct ys as [|p [|q rest]]; simpl.
  - split; [|split].
    + destruct fin; split; try done; intros (? & ? & ?); done.
    + lia.
    + by destruct fin.
  - split; [|split].
    + destruct fin; simpl; split; try done.
      * intros _. by exists p.
      * intros (? & ? & ?). done.
    + lia.
    + done.
  - assert (q ≠ []) as Hq.
    { apply (Hlater p (q :: rest) eq_refl). by left. }
    destruct q as [|r q]; [done|]. simpl.
    split; [|split].
    + split; [done|]. intros (? & ? & ?). done.
    + done.
    + done.
Qed.

(** Two relationships lead from [orders] to [regions] through different
    tables, so the forward path is not unique. *)
Example has_unique_forward_path_diamond :
  yields (find_forward_paths Cards.ww_id Diamond.es "orders" "regions")
  = [[Diamond.to_customers; Diamond.customers_region];
     [Diamond.to_stores; Diamond.stores_region]]
  ∧ has_unique_forward_path Cards.ww_id Diamond.es "orders" "regions" = Ok false
  ∧ has_unique_forward_path Cards.ww_id Diamond.es "orders" "stores" = Ok true
  ∧ has_unique_forward_path Cards.ww_id Diamond.es "regions" "orders"
    = Raise StopIteration.
Proof. by vm_compute. Qed.

(** ** Registering relationships *)

Section AddRelationshipFacts.

Variable Relationship_init :
  option string -> option string -> option string -> option string ->
  M Relationship.

(** A relationship that is already in the list: the call warns and
    returns, and the state is otherwise as it was. *)
Lemma add_relationship_duplicate_run (st : State) (r : Relationship) :
  r ∈ relationships (entityset st) →
  add_relationship Relationship_init None None None None (Some r) st
  = (Ok tt,
     mkState (entityset st) (warnings st ++ [DuplicateRelationshipWarning r])
       (heap st)).
Proof.
  intros Hin. unfold add_relationship. simpl.
  unfold mbind, M_bind, mret, M_ret, get_es. simpl.
  rewrite decide_True by done. reflexivity.
Qed.

End AddRelationshipFacts.

(** C5: calling [add_relationship] with a relationship equal to one already
    in the relationships list emits a warning, leaves the relationships list
    (length and contents) unchanged, and does not raise. *)
Theorem add_relationship_duplicate_warns
  (Relationship_init :
     option string -> option string -> option string -> option string ->
     M Relationship)
  (st : State) (r : Relationship) :
  r ∈ relationships (entityset st) →
  let '(res, st') :=
    add_relationship Relationship_init None None None None (Some r) st in
  res = Ok tt
  ∧ warnings st' = warnings st ++ [DuplicateRelationshipWarning r]
  ∧ relationships (entityset st') = relationships (entityset st)
  ∧ length (relationships (entityset st')) = length (relationships (entityset st)).
Proof.
  intros Hin. rewrite add_relationship_duplicate_run by done. done.
Qed.

Lemma add_relationship_duplicate_warns_witness :
  Cards.card_of_transaction ∈ relationships Cards.es1
  ∧ let '(res, st') :=
      add_relationship Collaborators.Relationship_init None None None None
        (Some Cards.card_of_transaction) (Cards.state Cards.es1) in
    res = Ok tt
    ∧ warnings st' = [DuplicateRelationshipWarning Cards.card_of_transaction]
    ∧ relationships (entityset st') = [Cards.card_of_transaction]
    ∧ length (relationships (entityset st')) = 1.
Proof.
  split; [by left|].
  apply (add_relationship_duplicate_warns Collaborators.Relationship_init
           (Cards.state Cards.es1) Cards.card_of_transaction).
  by left.
Defined.

(** C3 (as amended): for every entity set that already contains a
    relationship R, calling [add_relationship] again with a relationship
    equal to R is stopped by the duplicate check before any table is
    touched: no parent column is promoted to index and no [foreign_key] tag
    is added, every table stays as it was. *)
Theorem add_relationship_duplicate_leaves_tables
  (Relationship_init :
     option string -> option string -> option string -> option string ->
     M Relationship)
  (st : State) (r : Relationship) :
  r ∈ relationships (entityset st) →
  dataframe_dict
    (entityset
       (add_relationship Relationship_init None None None None (Some r) st).2)
  = dataframe_dict (entityset st).
Proof.
  intros Hin. by rewrite add_relationship_duplicate_run.
Qed.

Lemma add_relationship_duplicate_leaves_tables_witness :
  Cards.card_of_transaction ∈ relationships Stale.es
  ∧ dataframe_dict
      (entityset
         (add_relationship Collaborators.Relationship_init None None None None
            (Some Cards.card_of_transaction) (Cards.state Stale.es)).2)
    = dataframe_dict Stale.es.
Proof.
  split; [by left|].
  apply (add_relationship_duplicate_leaves_tables
           Collaborators.Relationship_init (Cards.state Stale.es)
           Cards.card_of_transaction).
  by left.
Defined.

(** C3, counterexample: the relationship from [transactions.card_id] to
    [cards.id] is in the list, [cards] is indexed by [number] and [card_id]
    has no [foreign_key] tag.  Adding the relationship again returns with a
    warning; afterwards [cards] is still indexed by [number] and [card_id]
    still has no [foreign_key] tag. *)
Lemma add_relationship_duplicate_skips_updates :
  let st' :=
    (add_relationship Collaborators.Relationship_init None None None None
       (Some Cards.card_of_transaction) (Cards.state Stale.es)).2 in
  (__getitem__ (entityset st') "cards" ≫= ww_schema) ≫= (fun s => Ok (ww_index s))
  = Ok (Some "number")
  ∧ (ww_column (Cards.transactions ∅) "card_id"
       ≫= (fun c => Ok (bool_decide ("foreign_key" ∈ semantic_tags c))))
    = Ok false
  ∧ __getitem__ (entityset st') "transactions" = Ok (Cards.transactions ∅)
  ∧ warnings st' = [DuplicateRelationshipWarning Cards.card_of_transaction].
Proof. by vm_compute. Qed.

(** [Stale.es] is reached from [Cards.es1] by registering both tables
    again, and [Stale.es_child_index] by registering [transactions] again
    with [card_id] as its index. *)
Example stale_entity_sets_are_reachable :
  (add_dataframe Collaborators.ww_init Collaborators.DEFAULT_DTYPE_VALUES
     Collaborators._check_time_type "cards" Stale.cards None None None false
     None None (sorted_flag false);;
   add_dataframe Collaborators.ww_init Collaborators.DEFAULT_DTYPE_VALUES
     Collaborators._check_time_type "transactions" (Cards.transactions ∅)
     None None None false None None (sorted_flag false))
    (Cards.state Cards.es1)
  = (Ok tt, Cards.state Stale.es)
  ∧ add_dataframe Collaborators.ww_init Collaborators.DEFAULT_DTYPE_VALUES
      Collaborators._check_time_type "transactions" Stale.transactions_by_card
      None None None false None None (sorted_flag false)
      (Cards.state Cards.es1)
    = (Ok tt, Cards.state Stale.es_child_index).
Proof. by vm_compute. Qed.

(** C6 (as amended): calling [add_relationship] with a relationship that is
    not yet in the relationships list and whose child column is the child
    table's own index column raises [ValueError] and leaves the entity set,
    its relationships list included, unchanged. *)
Theorem add_relationship_child_index_raises
  (Relationship_init :
     option string -> option string -> option string -> option string ->
     M Relationship)
  (st : State) (r : Relationship) (child_df : DataFrame) (s : Schema) :
  r ∉ relationships (entityset st) →
  child_dataframe (entityset st) r = Ok child_df →
  ww child_df = Some s →
  is_Some (ww_columns s !! _child_column_id r) →
  ww_index s = Some (_child_column_id r) →
  add_relationship Relationship_init None None None None (Some r) st
  = (Raise ValueError, st).
Proof.
  intros Hnew Hchild Hww [c Hc] Hindex.
  unfold add_relationship. simpl.
  unfold mbind, M_bind, mret, M_ret, get_es, lift. simpl.
  rewrite decide_False by done.
  rewrite Hchild. unfold column_name, ww_column, ww_schema.
  rewrite Hww. simpl. rewrite Hc. simpl.
  rewrite decide_True by done. reflexivity.
Qed.

Lemma add_relationship_child_index_raises_witness :
  add_relationship Collaborators.Relationship_init None None None None
    (Some Cards.card_of_transaction) (Cards.state NewChildIndex.es)
  = (Raise ValueError, Cards.state NewChildIndex.es).
Proof.
  eapply (add_relationship_child_index_raises Collaborators.Relationship_init
            (Cards.state NewChildIndex.es) Cards.card_of_transaction
            Stale.transactions_by_card).
  - by apply not_elem_of_nil.
  - reflexivity.
  - reflexivity.
  - eexists. vm_compute. reflexivity.
  - reflexivity.
Defined.

(** C6, counterexample: [transactions] is indexed by [card_id] and the
    relationship on [card_id] is already in the list.  Adding it again does
    not raise: the call returns with the duplicate warning. *)
Lemma add_relationship_child_index_duplicate :
  (__getitem__ Stale.es_child_index "transactions" ≫= ww_schema)
    ≫= (fun s => Ok (ww_index s))
  = Ok (Some (_child_column_id Cards.card_of_transaction))
  ∧ add_relationship Collaborators.Relationship_init None None None None
      (Some Cards.card_of_transaction) (Cards.state Stale.es_child_index)
    = (Ok tt,
       mkState Stale.es_child_index
         [DuplicateRelationshipWarning Cards.card_of_transaction] []).
Proof. by vm_compute. Qed.

(** ** Time index checks *)

Section TimeIndexFacts.

Variable ww_init : DataFrame -> InitArgs -> result DataFrame.
Variable DEFAULT_DTYPE_VALUES : Dtype -> option Value.
Variable _check_time_type : Value -> option TimeType.

(** With no column given the check is on the table's time index: the
    first classification seen is recorded, the same one is accepted, the
    other one raises. *)
Lemma _check_uniform_time_index_run (st : State) (dataframe : DataFrame)
  (s : Schema) (column : string) (t : TimeType) :
  ww dataframe = Some s →
  ww_time_index s = Some column →
  _get_time_type DEFAULT_DTYPE_VALUES _check_time_type dataframe column = Ok t →
  _check_uniform_time_index DEFAULT_DTYPE_VALUES _check_time_type dataframe None st
  = match time_type (entityset st) with
    | None =>
        (Ok tt,
         mkState (set_time_type (Some t) (entityset st)) (warnings st) (heap st))
    | Some t0 =>
        if decide (t0 = t) then (Ok tt, st) else (Raise TypeError, st)
    end.
Proof.
  intros Hww Htime Htype. unfold _check_uniform_time_index. simpl.
  unfold mbind, M_bind, mret, M_ret, lift, get_es, put_es, raise, ww_schema.
  rewrite Hww. simpl. rewrite Htime, Htype.
  destruct (time_type (entityset st)) as [t0|]; [|done].
  by destruct (decide (t0 = t)).
Qed.

Lemma check_same_engine_Ok (st : State) (dataframe : DataFrame) :
  same_engine_as_first (entityset st) dataframe →
  check_same_engine dataframe st = (Ok tt, st).
Proof.
  unfold same_engine_as_first, check_same_engine, mbind, M_bind, get_es.
  destruct (dataframe_dict (entityset st)) as [|[k first] d]; [done|].
  intros ->. by rewrite decide_True.
Qed.

Lemma add_dataframe_run (st : State) (dataframe_id : string)
  (dataframe df : DataFrame) (index : option string)
  (logical_types : option (list (string * LogicalType)))
  (semantic_tags : option (list (string * gset string)))
  (make_index : bool) (time_index : option string)
  (already_sorted : AlreadySorted)
  (s : Schema) (column : string) (t : TimeType) :
  same_engine_as_first (entityset st) dataframe →
  with_schema ww_init dataframe_id dataframe
    (mkInitArgs dataframe_id index time_index (default [] logical_types)
       (default [] semantic_tags) make_index already_sorted)
  = Ok df →
  ww df = Some s →
  ww_time_index s = Some column →
  ww_secondary_time_index s = None →
  _get_time_type DEFAULT_DTYPE_VALUES _check_time_type df column = Ok t →
  add_dataframe ww_init DEFAULT_DTYPE_VALUES _check_time_type dataframe_id
    dataframe index logical_types semantic_tags make_index time_index None
    already_sorted st
  = let registered es :=
      mkState (set_cache None (set_dataframe dataframe_id df es))
        (warnings st) (heap st) in
    match time_type (entityset st) with
    | None => (Ok tt, registered (set_time_type (Some t) (entityset st)))
    | Some t0 =>
        if decide (t0 = t) then (Ok tt, registered (entityset st))
        else (Raise TypeError, st)
    end.
Proof.
  intros Hengine Hschema Hww Htime Hsecondary Htype.
  unfold add_dataframe.
  rewrite (bind_Ok _ _ _ _ _ (check_same_engine_Ok st dataframe Hengine)).
  rewrite (bind_Ok _ _ st df st) by (by rewrite Hschema).
  rewrite (bind_Ok _ _ st df st) by done.
  rewrite (bind_Ok _ _ st s st) by (unfold lift, ww_schema; by rewrite Hww).
  rewrite Htime.
  assert (∀ st', _check_secondary_time_index DEFAULT_DTYPE_VALUES
                   _check_time_type df None st' = (Ok (df, []), st'))
    as Hsecond.
  { intros st'. unfold _check_secondary_time_index.
    rewrite (bind_Ok _ _ st' s st') by (unfold lift, ww_schema; by rewrite Hww).
    by rewrite Hsecondary. }
  pose proof (_check_uniform_time_index_run st df s column t Hww Htime Htype)
    as Hcheck.
  destruct (time_type (entityset st)) as [t0|] eqn:Ht0.
  - destruct (decide (t0 = t)) as [Heq|Hne].
    + erewrite bind_Ok.
      2:{ rewrite (bind_Ok _ _ _ _ _ Hcheck).
          by rewrite (bind_Ok _ _ _ _ _ (Hsecond st)). }
      done.
    + erewrite bind_Raise; [done|].
      by rewrite (bind_Raise _ _ _ _ _ Hcheck).
  - erewrite bind_Ok.
    2:{ rewrite (bind_Ok _ _ _ _ _ Hcheck).
        by rewrite (bind_Ok _ _ _ _ _ (Hsecond _)). }
    done.
Qed.

End TimeIndexFacts.

(** C7: registering a table whose time index has a classification other
    than the one the entity set has already recorded raises [TypeError] and
    leaves the entity set as it was; when no classification has been
    recorded yet, the table is registered and its classification becomes
    the entity set's [time_type].  The table is of the same engine as the
    tables already registered and comes without a secondary time index. *)
Theorem add_dataframe_time_type
  (ww_init : DataFrame -> InitArgs -> result DataFrame)
  (DEFAULT_DTYPE_VALUES : Dtype -> option Value)
  (_check_time_type : Value -> option TimeType)
  (st : State) (dataframe_id : string) (dataframe df : DataFrame)
  (index : option string)
  (logical_types : option (list (string * LogicalType)))
  (semantic_tags : option (list (string * gset string)))
  (make_index : bool) (time_index : option string)
  (already_sorted : AlreadySorted)
  (s : Schema) (column : string) (t : TimeType) :
  same_engine_as_first (entityset st) dataframe →
  with_schema ww_init dataframe_id dataframe
    (mkInitArgs dataframe_id index time_index (default [] logical_types)
       (default [] semantic_tags) make_index already_sorted)
  = Ok df →
  ww df = Some s →
  ww_time_index s = Some column →
  ww_secondary_time_index s = None →
  _get_time_type DEFAULT_DTYPE_VALUES _check_time_type df column = Ok t →
  let run :=
    add_dataframe ww_init DEFAULT_DTYPE_VALUES _check_time_type dataframe_id
      dataframe index logical_types semantic_tags make_index time_index None
      already_sorted st in
  (∀ t0, time_type (entityset st) = Some t0 → t0 ≠ t →
         run = (Raise TypeError, st))
  ∧ (time_type (entityset st) = None →
     run.1 = Ok tt
     ∧ time_type (entityset run.2) = Some t
     ∧ dict_get (dataframe_dict (entityset run.2)) dataframe_id = Some df).
Proof.
  intros Hengine Hschema Hww Htime Hsecondary Htype run.
  unfold run.
  rewrite (add_dataframe_run ww_init DEFAULT_DTYPE_VALUES _check_time_type st
             dataframe_id dataframe df index logical_types semantic_tags
             make_index time_index already_sorted s column t)
    by assumption.
  split.
  - intros t0 -> Hne. simpl. by rewrite decide_False.
  - intros ->. simpl. repeat split.
    induction (dataframe_dict (entityset st)) as [|[k v] d IH]; simpl.
    + by rewrite decide_True.
    + destruct (decide (k = dataframe_id)) as [->|Hne]; simpl.
      * by rewrite decide_True.
      * by rewrite decide_False.
Qed.

Lemma add_dataframe_time_type_witness :
  add_dataframe Collaborators.ww_init Collaborators.DEFAULT_DTYPE_VALUES
    Collaborators._check_time_type "ratings" Ratings.ratings None None None
    false None None (sorted_flag false) (Cards.state Cards.es1)
  = (Raise TypeError, Cards.state Cards.es1).
Proof.
  refine (proj1 (add_dataframe_time_type Collaborators.ww_init
                   Collaborators.DEFAULT_DTYPE_VALUES
                   Collaborators._check_time_type (Cards.state Cards.es1)
                   "ratings" Ratings.ratings Ratings.ratings None None None
                   false None (sorted_flag false) _ "rated_at" numeric
                   _ _ eq_refl _ _ _) datetime _ _).
  - reflexivity.
  - reflexivity.
  - reflexivity.
  - reflexivity.
  - reflexivity.
  - reflexivity.
  - discriminate.
Defined.

(** The first table with a time index fixes the classification. *)
Example add_dataframe_records_time_type :
  let run :=
    add_dataframe Collaborators.ww_init Collaborators.DEFAULT_DTYPE_VALUES
      Collaborators._check_time_type "ratings" Ratings.ratings None None None
      false None None (sorted_flag false)
      (Cards.state (mkEntitySet None [] [] None None)) in
  run.1 = Ok tt ∧ time_type (entityset run.2) = Some numeric.
Proof. by vm_compute. Qed.

(** ** The metadata cache *)

Section CacheFacts.

Variable Relationship_init :
  option string -> option string -> option string -> option string ->
  M Relationship.
Variable ww_init : DataFrame -> InitArgs -> result DataFrame.
Variable DEFAULT_DTYPE_VALUES : Dtype -> option Value.
Variable _check_time_type : Value -> option TimeType.

Lemma bind_cache {A B : Type} (m : M A) (f : A -> M B) (st : State)
  (d : option Description) :
  _data_description (entityset (m st).2) = d →
  (∀ a st1, m st = (Ok a, st1) →
            _data_description (entityset (f a st1).2) = d) →
  _data_description (entityset ((m ≫= f) st).2) = d.
Proof.
  intros Hm Hf. unfold mbind, M_bind.
  destruct (m st) as [[a|e] st1]; simpl in *; [by apply Hf|done].
Qed.

Lemma _check_uniform_time_index_cache (dataframe : DataFrame)
  (column_id : option string) (st : State) :
  _data_description
    (entityset
       (_check_uniform_time_index DEFAULT_DTYPE_VALUES _check_time_type
          dataframe column_id st).2)
  = _data_description (entityset st).
Proof.
  unfold _check_uniform_time_index.
  unfold mbind, M_bind, mret, M_ret, lift, get_es, put_es, raise.
  repeat case_match; simplify_eq/=; done.
Qed.

Lemma check_secondary_items_cache (dataframe : DataFrame)
  (items : list (string * list string)) (st : State) :
  _data_description
    (entityset
       (check_secondary_items DEFAULT_DTYPE_VALUES _check_time_type
          dataframe items st).2)
  = _data_description (entityset st).
Proof.
  revert st. induction items as [|[time_index columns] items IH]; intros st;
    [done|].
  cbn [check_secondary_items].
  apply bind_cache; [apply _check_uniform_time_index_cache|].
  intros [] st1 H1.
  pose proof (_check_uniform_time_index_cache dataframe (Some time_index) st)
    as Hst1.
  rewrite H1 in Hst1. simpl in Hst1.
  apply bind_cache; [by rewrite IH|].
  intros rest st2 H2. pose proof (IH st1) as Hst2.
  rewrite H2 in Hst2. simpl in *. by rewrite Hst2.
Qed.

Lemma _check_secondary_time_index_cache (dataframe : DataFrame)
  (secondary_time_index : option (list (string * list string))) (st : State) :
  _data_description
    (entityset
       (_check_secondary_time_index DEFAULT_DTYPE_VALUES _check_time_type
          dataframe secondary_time_index st).2)
  = _data_description (entityset st).
Proof.
  assert (∀ (items : list (string * list string))
            (wrap : list (string * list string) →
                    DataFrame * list (string * list string)),
            _data_description
              (entityset
                 ((checked ← check_secondary_items DEFAULT_DTYPE_VALUES
                               _check_time_type dataframe items;
                   mret (wrap checked)) st).2)
            = _data_description (entityset st)) as Hitems.
  { intros items wrap. apply bind_cache; [apply check_secondary_items_cache|].
    intros checked st1 H1.
    pose proof (check_secondary_items_cache dataframe items st) as Hst1.
    rewrite H1 in Hst1. exact Hst1. }
  unfold _check_secondary_time_index.
  destruct secondary_time_index as [[|item items]|];
    try apply (Hitems (item :: items) (fun checked => (dataframe, checked)));
    (apply bind_cache; [done|]; intros s st1 [= _ <-];
     destruct (ww_secondary_time_index s) as [stored|]; [|done];
     apply (Hitems stored
              (fun checked =>
                 (set_schema
                    (mkSchema (ww_name s) (ww_index s) (ww_time_index s)
                       (ww_columns s) (Some checked))
                    dataframe, checked)))).
Qed.

(** [set_secondary_time_index] never touches the cached metadata. *)
Lemma set_secondary_time_index_of_keeps_cache (dataframe_id : string)
  (secondary_time_index : list (string * list string)) (st : State) :
  _data_description
    (entityset
       (set_secondary_time_index_of DEFAULT_DTYPE_VALUES _check_time_type
          dataframe_id secondary_time_index st).2)
  = _data_description (entityset st).
Proof.
  unfold set_secondary_time_index_of, set_secondary_time_index.
  apply bind_cache; [done|]. intros es st1 [= _ <-].
  apply bind_cache; [done|]. intros df st2 [= _ <-].
  pose proof (_check_secondary_time_index_cache df (Some secondary_time_index) st)
    as Hcheck.
  apply bind_cache.
  - apply bind_cache; [done|].
    intros [df' checked] st3 H3. rewrite H3 in Hcheck.
    apply bind_cache; [done|]. by intros s st4 [= _ <-].
  - intros df' st3 H3.
    assert (_data_description (entityset st3) = _data_description (entityset st))
      as Hst3.
    { revert H3. unfold mbind at 1. unfold M_bind at 1.
      destruct (_check_secondary_time_index _ _ df (Some secondary_time_index) st)
        as [[[df1 checked]|e] st4]; [|done].
      unfold mbind, M_bind, lift, mret, M_ret.
      destruct (ww_schema df1); [|done]. by intros [= _ <-]. }
    apply bind_cache; [done|]. by intros es' st4 [= <- <-].
Qed.

Lemma reset_data_description_Ok (st st' : State) :
  reset_data_description st = (Ok tt, st') →
  _data_description (entityset st') = None.
Proof. by intros [= <-]. Qed.

(** A table registration that returns has reset the cache. *)
Lemma add_dataframe_resets_cache (dataframe_id : string) (dataframe : DataFrame)
  (index : option string)
  (logical_types : option (list (string * LogicalType)))
  (semantic_tags : option (list (string * gset string)))
  (make_index : bool) (time_index : option string)
  (secondary_time_index : option (list (string * list string)))
  (already_sorted : AlreadySorted) (st st' : State) :
  add_dataframe ww_init DEFAULT_DTYPE_VALUES _check_time_type dataframe_id
    dataframe index logical_types semantic_tags make_index time_index
    secondary_time_index already_sorted st = (Ok tt, st') →
  _data_description (entityset st') = None.
Proof.
  unfold add_dataframe. intros H.
  do 7 bind_inv H. by apply reset_data_description_Ok in H.
Qed.

(** A relationship registration that appends has reset the cache. *)
Lemma add_relationship_resets_cache (r : Relationship) (st st' : State) :
  r ∉ relationships (entityset st) →
  add_relationship Relationship_init None None None None (Some r) st
  = (Ok tt, st') →
  _data_description (entityset st') = None.
Proof.
  intros Hnew. unfold add_relationship. simpl. intros H.
  bind_inv H. injection Hm as <- <-.
  bind_inv H. injection Hm as <- <-.
  rewrite decide_False in H by done.
  do 3 bind_inv H. case_decide; [done|].
  do 8 bind_inv H. by apply reset_data_description_Ok in H.
Qed.

End CacheFacts.

(** C4, at the failing input: the metadata of the cards entity set is read,
    then a secondary time index is set on [transactions], then the metadata
    is read again.  The call succeeds and stores the secondary time index in
    the table, the cache field is still set, and the second read returns the
    snapshot taken before the call, which no longer describes the entity
    set. *)
Lemma set_secondary_time_index_leaves_stale_metadata :
  let st0 := Cards.state Cards.es1 in
  let '(before, st1) := metadata st0 in
  let '(res, st2) :=
    set_secondary_time_index_of Collaborators.DEFAULT_DTYPE_VALUES
      Collaborators._check_time_type "transactions"
      [("settled_time", ["card_id"])] st1 in
  let '(after, st3) := metadata st2 in
  res = Ok tt
  ∧ (__getitem__ (entityset st2) "transactions" ≫= ww_schema)
      ≫= (fun s => Ok (ww_secondary_time_index s))
    = Ok (Some [("settled_time", ["card_id"; "settled_time"])])
  ∧ _data_description (entityset st2)
    = Some (entityset_to_description Cards.es1)
  ∧ after = before
  ∧ after ≠ Ok (entityset_to_description (entityset st2)).
Proof. vm_compute. repeat split. discriminate. Qed.


(** ** The steps of [add_relationship] *)

Section DictFacts.

Context {V : Type}.

Lemma dict_get_set_eq (d : list (string * V)) (k : string) (v : V) :
  dict_get (dict_set d k v) k = Some v.
Proof.
  induction d as [|[k' v'] d IH]; simpl.
  - by rewrite decide_True.
  - destruct (decide (k' = k)) as [->|Hne]; simpl.
    + by rewrite decide_True.
    + by rewrite decide_False.
Qed.

Lemma dict_get_set_ne (d : list (string * V)) (k k' : string) (v : V) :
  k ≠ k' → dict_get (dict_set d k v) k' = dict_get d k'.
Proof.
  intros Hne. induction d as [|[k0 v0] d IH]; simpl.
  - by rewrite decide_False.
  - destruct (decide (k0 = k)) as [->|Hne0]; simpl.
    + by rewrite !decide_False.
    + by rewrite IH.
Qed.


End DictFacts.

Section StepFacts.

Lemma getitem_with_dataframe_eq (k : string) (df : DataFrame) (st : State) :
  __getitem__ (entityset (with_dataframe k df st)) k = Ok df.
Proof. unfold __getitem__. simpl. by rewrite dict_get_set_eq. Qed.

Lemma getitem_with_dataframe_ne (k k' : string) (df : DataFrame) (st : State) :
  k ≠ k' →
  __getitem__ (entityset (with_dataframe k df st)) k' = __getitem__ (entityset st) k'.
Proof. intros Hne. unfold __getitem__. simpl. by rewrite dict_get_set_ne. Qed.




End StepFacts.




(** ** Normalizing a table: the checks on the arguments *)

Section NormalizeFacts.

Lemma heap_kept_refl (st : State) : heap_kept st st.
Proof. by intros i x. Qed.

Lemma heap_kept_trans (st1 st2 st3 : State) :
  heap_kept st1 st2 → heap_kept st2 st3 → heap_kept st1 st3.
Proof. intros H12 H23 i x Hi. by apply H23, H12. Qed.

Lemma columns_of_kept (st st' : State) (columns : ColumnsArg) :
  heap_kept st st' → list_exists st columns →
  columns_of st' columns = columns_of st columns.
Proof.
  intros Hkept Hex. destruct columns as [|ref|items]; [done| |done].
  simpl in *. destruct Hex as [l Hl]. by rewrite Hl, (Hkept _ _ Hl).
Qed.

Lemma alloc_run (l : list string) (st : State) :
  ∃ st', alloc l st = (Ok (length (heap st)), st')
         ∧ entityset st' = entityset st
         ∧ heap_kept st st'
         ∧ heap st' !! length (heap st) = Some l.
Proof.
  eexists. split; [reflexivity|]. simpl. split; [done|]. split.
  - intros i x Hi. by apply lookup_app_l_Some.
  - by apply list_lookup_middle.
Qed.

Lemma or_empty_list_run (st : State) (columns : ColumnsArg) :
  list_exists st columns →
  ∃ columns' st',
    or_empty_list columns st = (Ok columns', st')
    ∧ entityset st' = entityset st
    ∧ heap_kept st st'
    ∧ ((not_a_list columns ∧ columns' = columns)
       ∨ (¬ not_a_list columns
          ∧ ∃ ref, columns' = ColumnsList ref
                   ∧ heap st' !! ref = Some (columns_of st columns)
                   ∧ ∀ r c cs, columns = ColumnsList r →
                               heap st !! r = Some (c :: cs) → ref = r)).
Proof.
  intros Hex. unfold or_empty_list.
  assert (¬ not_a_list columns → columns_of st columns = [] →
          (∀ r c cs, columns = ColumnsList r → heap st !! r = Some (c :: cs) →
                     length (heap st) = r) →
          ∃ columns' st',
            (ref ← alloc []; mret (ColumnsList ref)) st = (Ok columns', st')
            ∧ entityset st' = entityset st
            ∧ heap_kept st st'
            ∧ ((not_a_list columns ∧ columns' = columns)
               ∨ (¬ not_a_list columns
                  ∧ ∃ ref, columns' = ColumnsList ref
                           ∧ heap st' !! ref = Some (columns_of st columns)
                           ∧ ∀ r c cs, columns = ColumnsList r →
                                       heap st !! r = Some (c :: cs) →
                                       ref = r))) as Hfresh.
  { intros Hlist Hempty Hsame.
    destruct (alloc_run [] st) as (st' & Halloc & Hes & Hkept & Hnew).
    exists (ColumnsList (length (heap st))), st'.
    rewrite (bind_Ok _ _ _ _ _ Halloc).
    split; [reflexivity|]. split; [exact Hes|]. split; [exact Hkept|].
    right. split; [exact Hlist|]. exists (length (heap st)).
    split; [reflexivity|]. split; [by rewrite Hempty|]. exact Hsame. }
  destruct columns as [|ref|[|item items]]; simpl in *.
  - apply Hfresh; [tauto|done|congruence].
  - destruct Hex as [l Hl].
    rewrite (bind_Ok _ _ st l st) by (unfold read_list; by rewrite Hl).
    destruct l as [|c cs].
    + apply Hfresh; [tauto|by rewrite Hl|].
      intros r c cs [= <-]. by rewrite Hl.
    + exists (ColumnsList ref), st.
      split; [reflexivity|]. split; [reflexivity|].
      split; [apply heap_kept_refl|].
      right. split; [tauto|]. exists ref.
      split; [reflexivity|]. split; [by rewrite Hl|]. congruence.
  - apply Hfresh; [tauto|done|congruence].
  - exists (ColumnsTuple (item :: items)), st.
    split; [reflexivity|]. split; [reflexivity|].
    split; [apply heap_kept_refl|]. by left.
Qed.

Lemma size_list_to_set_NoDup (l : list string) :
  length l = size (list_to_set l : gset string) ↔ NoDup l.
Proof.
  split; [|intros H; by rewrite size_list_to_set].
  induction l as [|x l IH]; [constructor|].
  rewrite list_to_set_cons, size_union_alt, size_singleton. cbn [length].
  intros Hlen. pose proof (size_list_to_set_le l) as Hle.
  assert (size ((list_to_set l : gset string) ∖ {[x]})
          ≤ size (list_to_set l : gset string)) as Hdiff
    by (apply subseteq_size; set_solver).
  apply NoDup_cons. split.
  - intros Hin.
    assert ((list_to_set l : gset string) ∖ {[x]} ⊂ list_to_set l) as Hlt.
    { split; [set_solver|]. intros Hsub. specialize (Hsub x). set_solver. }
    apply subset_size in Hlt. lia.
  - apply IH. lia.
Qed.

Lemma check_columns_run (st : State) (columns : ColumnsArg) :
  check_columns columns st
  = match columns with
    | ColumnsList ref =>
        if decide (NoDup (default [] (heap st !! ref)))
        then (Ok ref, st) else (Raise ValueError, st)
    | _ => (Raise TypeError, st)
    end.
Proof.
  destruct columns as [|ref|items]; [done| |done].
  unfold check_columns.
  rewrite (bind_Ok _ _ st (default [] (heap st !! ref)) st) by done.
  destruct (decide (length _ = _)) as [Hlen|Hlen];
    destruct (decide (NoDup _)) as [Hnd|Hnd]; try done.
  - by apply size_list_to_set_NoDup in Hlen.
  - by apply size_list_to_set_NoDup in Hnd.
Qed.

Lemma check_not_index_run (columns : list string) (index : string) (st : State) :
  check_not_index columns index st
  = if decide (index ∈ columns) then (Raise ValueError, st) else (Ok tt, st).
Proof.
  induction columns as [|v columns IH]; cbn [check_not_index].
  - by rewrite decide_False by apply not_elem_of_nil.
  - destruct (decide (v = index)) as [->|Hne].
    + by rewrite decide_True by apply list_elem_of_here.
    + rewrite IH. destruct (decide (index ∈ columns)) as [Hin|Hnin].
      * by rewrite decide_True by (by apply list_elem_of_further).
      * rewrite decide_False; [done|].
        intros [?|?]%elem_of_cons; congruence.
Qed.

Lemma check_not_time_index_run (base : DataFrame) (s : Schema)
  (columns : list string) (st : State) :
  ww base = Some s →
  check_not_time_index base columns st
  = match ww_time_index s with
    | Some t =>
        if decide (t ∈ columns) then (Raise ValueError, st) else (Ok tt, st)
    | None => (Ok tt, st)
    end.
Proof.
  intros Hww. destruct (ww_time_index s) as [t|] eqn:Ht.
  - induction columns as [|v columns IH]; cbn [check_not_time_index].
    + by rewrite decide_False by apply not_elem_of_nil.
    + rewrite (bind_Ok _ _ st s st) by (unfold lift, ww_schema; by rewrite Hww).
      rewrite Ht. destruct (decide (Some v = Some t)) as [[= ->]|Hne].
      * by rewrite decide_True by apply list_elem_of_here.
      * rewrite IH. destruct (decide (t ∈ columns)) as [Hin|Hnin].
        -- by rewrite decide_True by (by apply list_elem_of_further).
        -- rewrite decide_False; [done|].
           intros [?|?]%elem_of_cons; congruence.
  - induction columns as [|v columns IH]; cbn [check_not_time_index]; [done|].
    rewrite (bind_Ok _ _ st s st) by (unfold lift, ww_schema; by rewrite Hww).
    rewrite Ht. by rewrite decide_False.
Qed.

Lemma list_exists_kept (st st' : State) (columns : ColumnsArg) :
  heap_kept st st' → list_exists st columns → list_exists st' columns.
Proof.
  intros Hkept Hex. destruct columns as [|ref|items]; [done| |done].
  destruct Hex as [l Hl]. exists l. by apply Hkept.
Qed.

Lemma read_list_run (st : State) (ref : nat) (l : list string) :
  heap st !! ref = Some l → read_list ref st = (Ok l, st).
Proof. intros H. unfold read_list. by rewrite H. Qed.

(** What the argument checks (lines 631-671) come to, for a base table
    that is registered and has a schema: they raise [ValueError] or
    [TypeError], or they pass and every condition they test is met.  The
    entity set is the same afterwards in both cases. *)
Lemma normalize_dataframe_validate_run (st : State)
  (base_dataframe_id index : string) (additional_columns copy_columns : ColumnsArg)
  (make_time_index : MakeTimeIndex) (base : DataFrame) (s : Schema) :
  dict_get (dataframe_dict (entityset st)) base_dataframe_id = Some base →
  ww base = Some s →
  list_exists st additional_columns →
  list_exists st copy_columns →
  ∃ res st',
    normalize_dataframe_validate base_dataframe_id index additional_columns
      copy_columns make_time_index st = (res, st')
    ∧ entityset st' = entityset st
    ∧ heap_kept st st'
    ∧ match res with
      | Ok (b, additional_ref, copy_ref) =>
          b = base
          ∧ heap st' !! additional_ref = Some (columns_of st additional_columns)
          ∧ heap st' !! copy_ref = Some (columns_of st copy_columns)
          ∧ (∀ r c cs, copy_columns = ColumnsList r →
                       heap st !! r = Some (c :: cs) → copy_ref = r)
          ∧ ¬ not_a_list additional_columns
          ∧ ¬ not_a_list copy_columns
          ∧ NoDup (columns_of st additional_columns)
          ∧ NoDup (columns_of st copy_columns)
          ∧ (index ∉ columns_of st additional_columns
                     ++ columns_of st copy_columns)
          ∧ ww_index s ≠ Some index
          ∧ ∀ t, ww_time_index s = Some t →
                 t ∉ columns_of st additional_columns
      | Raise e => e = ValueError ∨ e = TypeError
      end.
Proof.
  intros Hbase Hww Hex_a Hex_c. unfold normalize_dataframe_validate.
  rewrite (bind_Ok _ _ st (entityset st) st) by done.
  rewrite (bind_Ok _ _ st base st) by (unfold lift; by rewrite Hbase).
  destruct (or_empty_list_run st additional_columns Hex_a)
    as (a' & st1 & Ha & Hes1 & Hk1 & Hcase_a).
  rewrite (bind_Ok _ _ _ _ _ Ha).
  destruct (or_empty_list_run st1 copy_columns
              (list_exists_kept st st1 _ Hk1 Hex_c))
    as (c' & st2 & Hc & Hes2 & Hk2 & Hcase_c).
  rewrite (bind_Ok _ _ _ _ _ Hc).
  assert (entityset st2 = entityset st) as Hes by congruence.
  assert (heap_kept st st2) as Hk by (by eapply heap_kept_trans).
  pose proof (check_columns_run st2 a') as Hcheck_a.
  destruct Hcase_a as [[Hnl_a ->]|(Hl_a & ra & -> & Hra & _)].
  { destruct additional_columns as [| |[|x xs]]; try done.
    rewrite (bind_Raise _ _ _ _ _ Hcheck_a). eauto 10. }
  apply Hk2 in Hra. rewrite Hra in Hcheck_a. simpl in Hcheck_a.
  destruct (decide (NoDup (columns_of st additional_columns))) as [Hnd_a|Hnd_a].
  2:{ rewrite (bind_Raise _ _ _ _ _ Hcheck_a). eauto 10. }
  rewrite (bind_Ok _ _ _ _ _ Hcheck_a).
  pose proof (check_columns_run st2 c') as Hcheck_c.
  destruct Hcase_c as [[Hnl_c ->]|(Hl_c & rc & -> & Hrc & Hsame)].
  { destruct copy_columns as [| |[|x xs]]; try done.
    rewrite (bind_Raise _ _ _ _ _ Hcheck_c). eauto 10. }
  rewrite (columns_of_kept st st1 copy_columns Hk1 Hex_c) in Hrc.
  rewrite Hrc in Hcheck_c. simpl in Hcheck_c.
  destruct (decide (NoDup (columns_of st copy_columns))) as [Hnd_c|Hnd_c].
  2:{ rewrite (bind_Raise _ _ _ _ _ Hcheck_c). eauto 10. }
  rewrite (bind_Ok _ _ _ _ _ Hcheck_c).
  rewrite (bind_Ok _ _ _ _ _ (read_list_run st2 ra _ Hra)).
  rewrite (bind_Ok _ _ _ _ _ (read_list_run st2 rc _ Hrc)).
  pose proof (check_not_index_run
                (columns_of st additional_columns ++ columns_of st copy_columns)
                index st2) as Hidx.
  destruct (decide (index ∈ columns_of st additional_columns
                            ++ columns_of st copy_columns)) as [Hin|Hnin].
  { rewrite (bind_Raise _ _ _ _ _ Hidx). eauto 10. }
  rewrite (bind_Ok _ _ _ _ _ Hidx).
  pose proof (check_not_time_index_run base s
                (columns_of st additional_columns) st2 Hww) as Htime.
  assert (∃ ok : bool,
            check_not_time_index base (columns_of st additional_columns) st2
            = (if ok then Ok tt else Raise ValueError, st2)
            ∧ (ok = true → ∀ t, ww_time_index s = Some t →
                                t ∉ columns_of st additional_columns))
    as (ok & Htime' & Hok).
  { rewrite Htime. clear Htime. destruct (ww_time_index s) as [t|].
    - destruct (decide (t ∈ columns_of st additional_columns)).
      + exists false. by split.
      + exists true. split; [done|]. by intros _ t' [= <-].
    - exists true. by split. }
  destruct ok.
  2:{ rewrite (bind_Raise _ _ _ _ _ Htime'). eauto 10. }
  rewrite (bind_Ok _ _ _ _ _ Htime').
  assert (∃ ok : bool,
            match make_time_index with
            | MtiStr s0 =>
                if decide (s0 ∈ (data base).*1)
                then
                  if decide (s0 ∈ columns_of st additional_columns
                                  ++ columns_of st copy_columns)
                  then mret tt else raise ValueError
                else raise ValueError
            | _ => mret tt
            end st2
            = (if ok then Ok tt else Raise ValueError, st2))
    as (ok & Hmti).
  { destruct make_time_index as [|b|s0]; try by exists true.
    repeat case_decide; try (by exists true); by exists false. }
  destruct ok.
  2:{ rewrite (bind_Raise _ _ _ _ _ Hmti). eauto 10. }
  rewrite (bind_Ok _ _ _ _ _ Hmti).
  rewrite (bind_Ok _ _ st2 s st2) by (unfold lift, ww_schema; by rewrite Hww).
  destruct (decide (Some index = ww_index s)) as [Heq|Hne].
  { erewrite bind_Raise by reflexivity. eauto 10. }
  erewrite bind_Ok by reflexivity.
  eexists _, _. split; [reflexivity|]. split; [done|]. split; [done|].
  split; [reflexivity|]. split; [exact Hra|]. split; [exact Hrc|].
  split.
  { intros r c cs Hr Hheap. apply (Hsame r c cs Hr). by apply Hk1. }
  split; [exact Hl_a|]. split; [exact Hl_c|].
  split; [exact Hnd_a|]. split; [exact Hnd_c|]. split; [exact Hnin|].
  split; [by intros Heq; apply Hne|]. by apply Hok.
Qed.

End NormalizeFacts.

(** C8 (as amended): for every call to [normalize_dataframe] on a registered
    base table in which the new index equals the base table's index, or
    appears in [additional_columns] or [copy_columns], or one of these two
    contains duplicates or is a true value that is not a list, or the base
    table's time index appears in [additional_columns], the call raises
    [ValueError] or [TypeError] and the entity set, tables and relationships
    included, is as it was.  A false value that is not a list ([None], an
    empty tuple) stands for the empty list and is accepted. *)
Theorem normalize_dataframe_rejects_before_mutation
  (Relationship_init :
     option string -> option string -> option string -> option string ->
     M Relationship)
  (ww_init : DataFrame -> InitArgs -> result DataFrame)
  (DEFAULT_DTYPE_VALUES : Dtype -> option Value)
  (_check_time_type : Value -> option TimeType)
  (ww_copy : DataFrame -> result DataFrame)
  (drop_duplicates_select :
     DataFrame -> string -> bool -> list string -> result DataFrame)
  (df_rename : DataFrame -> option string -> option string -> DataFrame)
  (df_join_on : DataFrame -> DataFrame -> string -> result DataFrame)
  (ww_drop : DataFrame -> list string -> result DataFrame)
  (st : State) (base_dataframe_id new_dataframe_id index : string)
  (additional_columns copy_columns : ColumnsArg)
  (make_time_index : MakeTimeIndex)
  (make_secondary_time_index : option (list (string * list string)))
  (new_dataframe_time_index new_dataframe_secondary_time_index : option string)
  (base : DataFrame) (s : Schema) :
  dict_get (dataframe_dict (entityset st)) base_dataframe_id = Some base →
  ww base = Some s →
  list_exists st additional_columns →
  list_exists st copy_columns →
  ww_index s = Some index
  ∨ index ∈ columns_of st additional_columns
  ∨ index ∈ columns_of st copy_columns
  ∨ ¬ NoDup (columns_of st additional_columns)
  ∨ ¬ NoDup (columns_of st copy_columns)
  ∨ not_a_list additional_columns
  ∨ not_a_list copy_columns
  ∨ (∃ t, ww_time_index s = Some t ∧ t ∈ columns_of st additional_columns) →
  ∃ e st',
    normalize_dataframe Relationship_init ww_init DEFAULT_DTYPE_VALUES
      _check_time_type ww_copy drop_duplicates_select df_rename df_join_on
      ww_drop base_dataframe_id new_dataframe_id index additional_columns
      copy_columns make_time_index make_secondary_time_index
      new_dataframe_time_index new_dataframe_secondary_time_index st
    = (Raise e, st')
    ∧ (e = ValueError ∨ e = TypeError)
    ∧ entityset st' = entityset st.
Proof.
  intros Hbase Hww Hex_a Hex_c Hcond.
  destruct (normalize_dataframe_validate_run st base_dataframe_id index
              additional_columns copy_columns make_time_index base s
              Hbase Hww Hex_a Hex_c)
    as (res & st' & Hrun & Hes & _ & Hres).
  destruct res as [[[b additional_ref] copy_ref]|e].
  - exfalso.
    destruct Hres as (_ & _ & _ & _ & Hl_a & Hl_c & Hnd_a & Hnd_c & Hnin
                      & Hindex & Htime).
    destruct Hcond as [H|[H|[H|[H|[H|[H|[H|(t & Ht & Hin)]]]]]]]; try done.
    + apply Hnin, elem_of_app. by left.
    + apply Hnin, elem_of_app. by right.
    + by apply (Htime t).
  - exists e, st'. split; [|by split].
    unfold normalize_dataframe, normalize_dataframe_checks.
    apply bind_Raise. apply bind_Raise. exact Hrun.
Qed.

Lemma normalize_dataframe_rejects_before_mutation_witness :
  ∃ e st',
    normalize_dataframe Collaborators.Relationship_init Collaborators.ww_init
      Collaborators.DEFAULT_DTYPE_VALUES Collaborators._check_time_type
      Collaborators.ww_copy Collaborators.drop_duplicates_select
      Collaborators.df_rename Collaborators.df_join_on Collaborators.ww_drop
      "cards" "brands" "id" ColumnsNone (ColumnsList 0) (MtiBool false)
      None None None (mkState Brands.es [] [["brand"; "brand"]])
    = (Raise e, st')
    ∧ (e = ValueError ∨ e = TypeError)
    ∧ entityset st' = Brands.es.
Proof.
  refine (normalize_dataframe_rejects_before_mutation
            Collaborators.Relationship_init Collaborators.ww_init
            Collaborators.DEFAULT_DTYPE_VALUES Collaborators._check_time_type
            Collaborators.ww_copy Collaborators.drop_duplicates_select
            Collaborators.df_rename Collaborators.df_join_on
            Collaborators.ww_drop
            (mkState Brands.es [] [["brand"; "brand"]])
            "cards" "brands" "id" ColumnsNone (ColumnsList 0) (MtiBool false)
            None None None Brands.cards _ eq_refl eq_refl I _ _).
  - by eexists.
  - left. reflexivity.
Defined.

(** C8, counterexample: [additional_columns] is an empty tuple, which is not
    a list.  With [make_time_index=False] the call goes through: the new
    table [brands] is registered and the relationship is added.  With
    [make_time_index=True] the checks on the arguments pass as well, and
    the call stops at the assertion on the base table's time index, with an
    [AssertionError]. *)
Lemma normalize_dataframe_accepts_empty_tuple :
  let normalize make_time_index :=
    normalize_dataframe Collaborators.Relationship_init Collaborators.ww_init
      Collaborators.DEFAULT_DTYPE_VALUES Collaborators._check_time_type
      Collaborators.ww_copy Collaborators.drop_duplicates_select
      Collaborators.df_rename Collaborators.df_join_on Collaborators.ww_drop
      "cards" "brands" "brand" (ColumnsTuple []) ColumnsNone make_time_index
      None None None (Cards.state Brands.es) in
  is_list (ColumnsTuple []) = false
  ∧ (normalize (MtiBool false)).1 = Ok tt
  ∧ relationships (entityset (normalize (MtiBool false)).2)
    = [mkRelationship "brands" "brand" "cards" "brand"]
  ∧ (dataframe_dict (entityset (normalize (MtiBool false)).2)).*1
    = ["cards"; "brands"]
  ∧ (normalize (MtiBool true)).1 = Raise AssertionError.
Proof. by vm_compute. Qed.

(** ** Normalizing a table: the time index of the new table *)

Section PureSteps.

Context {A : Type}.

Lemma lift_inv (r : result A) (st : State) (a : A) (st' : State) :
  lift r st = (Ok a, st') → r = Ok a ∧ st' = st.
Proof. by intros [= -> ->]. Qed.

End PureSteps.

(** C10 (as amended): when [normalize_dataframe] is called with
    [make_time_index=True], a non-empty list as [copy_columns], and a base
    table whose time index is not listed in [additional_columns], and the
    call gets as far as building the new table, the caller's [copy_columns]
    list has been changed in place: the base time index is appended to it.
    (An empty list passed by the caller is replaced by a new list at the
    start of the call and stays empty.) *)
Theorem normalize_dataframe_appends_time_index
  (ww_copy : DataFrame -> result DataFrame)
  (st st' : State) (base_dataframe_id index : string)
  (additional_columns : ColumnsArg) (ref : nat)
  (new_dataframe_time_index : option string)
  (base : DataFrame) (s : Schema) (t c : string) (cs : list string)
  (l : NormalizeLocals) :
  dict_get (dataframe_dict (entityset st)) base_dataframe_id = Some base →
  ww base = Some s →
  ww_time_index s = Some t →
  list_exists st additional_columns →
  t ∉ columns_of st additional_columns →
  heap st !! ref = Some (c :: cs) →
  normalize_dataframe_checks ww_copy base_dataframe_id index additional_columns
    (ColumnsList ref) (MtiBool true) new_dataframe_time_index st
  = (Ok l, st') →
  nl_copy_columns l = ref
  ∧ heap st' !! ref = Some ((c :: cs) ++ [t]).
Proof.
  intros Hbase Hww Htime Hex_a Hnotin Hlist Hrun.
  assert (list_exists st (ColumnsList ref)) as Hex_c by (by eexists).
  destruct (normalize_dataframe_validate_run st base_dataframe_id index
              additional_columns (ColumnsList ref) (MtiBool true) base s
              Hbase Hww Hex_a Hex_c)
    as (res & st1 & Hvalidate & Hes & Hkept & Hres).
  unfold normalize_dataframe_checks in Hrun.
  apply bind_Ok_inv in Hrun as ([[b additional_ref] copy_ref] & stv & Hv & Hrun).
  rewrite Hvalidate in Hv. injection Hv as -> <-.
  destruct Hres as (-> & Hra & Hrc & Hsame & _).
  assert (copy_ref = ref) as -> by (by eapply Hsame).
  simpl in Hrc. rewrite Hlist in Hrc. simpl in Hrc.
  rewrite (bind_Ok _ _ _ _ _ (read_list_run st1 additional_ref _ Hra)) in Hrun.
  rewrite (bind_Ok _ _ _ _ _ (read_list_run st1 ref _ Hrc)) in Hrun.
  rewrite (bind_Ok _ _ st1 s st1) in Hrun
    by (unfold lift, ww_schema; by rewrite Hww).
  apply bind_Ok_inv in Hrun as (index_col & st2 & Hstep1 & Hrun).
  apply lift_inv in Hstep1 as [_ ->].
  apply bind_Ok_inv in Hrun as (types & st2 & Hstep2 & Hrun).
  apply lift_inv in Hstep2 as [_ ->].
  apply bind_Ok_inv in Hrun as (new_df & st2 & Hstep3 & Hrun).
  assert (st2 = st1) as ->.
  { apply bind_Ok_inv in Hstep3 as (es & st3 & Hes3 & Hstep3).
    injection Hes3 as <- <-.
    apply bind_Ok_inv in Hstep3 as (df & st3 & Hdf & Hstep3).
    apply lift_inv in Hdf as [_ ->].
    by apply lift_inv in Hstep3 as [_ ->]. }
  rewrite (bind_Ok _ _ st1 (MtiBool true) st1) in Hrun by done.
  rewrite Htime in Hrun.
  rewrite decide_False in Hrun by done.
  apply bind_Ok_inv in Hrun as ([[[bti ndti] sorted] types'] & st2 & Hstep4 & Hrun).
  apply bind_Ok_inv in Hstep4 as ([] & st3 & Happend & Hstep4).
  injection Happend as <-.
  apply bind_Ok_inv in Hstep4 as (time_col & st3 & Hcol & Hstep4).
  apply lift_inv in Hcol as [_ ->].
  injection Hstep4 as <- <- <- <- <-.
  apply bind_Ok_inv in Hrun as ([] & st3 & Hlast & Hrun).
  assert (st3 = list_append_state ref t st1) as ->.
  { unfold raise, mret, M_ret in Hlast. case_decide; by simplify_eq. }
  injection Hrun as <- <-. split; [reflexivity|].
  simpl. rewrite Hrc. simpl.
  apply list_lookup_insert_eq. by eapply lookup_lt_Some.
Qed.

Lemma normalize_dataframe_appends_time_index_witness :
  ∃ l st',
    normalize_dataframe_checks Collaborators.ww_copy "transactions" "card_id"
      ColumnsNone (ColumnsList 0) (MtiBool true) None
      (mkState Cards.es1 [] [["settled_time"]])
    = (Ok l, st')
    ∧ nl_copy_columns l = 0
    ∧ heap st' !! 0 = Some (["settled_time"] ++ ["transaction_time"]).
Proof.
  eexists _, _. split; [vm_compute; reflexivity|].
  eapply (normalize_dataframe_appends_time_index Collaborators.ww_copy
            (mkState Cards.es1 [] [["settled_time"]]) _ "transactions" "card_id"
            ColumnsNone 0 None (Cards.transactions {[ "foreign_key" ]}) _
            "transaction_time" "settled_time" []).
  - reflexivity.
  - reflexivity.
  - reflexivity.
  - exact I.
  - apply not_elem_of_nil.
  - reflexivity.
  - vm_compute. reflexivity.
Defined.

(** C10, counterexample: the caller passes an empty list as
    [copy_columns], with [make_time_index=True] and a base table whose time
    index is [transaction_time].  The call succeeds; the caller's list (at
    reference 0) is still empty afterwards, and the time index went to a
    list of the call's own. *)
Lemma normalize_dataframe_leaves_empty_copy_columns :
  let st := mkState Cards.es1 [] [[]] in
  let checks :=
    normalize_dataframe_checks Collaborators.ww_copy "transactions" "card_id"
      ColumnsNone (ColumnsList 0) (MtiBool true) None st in
  let call :=
    normalize_dataframe Collaborators.Relationship_init Collaborators.ww_init
      Collaborators.DEFAULT_DTYPE_VALUES Collaborators._check_time_type
      Collaborators.ww_copy Collaborators.drop_duplicates_select
      Collaborators.df_rename Collaborators.df_join_on Collaborators.ww_drop
      "transactions" "sessions" "card_id" ColumnsNone (ColumnsList 0)
      (MtiBool true) None None None st in
  (nl_copy_columns <$> (match checks.1 with Ok l => Some l | Raise _ => None end))
  = Some 2
  ∧ heap checks.2 = [[]; []; ["transaction_time"]]
  ∧ call.1 = Ok tt
  ∧ heap call.2 !! 0 = Some [].
Proof. by vm_compute. Qed.

(** * Further properties *)

(** ** Relationship filters *)

Lemma filter_by_Ok key entity_id rels found :
  filter_by key entity_id rels = Ok found →
  (∀ r, r ∈ rels → ∃ k, key r = Ok k)
  ∧ found = List.filter (fun r => bool_decide (key r = Ok entity_id)) rels.
Proof.
  revert found. induction rels as [|r rels IH]; simpl; intros found H.
  - injection H as <-. split; [|done]. intros r Hr. by apply elem_of_nil in Hr.
  - destruct (key r) as [k|e] eqn:Hk; simpl in H; [|done].
    destruct (filter_by key entity_id rels) as [rest|]; simpl in H; [|done].
    destruct (IH rest eq_refl) as [Hall ->]. injection H as <-. split.
    + intros r' [->|Hr']%elem_of_cons; [by exists k|by apply Hall].
    + destruct (decide (k = entity_id)) as [->|Hne].
      * by rewrite bool_decide_eq_true_2.
      * rewrite bool_decide_eq_false_2; [done|congruence].
Qed.

Lemma filter_by_Raise key entity_id rels e :
  filter_by key entity_id rels = Raise e → ∃ r, r ∈ rels ∧ key r = Raise e.
Proof.
  induction rels as [|r rels IH]; simpl; [done|].
  destruct (key r) as [k|e'] eqn:Hk; simpl.
  - destruct (filter_by key entity_id rels) as [rest|e'']; simpl; [done|].
    intros [= ->]. destruct (IH eq_refl) as (r' & Hr' & He).
    exists r'. split; [by apply list_elem_of_further|done].
  - intros [= ->]. exists r. split; [apply list_elem_of_here|done].
Qed.

Lemma filter_by_elem key entity_id rels found r :
  filter_by key entity_id rels = Ok found →
  r ∈ found ↔ r ∈ rels ∧ key r = Ok entity_id.
Proof.
  intros [_ ->]%filter_by_Ok.
  rewrite list_elem_of_In, filter_In, <- list_elem_of_In, bool_decide_eq_true.
  done.
Qed.

(** X1: [get_forward_relationships(entity_id)] returns, in registration
    order, exactly the registered relationships whose child table is named
    [entity_id]; it returns only if the child table of every registered
    relationship can be read, and raises the error of such a read
    otherwise. *)
Theorem get_forward_relationships_spec (es : EntitySet) (entity_id : string) :
  match get_forward_relationships es entity_id with
  | Ok found =>
      found = List.filter (fun r => bool_decide (child_name es r = Ok entity_id))
                (relationships es)
      ∧ ∀ r, r ∈ relationships es → ∃ name, child_name es r = Ok name
  | Raise e => ∃ r, r ∈ relationships es ∧ child_name es r = Raise e
  end.
Proof.
  unfold get_forward_relationships.
  destruct (filter_by (child_name es) entity_id (relationships es))
    as [found|e] eqn:H.
  - apply filter_by_Ok in H as [Hall ->]. done.
  - by apply filter_by_Raise in H.
Qed.

(** X2: [get_backward_relationships(entity_id)] returns, in registration
    order, exactly the registered relationships whose parent table is named
    [entity_id], under the same condition on the parent tables. *)
Theorem get_backward_relationships_spec (es : EntitySet) (entity_id : string) :
  match get_backward_relationships es entity_id with
  | Ok found =>
      found = List.filter (fun r => bool_decide (parent_name es r = Ok entity_id))
                (relationships es)
      ∧ ∀ r, r ∈ relationships es → ∃ name, parent_name es r = Ok name
  | Raise e => ∃ r, r ∈ relationships es ∧ parent_name es r = Raise e
  end.
Proof.
  unfold get_backward_relationships.
  destruct (filter_by (parent_name es) entity_id (relationships es))
    as [found|e] eqn:H.
  - apply filter_by_Ok in H as [Hall ->]. done.
  - by apply filter_by_Raise in H.
Qed.

(** ** What the path search yields *)

Section SearchFacts.

Variable ww_id : DataFrame -> result string.
Variable es : EntitySet.

Lemma extended_paths_yields (r : Relationship) (xs : list Step) (fin : ending) :
  gen_for_list xs fin
    (fun '(sub_dataframe_id, sub_path) =>
       gen_yield (sub_dataframe_id, r :: sub_path) gen_return)
  = mkGen (map (fun y => (y.1, r :: y.2)) xs) fin.
Proof.
  induction xs as [|[i p] xs IH]; simpl; [done|].
  rewrite IH. reflexivity.
Qed.

Lemma forward_loop_sound descendants rels g :
  forward_loop ww_id es descendants rels = Some g →
  ∀ y, y ∈ yields g →
    ∃ r next sub sub_path,
      r ∈ rels ∧ forward_target ww_id es r = Ok next
      ∧ descendants next = Some sub
      ∧ (y.1, sub_path) ∈ yields sub ∧ y.2 = r :: sub_path.
Proof.
  revert g. induction rels as [|r rels IH]; simpl; intros g Hg y Hy.
  - injection Hg as <-. simpl in Hy. by apply elem_of_nil in Hy.
  - fold (forward_target ww_id es r) in Hg.
    destruct (forward_target ww_id es r) as [next|e] eqn:Hnext.
    2:{ injection Hg as <-. simpl in Hy. by apply elem_of_nil in Hy. }
    destruct (descendants next) as [sub|] eqn:Hsub; [|done].
    unfold gen_for in Hg. rewrite extended_paths_yields in Hg.
    assert (∀ y, y ∈ map (fun y : Step => (y.1, r :: y.2)) (yields sub) →
              ∃ r' next' sub' sub_path,
                r' ∈ r :: rels ∧ forward_target ww_id es r' = Ok next'
                ∧ descendants next' = Some sub'
                ∧ (y.1, sub_path) ∈ yields sub' ∧ y.2 = r' :: sub_path)
      as Hhead.
    { intros z Hz. apply list_elem_of_fmap in Hz as ([i p] & -> & Hz).
      exists r, next, sub, p. simpl.
      split; [apply list_elem_of_here|done]. }
    simpl in Hg. destruct (finish sub).
    + destruct (forward_loop ww_id es descendants rels) as [rest|]; [|done].
      injection Hg as <-. apply gen_seq_yields in Hy as [Hy|Hy].
      * by apply Hhead.
      * destruct (IH rest eq_refl y Hy) as (r' & next' & sub' & p & Hr' & H').
        exists r', next', sub', p. split; [by apply list_elem_of_further|done].
    + injection Hg as <-. by apply Hhead.
Qed.

Lemma forward_loop_complete descendants rels g :
  forward_loop ww_id es descendants rels = Some g →
  finish g = Exhausted →
  ∀ r, r ∈ rels →
    ∃ next sub,
      forward_target ww_id es r = Ok next
      ∧ descendants next = Some sub ∧ finish sub = Exhausted
      ∧ ∀ y, y ∈ yields sub → (y.1, r :: y.2) ∈ yields g.
Proof.
  revert g. induction rels as [|r0 rels IH]; simpl; intros g Hg Hfin r Hr.
  - by apply elem_of_nil in Hr.
  - fold (forward_target ww_id es r0) in Hg.
    destruct (forward_target ww_id es r0) as [next|e] eqn:Hnext.
    2:{ injection Hg as <-. done. }
    destruct (descendants next) as [sub|] eqn:Hsub; [|done].
    unfold gen_for in Hg. rewrite extended_paths_yields in Hg.
    simpl in Hg. destruct (finish sub) eqn:Hsubfin.
    2:{ injection Hg as <-. done. }
    destruct (forward_loop ww_id es descendants rels) as [rest|]; [|done].
    injection Hg as <-. unfold gen_seq in Hfin |- *. simpl in Hfin |- *.
    apply elem_of_cons in Hr as [->|Hr].
    + exists next, sub. split; [done|]. split; [done|]. split; [done|].
      intros y Hy. apply elem_of_app. left.
      apply list_elem_of_fmap. by exists y.
    + destruct (IH rest eq_refl Hfin r Hr) as (next' & sub' & H1 & H2 & H3 & H4).
      exists next', sub'. split; [done|]. split; [done|]. split; [done|].
      intros y Hy. apply elem_of_app. right. by apply H4.
Qed.

(** Every yielded pair is a chain of registered relationships from the
    start table to the yielded table that passes through no table twice
    and through none of the tables already seen. *)
Lemma forward_entity_paths_depth_sound depth start seen g :
  forward_entity_paths_depth ww_id es depth start seen = Some g →
  ∀ y, y ∈ yields g →
    ∃ ids, follows ww_id es start y.2 ids
           ∧ chain_end start ids = y.1
           ∧ NoDup (start :: ids)
           ∧ ∀ x, x ∈ start :: ids → x ∉ seen.
Proof.
  revert start seen g.
  induction depth as [|depth IH]; intros start seen g; simpl; [done|].
  case_decide as Hseen.
  { intros [= <-] y Hy. by apply elem_of_nil in Hy. }
  assert (∃ ids, follows ww_id es start [] ids ∧ chain_end start ids = start
                 ∧ NoDup (start :: ids) ∧ ∀ x, x ∈ start :: ids → x ∉ seen)
    as Hstart.
  { exists []. split; [done|]. split; [done|].
    split; [apply NoDup_singleton|]. intros x ->%list_elem_of_singleton. done. }
  destruct (get_forward_relationships es start) as [rels|e] eqn:Hrels.
  2:{ intros [= <-] y Hy. simpl in Hy.
      apply list_elem_of_singleton in Hy as ->. exact Hstart. }
  destruct (forward_loop ww_id es _ rels) as [rest|] eqn:Hrest; [|done].
  intros [= <-] y Hy. simpl in Hy.
  apply elem_of_cons in Hy as [->|Hy]; [exact Hstart|].
  destruct (forward_loop_sound _ _ _ Hrest y Hy)
    as (r & next & sub & p & Hr & Hnext & Hsub & Hp & Hpath).
  destruct (IH _ _ _ Hsub _ Hp) as (ids & Hfollows & Hend & Hnodup & Hfresh).
  simpl in Hfollows, Hend.
  apply (filter_by_elem _ _ _ _ r Hrels) in Hr as [Hreg Hchild].
  exists (next :: ids). rewrite Hpath. split; [|split; [|split]].
  - simpl. done.
  - done.
  - apply NoDup_cons. split; [|done].
    intros Hin. apply Hfresh in Hin. set_solver.
  - intros x [->|Hx]%elem_of_cons; [done|].
    apply Hfresh in Hx. set_solver.
Qed.

(** When the search ends without an error, every such chain is yielded. *)
Lemma forward_entity_paths_depth_complete depth start seen g :
  forward_entity_paths_depth ww_id es depth start seen = Some g →
  finish g = Exhausted →
  ∀ path ids,
    follows ww_id es start path ids →
    NoDup (start :: ids) →
    (∀ x, x ∈ start :: ids → x ∉ seen) →
    (chain_end start ids, path) ∈ yields g.
Proof.
  revert start seen g.
  induction depth as [|depth IH]; intros start seen g; simpl; [done|].
  case_decide as Hseen.
  { intros _ _ path ids _ _ Hfresh. exfalso.
    apply (Hfresh start); [apply list_elem_of_here|done]. }
  destruct (get_forward_relationships es start) as [rels|e] eqn:Hrels.
  2:{ intros [= <-]. done. }
  destruct (forward_loop ww_id es _ rels) as [rest|] eqn:Hrest; [|done].
  intros [= <-] Hfin path ids Hfollows Hnodup Hfresh. simpl in Hfin |- *.
  destruct path as [|r path], ids as [|next ids]; simpl in Hfollows; try done.
  { apply list_elem_of_here. }
  destruct Hfollows as (Hreg & Hchild & Hnext & Hfollows).
  apply list_elem_of_further.
  assert (r ∈ rels) as Hr by (by apply (filter_by_elem _ _ _ _ r Hrels)).
  destruct (forward_loop_complete _ _ _ Hrest Hfin r Hr)
    as (next' & sub & Hnext' & Hsub & Hsubfin & Hyields).
  rewrite Hnext in Hnext'. injection Hnext' as <-.
  apply (Hyields (chain_end next ids, path)).
  apply (IH _ _ _ Hsub Hsubfin path ids Hfollows).
  - by apply NoDup_cons in Hnodup as [_ ?].
  - intros x Hx. apply not_elem_of_union. split.
    + apply Hfresh. by apply list_elem_of_further.
    + apply NoDup_cons in Hnodup as [Hnotin _]. set_solver.
Qed.

Lemma _forward_entity_paths_sound start :
  ∀ y, y ∈ yields (_forward_entity_paths ww_id es start) →
    ∃ ids, follows ww_id es start y.2 ids
           ∧ chain_end start ids = y.1 ∧ NoDup (start :: ids).
Proof.
  intros y Hy.
  destruct (forward_entity_paths_depth_sound _ _ _ _
              (_forward_entity_paths_total ww_id es start) y Hy)
    as (ids & H1 & H2 & H3 & _).
  by exists ids.
Qed.

Lemma find_forward_paths_elem start goal path :
  path ∈ yields (find_forward_paths ww_id es start goal)
  ↔ (goal, path) ∈ yields (_forward_entity_paths ww_id es start).
Proof.
  rewrite find_forward_paths_unfold. simpl. rewrite list_elem_of_fmap. split.
  - intros ([i p] & -> & Hy).
    apply list_elem_of_In, filter_In in Hy as [Hy Heq].
    apply bool_decide_eq_true in Heq. simpl in Heq. subst i.
    by apply list_elem_of_In.
  - intros Hy. exists (goal, path). split; [done|].
    apply list_elem_of_In, filter_In. split; [by apply list_elem_of_In|].
    by apply bool_decide_eq_true.
Qed.

(** The tables a chain reaches are targets of registered relationships. *)
Lemma follows_parent_ids start path ids :
  follows ww_id es start path ids →
  length path = length ids ∧ ∀ x, x ∈ ids → x ∈ parent_ids ww_id es.
Proof.
  revert start ids. induction path as [|r path IH]; intros start [|next ids];
    simpl; try done.
  { intros _. split; [done|]. intros x Hx. by apply elem_of_nil in Hx. }
  intros (Hreg & _ & Hnext & Hfollows).
  destruct (IH _ _ Hfollows) as [Hlen Hall]. split; [by rewrite Hlen|].
  intros x [->|Hx]%elem_of_cons; [|by apply Hall].
  unfold parent_ids. rewrite elem_of_list_to_set, list_elem_of_omap.
  exists r. split; [done|]. unfold forward_target in Hnext. by rewrite Hnext.
Qed.

Lemma follows_targets start path ids :
  follows ww_id es start path ids →
  forward_target ww_id es <$> path = Ok <$> ids.
Proof.
  revert start ids. induction path as [|r path IH]; intros start [|next ids];
    simpl; try done.
  intros (_ & _ & Hnext & Hfollows). rewrite Hnext. f_equal. by eapply IH.
Qed.

(** A chain that reaches no table twice uses no relationship twice. *)
Lemma follows_NoDup start path ids :
  follows ww_id es start path ids → NoDup ids → NoDup path.
Proof.
  intros Hfollows Hnodup.
  apply (NoDup_fmap_1 (forward_target ww_id es)).
  rewrite (follows_targets _ _ _ Hfollows).
  apply NoDup_fmap_2; [|done]. by intros x y [= ->].
Qed.

Lemma chain_end_elem start ids :
  ids ≠ [] → chain_end start ids ∈ ids.
Proof.
  revert start. induction ids as [|next ids IH]; intros start Hne; [done|].
  simpl. destruct ids as [|next' ids]; [apply list_elem_of_here|].
  apply list_elem_of_further. by apply IH.
Qed.



End SearchFacts.

(** X3: every path that [find_forward_paths(start, goal)] yields is a chain
    of registered relationships: the first has [start] as its child table,
    each next one has the parent of the previous one as its child, the last
    parent is [goal], and no table is reached twice. *)
Theorem find_forward_paths_are_chains (ww_id : DataFrame -> result string)
  (es : EntitySet) (start goal : string) :
  Forall (fun path =>
            ∃ ids, follows ww_id es start path ids
                   ∧ chain_end start ids = goal
                   ∧ NoDup (start :: ids))
    (yields (find_forward_paths ww_id es start goal)).
Proof.
  apply Forall_forall. intros path Hpath.
  apply find_forward_paths_elem in Hpath.
  by apply _forward_entity_paths_sound in Hpath.
Qed.

(** X4: when the search ends without an error, it misses nothing: every
    chain of registered relationships that starts at [start] and reaches no
    table twice is among the paths yielded for the table it ends at. *)
Theorem find_forward_paths_complete (ww_id : DataFrame -> result string)
  (es : EntitySet) (start : string) (path : list Relationship)
  (ids : list string) :
  finish (_forward_entity_paths ww_id es start) = Exhausted →
  follows ww_id es start path ids →
  NoDup (start :: ids) →
  path ∈ yields (find_forward_paths ww_id es start (chain_end start ids)).
Proof.
  intros Hfin Hfollows Hnodup. apply find_forward_paths_elem.
  eapply forward_entity_paths_depth_complete; try done.
  - apply _forward_entity_paths_total.
  - intros x _. set_solver.
Qed.

Lemma find_forward_paths_complete_witness :
  [Diamond.to_stores; Diamond.stores_region]
  ∈ yields (find_forward_paths Cards.ww_id Diamond.es "orders" "regions").
Proof.
  refine (find_forward_paths_complete Cards.ww_id Diamond.es "orders"
            [Diamond.to_stores; Diamond.stores_region] ["stores"; "regions"]
            _ _ _).
  - vm_compute. reflexivity.
  - unfold follows. simpl. repeat split; try (vm_compute; reflexivity).
    + unfold Diamond.es. simpl. set_solver.
    + unfold Diamond.es. simpl. set_solver.
  - repeat (apply NoDup_cons; split; [set_solver|]). apply NoDup_nil_2.
Defined.

(** X5: no path of [find_forward_paths] uses a relationship twice, and none
    is longer than the number of registered relationships. *)
Theorem find_forward_paths_bounded (ww_id : DataFrame -> result string)
  (es : EntitySet) (start goal : string) :
  Forall (fun path => NoDup path
                      ∧ path ⊆ relationships es
                      ∧ length path ≤ length (relationships es))
    (yields (find_forward_paths ww_id es start goal)).
Proof.
  apply Forall_forall. intros path Hpath.
  apply find_forward_paths_elem, _forward_entity_paths_sound in Hpath
    as (ids & Hfollows & _ & Hnodup). simpl in Hfollows.
  apply NoDup_cons in Hnodup as [_ Hnodup].
  assert (NoDup path) as Hpaths by (by eapply follows_NoDup).
  assert (path ⊆ relationships es) as Hsub.
  { clear Hnodup Hpaths. revert start ids Hfollows.
    induction path as [|r path IH]; intros start [|next ids]; simpl; try done.
    - intros _ x Hx. by apply elem_of_nil in Hx.
    - intros (Hreg & _ & _ & Hfollows) x [->|Hx]%elem_of_cons; [done|].
      by eapply IH. }
  split; [done|]. split; [done|].
  by apply submseteq_length, NoDup_submseteq.
Qed.

(** X6: from a table to itself there is exactly one path, the empty one,
    whatever relationships are registered. *)
Theorem find_forward_paths_to_itself (ww_id : DataFrame -> result string)
  (es : EntitySet) (start : string) :
  yields (find_forward_paths ww_id es start start) = [[]].
Proof.
  rewrite find_forward_paths_unfold. simpl.
  pose proof (_forward_entity_paths_sound ww_id es start) as Hsound.
  destruct (_forward_entity_paths_yields ww_id es start) as (ys & Hys & Hlater).
  rewrite Hys in Hsound |- *. simpl.
  rewrite bool_decide_eq_true_2 by done. simpl. f_equal.
  assert (∀ y, y ∈ ys → y.1 ≠ start) as Hother.
  { intros y Hy Heq.
    destruct (Hsound y) as (ids & Hfollows & Hend & Hnodup);
      [by apply list_elem_of_further|].
    apply follows_parent_ids in Hfollows as [Hlen _].
    apply NoDup_cons in Hnodup as [Hnotin _]. apply Hnotin.
    rewrite <- Heq at 1. rewrite <- Hend. apply chain_end_elem.
    intros ->. specialize (Hlater y Hy). by destruct (y.2). }
  clear Hys Hsound Hlater. induction ys as [|y ys IH]; [done|]. simpl.
  rewrite bool_decide_eq_false_2.
  - apply IH. intros y' Hy'. apply Hother. by apply list_elem_of_further.
  - apply Hother. apply list_elem_of_here.
Qed.



(** ** Neighbours *)

Section NeighbourFacts.

Context (is_forward : bool) (target : Relationship -> result string).

Lemma prefixed_paths_yields (r : Relationship) (xs : list EntityStep)
  (fin : ending) :
  gen_for_list xs fin
    (fun '(sub_dataframe_id, path) =>
       gen_yield (sub_dataframe_id, [(is_forward, r)] ++ path) gen_return)
  = mkGen (map (fun y => (y.1, (is_forward, r) :: y.2)) xs) fin.
Proof.
  induction xs as [|[i p] xs IH]; [done|].
  cbn [gen_for_list]. rewrite IH. reflexivity.
Qed.

(** Without [deep], the loop yields one entry for each relationship, in
    order, up to the first one whose target cannot be read. *)
Lemma entities_loop_direct sub_entities rels :
  ∃ g, entities_loop is_forward target false sub_entities rels = Some g
       ∧ Forall2 (fun y r => target r = Ok y.1 ∧ y.2 = [(is_forward, r)])
           (yields g) (take (length (yields g)) rels)
       ∧ match finish g with
         | Exhausted => length (yields g) = length rels
         | Raised e =>
             ∃ r, rels !! length (yields g) = Some r ∧ target r = Raise e
         end.
Proof.
  induction rels as [|r rels IH]; simpl.
  - eexists. split; [done|]. simpl. split; [constructor|done].
  - destruct (target r) as [next|e] eqn:Hnext.
    2:{ eexists. split; [done|]. simpl. split; [constructor|].
        by exists r. }
    unfold gen_for. simpl.
    destruct IH as (rest & -> & Hall & Hfin).
    eexists. split; [done|]. unfold gen_seq. simpl.
    split; [constructor; [by split|exact Hall]|].
    simpl. unfold EntityStep, RelationshipPath in *.
    destruct (finish rest); [f_equal; exact Hfin|exact Hfin].
Qed.


Lemma entities_loop_complete sub_entities rels g :
  entities_loop is_forward target true sub_entities rels = Some g →
  finish g = Exhausted →
  ∀ r, r ∈ rels →
    ∃ next sub,
      target r = Ok next
      ∧ sub_entities next = Some sub ∧ finish sub = Exhausted
      ∧ (next, [(is_forward, r)]) ∈ yields g
      ∧ ∀ y, y ∈ yields sub → (y.1, (is_forward, r) :: y.2) ∈ yields g.
Proof.
  revert g. induction rels as [|r0 rels IH]; cbn [entities_loop];
    intros g Hg Hfin r Hr.
  - by apply elem_of_nil in Hr.
  - destruct (target r0) as [next|e] eqn:Hnext.
    2:{ injection Hg as <-. done. }
    destruct (sub_entities next) as [sub|] eqn:Hsub; [|done].
    unfold gen_for in Hg. rewrite prefixed_paths_yields in Hg.
    simpl in Hg. destruct (finish sub) eqn:Hsubfin.
    2:{ injection Hg as <-. done. }
    destruct (entities_loop _ _ _ _ rels) as [rest|]; [|done].
    injection Hg as <-. unfold gen_seq in Hfin |- *. simpl in Hfin |- *.
    apply elem_of_cons in Hr as [->|Hr].
    + exists next, sub. split; [done|]. split; [done|]. split; [done|].
      split; [apply list_elem_of_here|].
      intros y Hy. apply list_elem_of_further, elem_of_app. left.
      apply list_elem_of_fmap. by exists y.
    + destruct (IH rest eq_refl Hfin r Hr)
        as (next' & sub' & H1 & H2 & H3 & H4 & H5).
      exists next', sub'. split; [done|]. split; [done|]. split; [done|].
      split.
      * apply list_elem_of_further, elem_of_app. by right.
      * intros y Hy. apply list_elem_of_further, elem_of_app. right.
        by apply H5.
Qed.

(** The loop returns as soon as every recursive call it makes does. *)
Lemma entities_loop_is_Some deep sub_entities rels :
  (∀ r next, r ∈ rels → target r = Ok next → is_Some (sub_entities next)) →
  is_Some (entities_loop is_forward target deep sub_entities rels).
Proof.
  induction rels as [|r rels IH]; simpl; intros Hsub; [by eexists|].
  destruct (target r) as [next|e] eqn:Hnext; [|by eexists].
  assert (is_Some (if deep then sub_entities next else Some gen_return))
    as [sub ->].
  { destruct deep; [|by eexists]. apply (Hsub r); [apply list_elem_of_here|done]. }
  destruct (finish _); [|by eexists].
  destruct IH as [rest ->]; [|by eexists].
  intros r' next' Hr'. apply Hsub. by apply list_elem_of_further.
Qed.

End NeighbourFacts.

(** X8: without [deep], [get_forward_entities(entity_id)] yields one entry
    for each forward relationship of the table, in registration order: the
    name of the parent table and the one-step path [(True, relationship)].
    It stops with an error at the first relationship whose parent table
    cannot be read, and raises at once when the forward relationships
    cannot be listed.  One level of calls is enough. *)
Theorem get_forward_entities_direct (es : EntitySet) (depth : nat)
  (entity_id : string) :
  match get_forward_relationships es entity_id with
  | Raise e =>
      get_forward_entities_depth es (S depth) entity_id false
      = Some (gen_raise e)
  | Ok rels =>
      ∃ g, get_forward_entities_depth es (S depth) entity_id false = Some g
           ∧ Forall2 (fun y r => parent_name es r = Ok y.1 ∧ y.2 = [(true, r)])
               (yields g) (take (length (yields g)) rels)
           ∧ match finish g with
             | Exhausted => length (yields g) = length rels
             | Raised e =>
                 ∃ r, rels !! length (yields g) = Some r
                      ∧ parent_name es r = Raise e
             end
  end.
Proof.
  simpl. destruct (get_forward_relationships es entity_id) as [rels|e];
    [|done].
  apply entities_loop_direct.
Qed.


Section DeepFacts.

Variable ww_id : DataFrame -> result string.
Variable es : EntitySet.



Lemma get_forward_entities_depth_complete depth entity_id g :
  get_forward_entities_depth es depth entity_id true = Some g →
  finish g = Exhausted →
  ∀ path ids,
    path ≠ [] →
    chain es (child_name es) (parent_name es) entity_id path ids →
    (chain_end entity_id ids, (fun r => (true, r)) <$> path) ∈ yields g.
Proof.
  revert entity_id g.
  induction depth as [|depth IH]; intros entity_id g; simpl; [done|].
  destruct (get_forward_relationships es entity_id) as [rels|e] eqn:Hrels.
  2:{ intros [= <-]. done. }
  intros Hg Hfin path ids Hne Hchain.
  destruct path as [|r path], ids as [|next ids]; simpl in Hchain; try done.
  destruct Hchain as (Hreg & Hchild & Hnext & Hchain).
  assert (r ∈ rels) as Hr by (by apply (filter_by_elem _ _ _ _ r Hrels)).
  destruct (entities_loop_complete _ _ _ _ _ Hg Hfin r Hr)
    as (next' & sub & Hnext' & Hsub & Hsubfin & Hdirect & Hyields).
  rewrite Hnext in Hnext'. injection Hnext' as <-.
  destruct path as [|r' path].
  - destruct ids; [|done]. exact Hdirect.
  - pose proof (Hyields (chain_end next ids,
                           (fun r => (true, r)) <$> r' :: path)) as Hy.
    simpl in Hy |- *. apply Hy.
    by apply (IH _ _ Hsub Hsubfin (r' :: path) ids).
Qed.

Lemma get_forward_entities_depth_is_Some n entity_id deep :
  (∀ path ids,
     chain es (child_name es) (parent_name es) entity_id path ids →
     length path ≤ n) →
  is_Some (get_forward_entities_depth es (S n) entity_id deep).
Proof.
  revert entity_id deep.
  induction n as [|n IH]; intros entity_id deep Hbound; cbn [get_forward_entities_depth].
  - destruct (get_forward_relationships es entity_id) as [rels|e] eqn:Hrels;
      [|by eexists].
    apply entities_loop_is_Some. intros r next Hr Hnext. exfalso.
    apply (filter_by_elem _ _ _ _ r Hrels) in Hr as [Hreg Hchild].
    specialize (Hbound [r] [next]). simpl in Hbound.
    assert (1 ≤ 0) by (by apply Hbound). lia.
  - destruct (get_forward_relationships es entity_id) as [rels|e] eqn:Hrels;
      [|by eexists].
    apply entities_loop_is_Some. intros r next Hr Hnext.
    apply (filter_by_elem _ _ _ _ r Hrels) in Hr as [Hreg Hchild].
    apply IH. intros path ids Hchain.
    specialize (Hbound (r :: path) (next :: ids)). simpl in Hbound.
    assert (S (length path) ≤ S n) by (by apply Hbound). lia.
Qed.

End DeepFacts.



(** X12: the deep search keeps no record of the tables it has visited: when
    the first forward relationship of a table leads back to that table, no
    depth of recursion is enough for [get_forward_entities(deep=True)] to
    come to an end. *)
Theorem get_forward_entities_deep_self_loop (es : EntitySet)
  (entity_id : string) (r : Relationship) (rels : list Relationship) :
  get_forward_relationships es entity_id = Ok (r :: rels) →
  parent_name es r = Ok entity_id →
  ∀ depth, get_forward_entities_depth es depth entity_id true = None.
Proof.
  intros Hrels Hparent depth. induction depth as [|depth IH]; [done|].
  cbn [get_forward_entities_depth]. rewrite Hrels.
  cbn [entities_loop]. rewrite Hparent, IH. done.
Qed.

Lemma get_forward_entities_deep_self_loop_witness :
  get_forward_entities_depth Managers.es 1000 "employees" true = None.
Proof.
  refine (get_forward_entities_deep_self_loop Managers.es "employees"
            Managers.manager_of_employee [] _ _ 1000).
  - vm_compute. reflexivity.
  - vm_compute. reflexivity.
Defined.

(** X13: the deep search comes to an end when the chains of forward
    relationships that start at the table are bounded in length: a bound
    of [n] steps needs [n + 1] levels of calls. *)
Theorem get_forward_entities_deep_returns (es : EntitySet) (n : nat)
  (entity_id : string) :
  (∀ path ids,
     chain es (child_name es) (parent_name es) entity_id path ids →
     length path ≤ n) →
  ∃ g, get_forward_entities_depth es (S n) entity_id true = Some g.
Proof. apply get_forward_entities_depth_is_Some. Qed.

Lemma get_forward_entities_deep_returns_witness :
  ∃ g, get_forward_entities_depth Cards.es1 2 "transactions" true = Some g.
Proof.
  refine (get_forward_entities_deep_returns Cards.es1 1 "transactions" _).
  intros [|r1 [|r2 path]] [|next1 [|next2 ids]]; simpl; try lia; try tauto.
  intros (Hr1 & _ & Hnext1 & Hr2 & Hchild2 & _). exfalso.
  apply list_elem_of_singleton in Hr1, Hr2. subst r1 r2.
  vm_compute in Hnext1, Hchild2. congruence.
Defined.

(** X14: when the deep search ends without an error, it yields every
    non-empty chain of forward relationships that starts at the table,
    with every step flagged [True], for the table the chain ends at. *)
Theorem get_forward_entities_deep_complete (es : EntitySet) (depth : nat)
  (entity_id : string) (g : Gen EntityStep) (path : list Relationship)
  (ids : list string) :
  get_forward_entities_depth es depth entity_id true = Some g →
  finish g = Exhausted →
  path ≠ [] →
  chain es (child_name es) (parent_name es) entity_id path ids →
  (chain_end entity_id ids, (fun r => (true, r)) <$> path) ∈ yields g.
Proof.
  intros Hg Hfin Hne Hchain.
  by eapply get_forward_entities_depth_complete.
Qed.

Lemma get_forward_entities_deep_complete_witness :
  ("regions", [(true, Diamond.to_stores); (true, Diamond.stores_region)])
  ∈ yields
      (default gen_return
         (get_forward_entities_depth Diamond.es 3 "orders" true)).
Proof.
  refine (get_forward_entities_deep_complete Diamond.es 3 "orders"
            (default gen_return
               (get_forward_entities_depth Diamond.es 3 "orders" true))
            [Diamond.to_stores; Diamond.stores_region] ["stores"; "regions"]
            _ _ _ _).
  - vm_compute. reflexivity.
  - vm_compute. reflexivity.
  - discriminate.
  - simpl. repeat split; try (vm_compute; reflexivity).
    + unfold Diamond.es. simpl. set_solver.
    + unfold Diamond.es. simpl. set_solver.
Defined.

(** ** What registration leaves alone *)

Section RunFacts.

Context {A B : Type}.

Lemma bind_run_inv (m : M A) (f : A -> M B) (st : State) (r : result B)
  (st' : State) :
  (m ≫= f) st = (r, st') →
  (∃ e, m st = (Raise e, st') ∧ r = Raise e)
  ∨ (∃ a st1, m st = (Ok a, st1) ∧ f a st1 = (r, st')).
Proof.
  unfold mbind, M_bind. destruct (m st) as [[a|e] st1].
  - intros H. right. by exists a, st1.
  - intros [= <- <-]. left. by exists e.
Qed.

End RunFacts.

(** Taking a run apart: every bind is split into the case where its first
    part raises and the case where it returns, and the primitive steps are
    replaced by what they do. *)
Ltac run_inv H :=
  lazymatch type of H with
  | (_ ≫= _) _ = _ =>
      let Hm := fresh "Hm" in
      let Hr := fresh "Hr" in
      apply bind_run_inv in H as [(? & Hm & Hr)|(? & ? & Hm & H)];
      [first [discriminate Hr|subst; run_inv Hm]|run_inv Hm; run_inv H]
  | get_es _ = _ => unfold get_es in H; simplify_eq
  | lift _ _ = _ => unfold lift in H; simplify_eq
  | mret _ _ = _ => unfold mret, M_ret in H; simplify_eq
  | raise _ _ = _ => unfold raise in H; simplify_eq
  | put_es _ _ = _ => unfold put_es in H; simplify_eq
  | warn _ _ = _ => unfold warn in H; simplify_eq
  | reset_data_description _ = _ =>
      unfold reset_data_description in H; run_inv H
  | (if decide _ then _ else _) _ = _ => case_decide; run_inv H
  | (if ?b then _ else _) _ = _ => destruct b eqn:?; run_inv H
  | (match ?x with _ => _ end) _ = _ => destruct x eqn:?; run_inv H
  | _ => idtac
  end.

Section FrameFacts.

Lemma only_tables_differ_refl (st : State) : only_tables_differ st st.
Proof. by repeat split. Qed.

Lemma only_tables_differ_trans (st1 st2 st3 : State) :
  only_tables_differ st1 st2 → only_tables_differ st2 st3 →
  only_tables_differ st1 st3.
Proof.
  intros (H1 & H2 & H3 & H4 & H5 & H6 & H7) (G1 & G2 & G3 & G4 & G5 & G6 & G7).
  repeat split; congruence.
Qed.

(** Replacing the table held under an id by one of the same name. *)
Lemma table_names_dict_set (d : list (string * DataFrame)) (k : string)
  (df df' : DataFrame) :
  dict_get d k = Some df →
  ww_name <$> ww df' = ww_name <$> ww df →
  map (fun '(k, df) => (k, ww_name <$> ww df)) (dict_set d k df')
  = map (fun '(k, df) => (k, ww_name <$> ww df)) d.
Proof.
  intros Hget Hname. induction d as [|[k0 v0] d IH]; simpl in *; [done|].
  destruct (decide (k0 = k)) as [->|Hne]; simpl.
  - injection Hget as ->. by rewrite Hname.
  - by rewrite IH.
Qed.

Lemma with_dataframe_only_tables (st : State) (k : string) (df df' : DataFrame) :
  __getitem__ (entityset st) k = Ok df →
  ww_name <$> ww df' = ww_name <$> ww df →
  only_tables_differ st
    (mkState (set_dataframe k df' (entityset st)) (warnings st) (heap st)).
Proof.
  unfold __getitem__. intros Hget Hname.
  destruct (dict_get (dataframe_dict (entityset st)) k) as [df0|] eqn:Hd;
    [|done].
  injection Hget as ->.
  repeat split. unfold table_names. simpl.
  by eapply table_names_dict_set.
Qed.

Lemma ww_add_semantic_tags_name (df df' : DataFrame) (column tag : string) :
  ww_add_semantic_tags df column tag = Ok df' →
  ww_name <$> ww df' = ww_name <$> ww df.
Proof.
  unfold ww_add_semantic_tags, ww_column, ww_schema.
  destruct (ww df) as [s|]; simpl; [|done].
  destruct (ww_columns s !! column); simpl; [|done]. by intros [= <-].
Qed.

Lemma ww_set_index_name (df df' : DataFrame) (column : string) :
  ww_set_index df column = Ok df' →
  ww_name <$> ww df' = ww_name <$> ww df.
Proof.
  unfold ww_set_index, ww_column, ww_schema.
  destruct (ww df) as [s|]; simpl; [|done].
  destruct (ww_columns s !! column); simpl; [|done]. by intros [= <-].
Qed.

Lemma add_semantic_tags_frame (dataframe_id column tag : string)
  (st : State) (r : result unit) (st' : State) :
  add_semantic_tags dataframe_id column tag st = (r, st') →
  only_tables_differ st st'.
Proof.
  unfold add_semantic_tags. intros H. run_inv H;
    try apply only_tables_differ_refl.
  eapply with_dataframe_only_tables; [done|].
  by eapply ww_add_semantic_tags_name.
Qed.

Lemma set_index_frame (dataframe_id column : string)
  (st : State) (r : result unit) (st' : State) :
  set_index dataframe_id column st = (r, st') →
  only_tables_differ st st'.
Proof.
  unfold set_index. intros H. run_inv H;
    try apply only_tables_differ_refl.
  eapply with_dataframe_only_tables; [done|].
  by eapply ww_set_index_name.
Qed.

Lemma ensure_foreign_key_frame (child_id child_column : string)
  (st : State) (r : result unit) (st' : State) :
  ensure_foreign_key child_id child_column st = (r, st') →
  only_tables_differ st st'.
Proof.
  unfold ensure_foreign_key. intros H. run_inv H;
    try apply only_tables_differ_refl.
  by eapply add_semantic_tags_frame.
Qed.

Lemma ensure_index_frame (parent_id parent_column : string)
  (st : State) (r : result unit) (st' : State) :
  ensure_index parent_id parent_column st = (r, st') →
  only_tables_differ st st'.
Proof.
  unfold ensure_index. intros H. run_inv H;
    try apply only_tables_differ_refl.
  by eapply set_index_frame.
Qed.

Lemma cast_empty_child_frame
  (child_id parent_id child_column parent_column : string)
  (st : State) (r : result unit) (st' : State) :
  cast_empty_child child_id parent_id child_column parent_column st = (r, st') →
  only_tables_differ st st'.
Proof.
  unfold cast_empty_child. intros H. run_inv H;
    try apply only_tables_differ_refl.
  by eapply with_dataframe_only_tables.
Qed.

Lemma check_dtypes_frame
  (child_id parent_id child_column parent_column : string)
  (st : State) (r : result unit) (st' : State) :
  check_dtypes child_id parent_id child_column parent_column st = (r, st') →
  st' = st.
Proof. unfold check_dtypes. intros H. by run_inv H. Qed.

End FrameFacts.

Ltac step_frames :=
  repeat match goal with
  | H : ensure_foreign_key _ _ _ = _ |- _ => apply ensure_foreign_key_frame in H
  | H : ensure_index _ _ _ = _ |- _ => apply ensure_index_frame in H
  | H : cast_empty_child _ _ _ _ _ = _ |- _ => apply cast_empty_child_frame in H
  | H : check_dtypes _ _ _ _ _ = _ |- _ =>
      apply check_dtypes_frame in H; subst
  end;
  repeat match goal with
  | H1 : only_tables_differ ?a ?b, H2 : only_tables_differ ?b ?c |- _ =>
      pose proof (only_tables_differ_trans _ _ _ H1 H2); clear H1 H2
  end.

Section AddRelationshipFrame.

Variable Relationship_init :
  option string -> option string -> option string -> option string ->
  M Relationship.

Lemma add_relationship_run_frame (r : Relationship) (st : State)
  (res : result unit) (st' : State) :
  add_relationship Relationship_init None None None None (Some r) st
  = (res, st') →
  es_id (entityset st') = es_id (entityset st)
  ∧ table_names (entityset st') = table_names (entityset st)
  ∧ time_type (entityset st') = time_type (entityset st)
  ∧ heap st' = heap st
  ∧ (relationships (entityset st') = relationships (entityset st)
     ∧ (res = Ok tt → r ∈ relationships (entityset st))
     ∨ res = Ok tt
       ∧ (r ∉ relationships (entityset st))
       ∧ warnings st' = warnings st
       ∧ _data_description (entityset st') = None
       ∧ relationships (entityset st') = relationships (entityset st) ++ [r]).
Proof.
  unfold add_relationship. simpl. intros H. run_inv H; step_frames;
    repeat match goal with
    | H : only_tables_differ _ _ |- _ =>
        destruct H as (? & ? & ? & ? & ? & ? & ?)
    end; simpl in *.
  all: try (split; [done|]; split; [done|]; split; [done|]; split; [done|]).
  all: try (left; split; [done|]; done).
  right. do 4 (split; [done|]).
  match goal with
  | Hrels : relationships _ = relationships _ |- _ => by rewrite Hrels
  end.
Qed.

Lemma add_relationships_run_frame (rs : list Relationship) (st : State)
  (res : result unit) (st' : State) :
  add_relationships Relationship_init (rel_object <$> rs) st = (res, st') →
  es_id (entityset st') = es_id (entityset st)
  ∧ table_names (entityset st') = table_names (entityset st)
  ∧ time_type (entityset st') = time_type (entityset st)
  ∧ heap st' = heap st
  ∧ (∃ new, relationships (entityset st') = relationships (entityset st) ++ new
            ∧ new ⊆ rs
            ∧ (NoDup (relationships (entityset st)) →
               NoDup (relationships (entityset st'))))
  ∧ (res = Ok tt → ∀ r, r ∈ rs → r ∈ relationships (entityset st')).
Proof.
  revert st res st'. induction rs as [|r rs IH]; intros st res st' H.
  - cbn in H. injection H as <- <-.
    split; [done|]. split; [done|]. split; [done|]. split; [done|].
    split; [|intros _ r' Hr'; by apply elem_of_nil in Hr'].
    exists []. by rewrite app_nil_r.
  - cbn [fmap list_fmap add_relationships] in H.
    apply bind_run_inv in H as [(e & H & ->)|([] & st1 & H & Hrest)].
    + apply add_relationship_run_frame in H
        as (H1 & H2 & H3 & H4 & [[H5 _]|(? & _)]); [|done].
      split; [done|]. split; [done|]. split; [done|]. split; [done|].
      split; [|done].
      exists []. rewrite app_nil_r. split; [done|]. split; [set_solver|].
      by rewrite H5.
    + apply add_relationship_run_frame in H as (H1 & H2 & H3 & H4 & H5).
      apply IH in Hrest as (G1 & G2 & G3 & G4 & (new & G5 & Hnew & Hnodup) & G6).
      split; [congruence|]. split; [congruence|]. split; [congruence|].
      split; [congruence|].
      destruct H5 as [[H5 Hin]|(_ & Hnotin & _ & _ & H5)].
      * split.
        -- exists new. split; [by rewrite G5, H5|]. split; [set_solver|].
           intros Hnd. apply Hnodup. by rewrite H5.
        -- intros -> r' [->|Hr']%elem_of_cons; [|by apply G6].
           rewrite G5. apply elem_of_app. left. rewrite H5. by apply Hin.
      * split.
        -- exists (r :: new). split; [by rewrite G5, H5, <- app_assoc|].
           split; [set_solver|].
           intros Hnd. apply Hnodup. rewrite H5.
           apply NoDup_app. split; [done|]. split; [|apply NoDup_singleton].
           intros x Hx ->%list_elem_of_singleton. done.
        -- intros -> r' [->|Hr']%elem_of_cons; [|by apply G6].
           rewrite G5, H5. set_solver.
Qed.

End AddRelationshipFrame.

(** X15: whatever its outcome, [add_relationship] called with a
    [Relationship] object never removes, reorders or renames anything: the
    tables are the same ones under the same names, the time type is the
    same, and the relationships are as before or, when the call returns
    and the relationship was not registered, as before with the new one at
    the end and the metadata cache reset. *)
Theorem add_relationship_preserves
  (Relationship_init :
     option string -> option string -> option string -> option string ->
     M Relationship)
  (r : Relationship) (st : State) :
  let '(res, st') :=
    add_relationship Relationship_init None None None None (Some r) st in
  es_id (entityset st') = es_id (entityset st)
  ∧ table_names (entityset st') = table_names (entityset st)
  ∧ time_type (entityset st') = time_type (entityset st)
  ∧ heap st' = heap st
  ∧ (relationships (entityset st') = relationships (entityset st)
     ∧ (res = Ok tt → r ∈ relationships (entityset st))
     ∨ res = Ok tt
       ∧ (r ∉ relationships (entityset st))
       ∧ warnings st' = warnings st
       ∧ _data_description (entityset st') = None
       ∧ relationships (entityset st') = relationships (entityset st) ++ [r]).
Proof.
  destruct (add_relationship _ _ _ _ _ _ st) as [res st'] eqn:H.
  by eapply add_relationship_run_frame.
Qed.

(** X16: [add_relationships] called with [Relationship] objects only adds
    at the end of the relationships list, and only relationships of its
    argument; a list without duplicates stays without duplicates; and when
    the call returns, every relationship of the argument is registered.
    Tables, names and time type are as before, whatever the outcome. *)
Theorem add_relationships_extends
  (Relationship_init :
     option string -> option string -> option string -> option string ->
     M Relationship)
  (rs : list Relationship) (st : State) :
  let '(res, st') :=
    add_relationships Relationship_init (rel_object <$> rs) st in
  es_id (entityset st') = es_id (entityset st)
  ∧ table_names (entityset st') = table_names (entityset st)
  ∧ time_type (entityset st') = time_type (entityset st)
  ∧ heap st' = heap st
  ∧ (∃ new, relationships (entityset st') = relationships (entityset st) ++ new
            ∧ new ⊆ rs
            ∧ (NoDup (relationships (entityset st)) →
               NoDup (relationships (entityset st'))))
  ∧ (res = Ok tt → ∀ r, r ∈ rs → r ∈ relationships (entityset st')).
Proof.
  destruct (add_relationships _ _ st) as [res st'] eqn:H.
  by eapply add_relationships_run_frame.
Qed.

(** ** What a registered relationship guarantees *)

Section AddRelationshipPost.

Lemma getitem_set_dataframe (es : EntitySet) (k k' : string) (df : DataFrame) :
  __getitem__ (set_dataframe k df es) k'
  = if decide (k = k') then Ok df else __getitem__ es k'.
Proof.
  unfold __getitem__. simpl. case_decide as Hk.
  - subst k'. by rewrite dict_get_set_eq.
  - by rewrite dict_get_set_ne.
Qed.

Lemma ensure_foreign_key_post (child_id child_column : string)
  (st st' : State) :
  ensure_foreign_key child_id child_column st = (Ok tt, st') →
  ∃ df s c,
    __getitem__ (entityset st') child_id = Ok df
    ∧ ww df = Some s
    ∧ ww_columns s !! child_column = Some c
    ∧ "foreign_key" ∈ semantic_tags c.
Proof.
  unfold ensure_foreign_key, add_semantic_tags. intros H. run_inv H.
  - match goal with
    | Hc : ww_column ?df _ = Ok ?c |- _ =>
        unfold ww_column, ww_schema in Hc;
        destruct (ww df) as [s|] eqn:Hww; simpl in Hc; [|done];
        destruct (ww_columns s !! child_column) as [c'|] eqn:Hcol; [|done];
        injection Hc as ->; by exists df, s, c
    end.
  - match goal with
    | Ht : ww_add_semantic_tags ?df _ _ = Ok ?df' |- _ =>
        unfold ww_add_semantic_tags, ww_column, ww_schema in Ht;
        destruct (ww df) as [s|] eqn:Hww; simpl in Ht; [|done];
        destruct (ww_columns s !! child_column) as [c'|] eqn:Hcol;
          simpl in Ht; [|done];
        injection Ht as <-
    end.
    simpl. rewrite getitem_set_dataframe, decide_True by done.
    eexists _, _, _. split; [done|]. split; [done|]. simpl.
    rewrite lookup_insert_eq. split; [done|]. simpl. set_solver.
Qed.

Lemma ensure_index_post (parent_id parent_column : string) (st st' : State) :
  ensure_index parent_id parent_column st = (Ok tt, st') →
  (∃ df s,
     __getitem__ (entityset st') parent_id = Ok df
     ∧ ww df = Some s
     ∧ ww_index s = Some parent_column)
  ∧ ∀ k df,
      __getitem__ (entityset st) k = Ok df →
      ∃ df', __getitem__ (entityset st') k = Ok df'
             ∧ data df' = data df
             ∧ ww_columns <$> ww df' = ww_columns <$> ww df.
Proof.
  unfold ensure_index, set_index. intros H. run_inv H.
  - split.
    + match goal with
      | Hs : ww_schema ?df = Ok ?s |- _ =>
          unfold ww_schema in Hs; destruct (ww df) eqn:Hww; [|done];
          injection Hs as ->; by exists df, s
      end.
    + intros k df Hk. by exists df.
  - match goal with
    | Ht : ww_set_index ?df _ = Ok ?df' |- _ =>
        unfold ww_set_index, ww_column, ww_schema in Ht;
        destruct (ww df) as [s|] eqn:Hww; simpl in Ht; [|done];
        destruct (ww_columns s !! parent_column) as [c'|] eqn:Hcol;
          simpl in Ht; [|done];
        injection Ht as <-
    end.
    simpl. split.
    + rewrite getitem_set_dataframe, decide_True by done.
      eexists _, _. split; [done|]. split; [done|]. done.
    + intros k df Hk. rewrite getitem_set_dataframe. case_decide.
      * subst k. eexists. split; [done|]. simpl.
        match goal with
        | Hw : ww ?d = Some _ |- _ => assert (df = d) as -> by congruence
        end.
        by rewrite Hww.
      * by exists df.
Qed.

Lemma cast_empty_child_post
  (child_id parent_id child_column parent_column : string) (st st' : State) :
  cast_empty_child child_id parent_id child_column parent_column st
  = (Ok tt, st') →
  ∀ k df,
    __getitem__ (entityset st) k = Ok df →
    ∃ df', __getitem__ (entityset st') k = Ok df' ∧ ww df' = ww df.
Proof.
  unfold cast_empty_child. intros H. run_inv H.
  - intros k df Hk. simpl. rewrite getitem_set_dataframe. case_decide.
    + subst k. eexists. split; [done|]. simpl. congruence.
    + by exists df.
  - intros k df Hk. by exists df.
Qed.

Lemma check_dtypes_post
  (child_id parent_id child_column parent_column : string) (st st' : State) :
  check_dtypes child_id parent_id child_column parent_column st = (Ok tt, st') →
  st' = st
  ∧ ∃ parent child parent_series child_series,
      __getitem__ (entityset st) parent_id = Ok parent
      ∧ __getitem__ (entityset st) child_id = Ok child
      ∧ df_column parent parent_column = Ok parent_series
      ∧ df_column child child_column = Ok child_series
      ∧ dtype parent_series = dtype child_series.
Proof.
  unfold check_dtypes. intros H. run_inv H. split; [done|].
  eexists _, _, _, _. done.
Qed.

Lemma getitem_appended (es : EntitySet) (rels : list Relationship)
  (d : option Description) (k : string) :
  __getitem__ (set_cache d (set_relationships rels es)) k = __getitem__ es k.
Proof. reflexivity. Qed.

Lemma column_name_Ok (df : DataFrame) (column_id column : string) :
  column_name df column_id = Ok column → column = column_id.
Proof.
  unfold column_name. destruct (ww_column df column_id); simpl; [|done].
  by intros [= <-].
Qed.

End AddRelationshipPost.

(** X17: when [add_relationship] returns for a relationship that was not
    registered, the entity set holds both tables, the child column carries
    the [foreign_key] tag, the parent column is the index of the parent
    table, and the two columns have the same dtype. *)
Theorem add_relationship_establishes
  (Relationship_init :
     option string -> option string -> option string -> option string ->
     M Relationship)
  (r : Relationship) (st st' : State) :
  add_relationship Relationship_init None None None None (Some r) st
  = (Ok tt, st') →
  r ∉ relationships (entityset st) →
  ∃ child parent child_schema parent_schema child_column
    parent_series child_series,
    child_dataframe (entityset st') r = Ok child
    ∧ parent_dataframe (entityset st') r = Ok parent
    ∧ ww child = Some child_schema
    ∧ ww_columns child_schema !! _child_column_id r = Some child_column
    ∧ "foreign_key" ∈ semantic_tags child_column
    ∧ ww parent = Some parent_schema
    ∧ ww_index parent_schema = Some (_parent_column_id r)
    ∧ df_column parent (_parent_column_id r) = Ok parent_series
    ∧ df_column child (_child_column_id r) = Ok child_series
    ∧ dtype parent_series = dtype child_series.
Proof.
  unfold add_relationship. simpl. intros H Hnew. run_inv H; [done|].
  repeat match goal with
  | Hc : column_name _ _ = Ok _ |- _ => apply column_name_Ok in Hc; subst
  | u : unit |- _ => destruct u
  end.
  repeat match goal with
  | Hs : ensure_foreign_key _ _ _ = _ |- _ =>
      apply ensure_foreign_key_post in Hs as (c1 & cs1 & cc1 & Hc1 & Hcs1 & Hcc1 & Hfk)
  | Hs : ensure_index _ _ _ = _ |- _ =>
      apply ensure_index_post in Hs as [(p2 & ps2 & Hp2 & Hps2 & Hidx) Hkeep2]
  | Hs : cast_empty_child _ _ _ _ _ = _ |- _ =>
      pose proof (cast_empty_child_post _ _ _ _ _ _ Hs) as Hkeep3; clear Hs
  | Hs : check_dtypes _ _ _ _ _ = _ |- _ =>
      apply check_dtypes_post in Hs
        as [-> (p4 & c4 & pser & cser & Hp4 & Hc4 & Hpser & Hcser & Hdtype)]
  end.
  simpl. unfold child_dataframe, parent_dataframe.
  rewrite !getitem_appended.
  destruct (Hkeep2 _ _ Hc1) as (c2 & Hc2 & _ & Hcols2).
  destruct (Hkeep3 _ _ Hc2) as (c3 & Hc3 & Hww3).
  destruct (Hkeep3 _ _ Hp2) as (p3 & Hp3 & Hpww3).
  assert (c4 = c3) as -> by congruence.
  assert (p4 = p3) as -> by congruence.
  rewrite Hcs1 in Hcols2. rewrite <- Hww3 in Hcols2.
  destruct (ww c3) as [cs3|] eqn:Hcs3; [|done]. simpl in Hcols2.
  injection Hcols2 as Hcols2.
  exists c3, p3, cs3, ps2, cc1, pser, cser.
  split; [done|]. split; [done|]. split; [done|].
  split; [by rewrite Hcols2|]. split; [done|].
  split; [congruence|]. done.
Qed.

Lemma add_relationship_establishes_witness :
  ∃ child parent child_schema parent_schema child_column
    parent_series child_series,
    __getitem__ Cards.es1 "transactions" = Ok child
    ∧ __getitem__ Cards.es1 "cards" = Ok parent
    ∧ ww child = Some child_schema
    ∧ ww_columns child_schema !! "card_id" = Some child_column
    ∧ "foreign_key" ∈ semantic_tags child_column
    ∧ ww parent = Some parent_schema
    ∧ ww_index parent_schema = Some "id"
    ∧ df_column parent "id" = Ok parent_series
    ∧ df_column child "card_id" = Ok child_series
    ∧ dtype parent_series = dtype child_series.
Proof.
  refine (add_relationship_establishes Collaborators.Relationship_init
            Cards.card_of_transaction (Cards.state Cards.es0)
            (Cards.state Cards.es1) _ _).
  - vm_compute. reflexivity.
  - unfold Cards.es0. simpl. set_solver.
Defined.

(** ** Time indexes *)

Section TimeTypeFacts.

Variable DEFAULT_DTYPE_VALUES : Dtype -> option Value.
Variable _check_time_type : Value -> option TimeType.

Lemma only_time_type_set_refl (st : State) : only_time_type_set st st.
Proof. repeat split. by left. Qed.

Lemma only_time_type_set_trans (st1 st2 st3 : State) :
  only_time_type_set st1 st2 → only_time_type_set st2 st3 →
  only_time_type_set st1 st3.
Proof.
  intros (H1 & H2 & H3 & H4 & H5 & H6 & H7) (G1 & G2 & G3 & G4 & G5 & G6 & G7).
  split; [congruence|]. split; [congruence|]. split; [congruence|].
  split; [congruence|]. split; [congruence|]. split; [congruence|].
  destruct H7 as [H7|[H7 [t Ht]]], G7 as [G7|[G7 [t' Ht']]].
  - left. congruence.
  - right. split; [congruence|]. by exists t'.
  - right. split; [done|]. exists t. congruence.
  - congruence.
Qed.

Lemma only_time_type_set_Some (st st' : State) (t : TimeType) :
  only_time_type_set st st' →
  time_type (entityset st) = Some t → time_type (entityset st') = Some t.
Proof. intros (_ & _ & _ & _ & _ & _ & [H|[H _]]) Ht; congruence. Qed.

Lemma classified_as_later (st st' : State) (dataframe : DataFrame)
  (column : string) :
  only_time_type_set st st' →
  classified_as DEFAULT_DTYPE_VALUES _check_time_type (entityset st)
    dataframe column →
  classified_as DEFAULT_DTYPE_VALUES _check_time_type (entityset st')
    dataframe column.
Proof.
  intros Hset (t & Ht & Htype). exists t. split; [done|].
  by eapply only_time_type_set_Some.
Qed.

Lemma _get_time_type_same (df df' : DataFrame) (column : string) :
  same_but_secondary df df' →
  _get_time_type DEFAULT_DTYPE_VALUES _check_time_type df' column
  = _get_time_type DEFAULT_DTYPE_VALUES _check_time_type df column.
Proof.
  intros (Hengine & Hdata & Hww).
  unfold _get_time_type, df_empty, df_column, ww_schema.
  rewrite Hengine, Hdata.
  destruct (ww df), (ww df'); done.
Qed.

Lemma column_to_check_same (df df' : DataFrame) (column_id : option string) :
  same_but_secondary df df' →
  column_to_check df' column_id = column_to_check df column_id.
Proof.
  intros (_ & _ & Hww). unfold column_to_check.
  destruct (truthy_str column_id); [done|].
  destruct (ww df), (ww df'); simpl in *; congruence.
Qed.

Lemma classified_as_same (es es' : EntitySet) (df df' : DataFrame)
  (column : string) :
  (∀ t, time_type es = Some t → time_type es' = Some t) →
  same_but_secondary df df' →
  classified_as DEFAULT_DTYPE_VALUES _check_time_type es df column →
  classified_as DEFAULT_DTYPE_VALUES _check_time_type es' df' column.
Proof.
  intros Htype Hsame (t & Ht & Hes). exists t.
  rewrite (_get_time_type_same df df') by done. split; [done|]. by apply Htype.
Qed.


Lemma checked_item_elem (item : string * list string) :
  (checked_item item).1 ∈ (checked_item item).2.
Proof.
  unfold checked_item. simpl. case_decide; [done|].
  apply elem_of_app. right. apply list_elem_of_here.
Qed.

(** The check of one column: the state changes only by recording the time
    type, and when the check passes the column's classification is the
    entity set's time type. *)
Lemma _check_uniform_time_index_inv (dataframe : DataFrame)
  (column_id : option string) (st : State) (r : result unit) (st' : State) :
  _check_uniform_time_index DEFAULT_DTYPE_VALUES _check_time_type dataframe
    column_id st = (r, st') →
  only_time_type_set st st'
  ∧ (r = Ok tt →
     ∀ column,
       column_to_check dataframe column_id = Some column →
       classified_as DEFAULT_DTYPE_VALUES _check_time_type (entityset st')
         dataframe column).
Proof.
  unfold _check_uniform_time_index, column_to_check, classified_as. intros H.
  destruct (truthy_str column_id) eqn:Htruthy; run_inv H.
  all: repeat match goal with
       | Hs : ww_schema ?df = _ |- _ =>
           unfold ww_schema in Hs; destruct (ww df) eqn:?; simplify_eq/=
       end.
  all: (split;
        [first [apply only_time_type_set_refl
               |repeat split; simpl; right; split; [done|]; by eexists]|]).
  all: try done.
  all: try (intros _ column Hcol; simplify_eq/=; by eexists).
Qed.

Lemma check_secondary_items_inv (dataframe : DataFrame)
  (items : list (string * list string)) (st : State)
  (r : result (list (string * list string))) (st' : State) :
  check_secondary_items DEFAULT_DTYPE_VALUES _check_time_type dataframe items st
  = (r, st') →
  only_time_type_set st st'
  ∧ ∀ checked,
      r = Ok checked →
      checked = checked_item <$> items
      ∧ Forall (fun item =>
                  ∀ column,
                    column_to_check dataframe (Some item.1) = Some column →
                    classified_as DEFAULT_DTYPE_VALUES _check_time_type
                      (entityset st') dataframe column)
          items.
Proof.
  revert st r st'. induction items as [|[time_index columns] items IH];
    intros st r st' H.
  - cbn in H. injection H as <- <-. split; [apply only_time_type_set_refl|].
    intros checked [= <-]. split; [done|]. constructor.
  - cbn [check_secondary_items] in H.
    apply bind_run_inv in H as [(e & H & ->)|([] & st1 & H & Hrest)].
    + apply _check_uniform_time_index_inv in H as [H _]. by split.
    + apply _check_uniform_time_index_inv in H as [Hset1 Hfirst].
      specialize (Hfirst eq_refl).
      apply bind_run_inv in Hrest as [(e & H & ->)|(rest & st2 & H & Hrest)].
      * apply IH in H as [Hset2 _].
        split; [by eapply only_time_type_set_trans|done].
      * apply IH in H as [Hset2 Hitems].
        destruct (Hitems rest eq_refl) as [-> Hall].
        unfold mret, M_ret in Hrest. injection Hrest as <- <-.
        split; [by eapply only_time_type_set_trans|].
        intros checked [= <-]. split; [done|]. constructor; [|done].
        intros column Hcolumn. eapply classified_as_later; [exact Hset2|].
        by apply Hfirst.
Qed.

Lemma _check_secondary_time_index_inv (dataframe : DataFrame)
  (secondary_time_index : option (list (string * list string)))
  (st : State) (r : result (DataFrame * list (string * list string)))
  (st' : State) :
  _check_secondary_time_index DEFAULT_DTYPE_VALUES _check_time_type dataframe
    secondary_time_index st = (r, st') →
  only_time_type_set st st'
  ∧ ∀ df' checked,
      r = Ok (df', checked) →
      let items := secondary_items dataframe secondary_time_index in
      checked = checked_item <$> items
      ∧ Forall (fun item =>
                  ∀ column,
                    column_to_check dataframe (Some item.1) = Some column →
                    classified_as DEFAULT_DTYPE_VALUES _check_time_type
                      (entityset st') dataframe column)
          items
      ∧ same_but_secondary dataframe df'
      ∧ ww df' ≫= ww_secondary_time_index
        = match secondary_time_index with
          | Some (_ :: _) => ww dataframe ≫= ww_secondary_time_index
          | _ => (fun _ => checked) <$> (ww dataframe ≫= ww_secondary_time_index)
          end.
Proof.
  unfold _check_secondary_time_index, secondary_items. intros H.
  destruct secondary_time_index as [[|item items]|]; run_inv H.
  all: repeat match goal with
       | Hs : ww_schema ?df = _ |- _ =>
           unfold ww_schema in Hs; destruct (ww df) eqn:?; simplify_eq/=
       | Hs : check_secondary_items _ _ _ _ _ = _ |- _ =>
           apply check_secondary_items_inv in Hs as [? Hitems]
       end.
  all: (split; [first [done|apply only_time_type_set_refl]|]).
  all: try done.
  all: intros df' checked [= <- <-].
  all: try (destruct (Hitems _ eq_refl) as [-> Hall]).
  all: repeat match goal with
       | Hs : ?x = _ |- context [?x] => rewrite Hs
       end; simpl.
  all: try (split; [done|]; split; [done|]; split; [done|]; done).
  all: split; [done|]; split; [first [assumption|constructor]|].
  all: split; [unfold same_but_secondary; simpl;
               repeat match goal with
                      | Hs : ?x = _ |- context [?x] => rewrite Hs
                      end; done|]; simpl.
  all: repeat match goal with
       | Hs : ?x = _ |- context [?x] => rewrite Hs
       end; done.
Qed.

Lemma set_secondary_time_index_inv (dataframe : DataFrame)
  (secondary_time_index : list (string * list string))
  (st : State) (r : result DataFrame) (st' : State) :
  set_secondary_time_index DEFAULT_DTYPE_VALUES _check_time_type dataframe
    secondary_time_index st = (r, st') →
  only_time_type_set st st'
  ∧ ∀ df',
      r = Ok df' →
      same_but_secondary dataframe df'
      ∧ ww df' ≫= ww_secondary_time_index
        = Some (checked_item <$> secondary_time_index)
      ∧ Forall (fun item =>
                  ∀ column,
                    column_to_check dataframe (Some item.1) = Some column →
                    classified_as DEFAULT_DTYPE_VALUES _check_time_type
                      (entityset st') dataframe column)
          secondary_time_index.
Proof.
  unfold set_secondary_time_index. intros H.
  apply bind_run_inv in H as [(e & H & ->)|([df1 checked] & st1 & H & Hrest)].
  - apply _check_secondary_time_index_inv in H as [H _]. by split.
  - apply _check_secondary_time_index_inv in H as [Hset Hpost].
    destruct (Hpost _ _ eq_refl) as (Hchecked & Hall & Hsame & Hstored).
    run_inv Hrest; (split; [done|]); [done|].
    intros df' [= <-].
    match goal with
    | Hs : ww_schema _ = Ok _ |- _ =>
        unfold ww_schema in Hs; destruct (ww df1) eqn:Hww1; simplify_eq/=
    end.
    destruct Hsame as (Hengine & Hdata & Hww).
    split.
    { split; [done|]. split; [done|]. simpl. by rewrite Hww1 in Hww. }
    destruct secondary_time_index as [|item items]; simpl.
    + split; [done|]. constructor.
    + split; [done|]. exact Hall.
Qed.

End TimeTypeFacts.

Section SecondaryFacts.

Variable DEFAULT_DTYPE_VALUES : Dtype -> option Value.
Variable _check_time_type : Value -> option TimeType.

Lemma set_secondary_time_index_of_inv (dataframe_id : string)
  (secondary_time_index : list (string * list string))
  (st : State) (r : result unit) (st' : State) :
  set_secondary_time_index_of DEFAULT_DTYPE_VALUES _check_time_type
    dataframe_id secondary_time_index st = (r, st') →
  (r ≠ Ok tt → only_time_type_set st st')
  ∧ (r = Ok tt →
     ∃ st1 df df',
       only_time_type_set st st1
       ∧ st' = with_dataframe dataframe_id df' st1
       ∧ __getitem__ (entityset st) dataframe_id = Ok df
       ∧ same_but_secondary df df'
       ∧ ww df' ≫= ww_secondary_time_index
         = Some (checked_item <$> secondary_time_index)
       ∧ Forall (fun item =>
                   ∀ column,
                     column_to_check df (Some item.1) = Some column →
                     classified_as DEFAULT_DTYPE_VALUES _check_time_type
                       (entityset st1) df column)
           secondary_time_index).
Proof.
  unfold set_secondary_time_index_of. intros H. run_inv H.
  all: repeat match goal with
       | Hs : set_secondary_time_index _ _ _ _ _ = _ |- _ =>
           apply set_secondary_time_index_inv in Hs as [Hset Hpost]
       end.
  all: split; try done.
  - intros _. apply only_time_type_set_refl.
  - intros _. destruct (Hpost _ eq_refl) as (Hsame & Hstored & Hall).
    eexists _, _, _. split; [exact Hset|]. split; [reflexivity|]. done.
Qed.

End SecondaryFacts.

(** X18: when [set_secondary_time_index] returns, the table the entity set
    holds under the id is the one it held before with another secondary
    time index: the dict passed in, in which every time column has been
    appended to its own list of columns unless it was there; every one of
    its time columns is classified as the entity set's time type; and the
    other tables and the relationships are as before. *)
Theorem set_secondary_time_index_of_stores
  (DEFAULT_DTYPE_VALUES : Dtype -> option Value)
  (_check_time_type : Value -> option TimeType)
  (dataframe_id : string) (secondary_time_index : list (string * list string))
  (st st' : State) :
  set_secondary_time_index_of DEFAULT_DTYPE_VALUES _check_time_type
    dataframe_id secondary_time_index st = (Ok tt, st') →
  ∃ df df',
    __getitem__ (entityset st) dataframe_id = Ok df
    ∧ __getitem__ (entityset st') dataframe_id = Ok df'
    ∧ same_but_secondary df df'
    ∧ ww df' ≫= ww_secondary_time_index
      = Some (checked_item <$> secondary_time_index)
    ∧ Forall (fun item =>
                item.1 ∈ (checked_item item).2
                ∧ ∀ column,
                    column_to_check df' (Some item.1) = Some column →
                    classified_as DEFAULT_DTYPE_VALUES _check_time_type
                      (entityset st') df' column)
        secondary_time_index
    ∧ (∀ k, k ≠ dataframe_id →
            __getitem__ (entityset st') k = __getitem__ (entityset st) k)
    ∧ relationships (entityset st') = relationships (entityset st).
Proof.
  intros H. apply set_secondary_time_index_of_inv in H as [_ H].
  destruct (H eq_refl)
    as (st1 & df & df' & Hset & -> & Hget & Hsame & Hstored & Hall).
  pose proof Hset as (_ & Hdict & Hrels & _).
  exists df, df'. split; [done|].
  split; [apply getitem_with_dataframe_eq|]. split; [done|]. split; [done|].
  split; [|split].
  - eapply Forall_impl; [exact Hall|]. intros item Hitem.
    split; [apply (checked_item_elem item)|].
    intros column Hcolumn. rewrite (column_to_check_same df df') in Hcolumn
      by done.
    eapply classified_as_same; [|exact Hsame|by apply Hitem]. done.
  - intros k Hk. rewrite getitem_with_dataframe_ne by done.
    unfold __getitem__. by rewrite Hdict.
  - simpl. exact Hrels.
Qed.

Lemma set_secondary_time_index_of_stores_witness :
  ∃ df df',
    __getitem__ Cards.es1 "transactions" = Ok df
    ∧ __getitem__
        (entityset
           (set_secondary_time_index_of Collaborators.DEFAULT_DTYPE_VALUES
              Collaborators._check_time_type "transactions"
              [("settled_time", ["card_id"])] (Cards.state Cards.es1)).2)
        "transactions" = Ok df'
    ∧ ww df' ≫= ww_secondary_time_index
      = Some [("settled_time", ["card_id"; "settled_time"])].
Proof.
  destruct (set_secondary_time_index_of_stores
              Collaborators.DEFAULT_DTYPE_VALUES Collaborators._check_time_type
              "transactions" [("settled_time", ["card_id"])]
              (Cards.state Cards.es1)
              (set_secondary_time_index_of Collaborators.DEFAULT_DTYPE_VALUES
                 Collaborators._check_time_type "transactions"
                 [("settled_time", ["card_id"])] (Cards.state Cards.es1)).2)
    as (df & df' & H1 & H2 & _ & H3 & _).
  - vm_compute. reflexivity.
  - exists df, df'. split; [exact H1|]. split; [exact H2|]. exact H3.
Defined.


Section CheckAllFacts.

Variable DEFAULT_DTYPE_VALUES : Dtype -> option Value.
Variable _check_time_type : Value -> option TimeType.

Lemma same_but_secondary_name (df df' : DataFrame) :
  same_but_secondary df df' → ww_name <$> ww df' = ww_name <$> ww df.
Proof.
  intros (_ & _ & Hww). destruct (ww df), (ww df'); simpl in *; congruence.
Qed.

Lemma same_but_secondary_time_index (df df' : DataFrame) :
  same_but_secondary df df' →
  ww df' ≫= ww_time_index = ww df ≫= ww_time_index.
Proof.
  intros (_ & _ & Hww). destruct (ww df), (ww df'); simpl in *; congruence.
Qed.

(** What checking one table establishes for the table as the check leaves
    it. *)
Lemma checked_table_uniform (st1 st2 : State) (es' : EntitySet)
  (df df' : DataFrame) (checked : list (string * list string)) :
  (∀ column,
     column_to_check df None = Some column →
     classified_as DEFAULT_DTYPE_VALUES _check_time_type (entityset st1)
       df column) →
  (∀ t, time_type (entityset st1) = Some t → time_type es' = Some t) →
  (∀ t, time_type (entityset st2) = Some t → time_type es' = Some t) →
  checked = checked_item <$> secondary_items df None →
  Forall (fun item =>
            ∀ column,
              column_to_check df (Some item.1) = Some column →
              classified_as DEFAULT_DTYPE_VALUES _check_time_type
                (entityset st2) df column)
    (secondary_items df None) →
  same_but_secondary df df' →
  ww df' ≫= ww_secondary_time_index
  = (fun _ => checked) <$> (ww df ≫= ww_secondary_time_index) →
  time_indexes_uniform DEFAULT_DTYPE_VALUES _check_time_type es' df'.
Proof.
  intros Hfirst Hlater1 Hlater2 -> Hall Hsame Hstored. split.
  - intros column Hcolumn.
    rewrite (same_but_secondary_time_index df df') in Hcolumn by done.
    eapply classified_as_same; [exact Hlater1|exact Hsame|].
    by apply Hfirst.
  - rewrite Hstored. unfold secondary_items in Hall |- *.
    destruct (ww df ≫= ww_secondary_time_index) as [stored|]; simpl in *;
      [|constructor].
    apply Forall_fmap. eapply Forall_impl; [exact Hall|].
    intros item Hitem. simpl. split; [apply (checked_item_elem item)|].
    intros column Hcolumn.
    rewrite (column_to_check_same df df') in Hcolumn by done.
    eapply classified_as_same; [exact Hlater2|exact Hsame|].
    by apply Hitem.
Qed.


Lemma check_time_indexes_from_inv (tables : list (string * DataFrame)) :
  ∀ (done : list (string * DataFrame)) (st : State) (r : result unit)
    (st' : State),
    dataframe_dict (entityset st) = done ++ tables →
    check_time_indexes_from DEFAULT_DTYPE_VALUES _check_time_type
      (length done) tables st = (r, st') →
    es_id (entityset st') = es_id (entityset st)
    ∧ relationships (entityset st') = relationships (entityset st)
    ∧ _data_description (entityset st') = _data_description (entityset st)
    ∧ warnings st' = warnings st
    ∧ heap st' = heap st
    ∧ table_names (entityset st') = table_names (entityset st)
    ∧ (∀ t, time_type (entityset st) = Some t →
            time_type (entityset st') = Some t)
    ∧ (r = Ok tt →
       ∃ tables',
         dataframe_dict (entityset st') = done ++ tables'
         ∧ Forall2 (fun old new =>
                      new.1 = old.1
                      ∧ same_but_secondary old.2 new.2
                      ∧ time_indexes_uniform DEFAULT_DTYPE_VALUES
                          _check_time_type (entityset st') new.2)
             tables tables').
Proof.
  induction tables as [|[k df] tables IH]; intros done st r st' Hdict H.
  - cbn in H. injection H as <- <-. repeat split; try done.
    intros _. exists []. split; [done|]. constructor.
  - cbn [check_time_indexes_from] in H.
    apply bind_run_inv in H as [(e & H & ->)|([] & st1 & H & H')].
    { apply _check_uniform_time_index_inv in H as [Hset _].
      pose proof (only_time_type_set_Some st st') as Htype.
      pose proof Hset as (H1 & H2 & H3 & H4 & H5 & H6 & _).
      unfold table_names. rewrite H2. repeat split; try done.
      intros t. by apply Htype. }
    apply _check_uniform_time_index_inv in H as [Hset1 Hfirst].
    specialize (Hfirst eq_refl).
    apply bind_run_inv in H' as [(e & H & ->)|([df' checked] & st2 & H & H')].
    { apply _check_secondary_time_index_inv in H as [Hset2 _].
      pose proof (only_time_type_set_trans _ _ _ Hset1 Hset2) as Hset.
      pose proof (only_time_type_set_Some st st') as Htype.
      pose proof Hset as (H1 & H2 & H3 & H4 & H5 & H6 & _).
      unfold table_names. rewrite H2. repeat split; try done.
      intros t. by apply Htype. }
    apply _check_secondary_time_index_inv in H as [Hset2 Hpost].
    destruct (Hpost _ _ eq_refl) as (Hchecked & Hall & Hsame & Hstored).
    pose proof (only_time_type_set_trans _ _ _ Hset1 Hset2) as Hset.
    apply bind_run_inv in H' as [(e & H & ->)|(es2 & st3 & H & H')];
      [done|].
    injection H as <- <-.
    apply bind_run_inv in H' as [(e & H & ->)|([] & st3 & H & H')];
      [done|].
    injection H as <-.
    pose proof Hset as (H1 & H2 & H3 & H4 & H5 & H6 & _).
    assert (<[length done := (k, df')]> (dataframe_dict (entityset st2))
            = (done ++ [(k, df')]) ++ tables) as Hinsert.
    { rewrite H2, Hdict, <- app_assoc. simpl.
      rewrite <- (Nat.add_0_r (length done)).
      by rewrite insert_app_r. }
    rewrite Hinsert in H'.
    replace (S (length done)) with (length (done ++ [(k, df')])) in H'
      by (rewrite length_app; simpl; lia).
    apply IH in H' as (G1 & G2 & G3 & G4 & G5 & G6 & G7 & G8); [|done].
    simpl in G1, G2, G3, G4, G5, G6, G7.
    assert (∀ t, time_type (entityset st) = Some t →
                 time_type (entityset st2) = Some t) as Htype
      by (intros t; by apply only_time_type_set_Some).
    assert (∀ t, time_type (entityset st1) = Some t →
                 time_type (entityset st2) = Some t) as Htype1
      by (intros t; by apply only_time_type_set_Some).
    split; [congruence|]. split; [congruence|]. split; [congruence|].
    split; [congruence|]. split; [congruence|]. split; [|split].
    + rewrite G6. unfold table_names. simpl. rewrite Hdict.
      rewrite <- app_assoc, !map_app. simpl.
      by rewrite (same_but_secondary_name df df').
    + intros t Ht. apply G7. simpl. by apply Htype.
    + intros ->. destruct (G8 eq_refl) as (tables' & Hdict' & Hrest).
      exists ((k, df') :: tables'). split.
      * by rewrite Hdict', <- app_assoc.
      * constructor; [|done]. simpl. split; [done|]. split; [done|].
        eapply (checked_table_uniform st1 st2); try done.
        intros t Ht. apply G7. simpl. by apply Htype1.
Qed.

End CheckAllFacts.

(** X20: when [_check_time_indexes] returns, the entity set holds the same
    tables under the same ids, each differing from before at most in its
    secondary time index, and in every table the time index and the time
    columns of the secondary time index are classified as the time type of
    the entity set, and every secondary time column is in its own list of
    columns. *)
Theorem _check_time_indexes_uniform
  (DEFAULT_DTYPE_VALUES : Dtype -> option Value)
  (_check_time_type : Value -> option TimeType) (st st' : State) :
  _check_time_indexes DEFAULT_DTYPE_VALUES _check_time_type st = (Ok tt, st') →
  Forall2 (fun old new =>
             new.1 = old.1
             ∧ same_but_secondary old.2 new.2
             ∧ time_indexes_uniform DEFAULT_DTYPE_VALUES _check_time_type
                 (entityset st') new.2)
    (dataframe_dict (entityset st)) (dataframe_dict (entityset st')).
Proof.
  unfold _check_time_indexes. intros H.
  apply bind_run_inv in H as [(e & H & He)|(es & st1 & H & H')]; [done|].
  injection H as <- <-.
  apply (check_time_indexes_from_inv _ _ _ []) in H'
    as (_ & _ & _ & _ & _ & _ & _ & H); [|done].
  destruct (H eq_refl) as (tables' & -> & Hall). exact Hall.
Qed.

Lemma _check_time_indexes_uniform_witness :
  Forall2 (fun old new =>
             new.1 = old.1
             ∧ same_but_secondary old.2 new.2
             ∧ time_indexes_uniform Collaborators.DEFAULT_DTYPE_VALUES
                 Collaborators._check_time_type Cards.es1 new.2)
    (dataframe_dict Cards.es1) (dataframe_dict Cards.es1).
Proof.
  refine (_check_time_indexes_uniform Collaborators.DEFAULT_DTYPE_VALUES
            Collaborators._check_time_type (Cards.state Cards.es1)
            (Cards.state Cards.es1) _).
  vm_compute. reflexivity.
Defined.

(** X21: whatever its outcome, [_check_time_indexes] changes nothing but
    secondary time indexes and a time type that was still open: the id of
    the entity set, its relationships, the cached metadata, the ids and
    the names of the tables are as before, and a time type that was
    recorded stays recorded. *)
Theorem _check_time_indexes_preserves
  (DEFAULT_DTYPE_VALUES : Dtype -> option Value)
  (_check_time_type : Value -> option TimeType) (st : State) :
  let '(res, st') :=
    _check_time_indexes DEFAULT_DTYPE_VALUES _check_time_type st in
  es_id (entityset st') = es_id (entityset st)
  ∧ relationships (entityset st') = relationships (entityset st)
  ∧ _data_description (entityset st') = _data_description (entityset st)
  ∧ warnings st' = warnings st
  ∧ heap st' = heap st
  ∧ table_names (entityset st') = table_names (entityset st)
  ∧ (∀ t, time_type (entityset st) = Some t →
          time_type (entityset st') = Some t).
Proof.
  destruct (_check_time_indexes _ _ st) as [res st'] eqn:H.
  unfold _check_time_indexes in H.
  apply bind_run_inv in H as [(e & H & He)|(es & st1 & H & H')]; [done|].
  injection H as <- <-.
  apply (check_time_indexes_from_inv _ _ _ []) in H'
    as (H1 & H2 & H3 & H4 & H5 & H6 & H7 & _); done.
Qed.

(** ** Registering a table *)

Section AddDataframeFacts.

Variable ww_init : DataFrame -> InitArgs -> result DataFrame.
Variable DEFAULT_DTYPE_VALUES : Dtype -> option Value.
Variable _check_time_type : Value -> option TimeType.




End AddDataframeFacts.




(** ** The metadata cache, again *)


(** X25: after [add_dataframe] has returned, the next read of [metadata]
    describes the entity set as it is then, whatever was cached before. *)
Theorem metadata_after_add_dataframe
  (ww_init : DataFrame -> InitArgs -> result DataFrame)
  (DEFAULT_DTYPE_VALUES : Dtype -> option Value)
  (_check_time_type : Value -> option TimeType)
  (dataframe_id : string) (dataframe : DataFrame) (index : option string)
  (logical_types : option (list (string * LogicalType)))
  (semantic_tags : option (list (string * gset string)))
  (make_index : bool) (time_index : option string)
  (secondary_time_index : option (list (string * list string)))
  (already_sorted : AlreadySorted) (st st' : State) :
  add_dataframe ww_init DEFAULT_DTYPE_VALUES _check_time_type dataframe_id
    dataframe index logical_types semantic_tags make_index time_index
    secondary_time_index already_sorted st = (Ok tt, st') →
  (metadata st').1 = Ok (entityset_to_description (entityset st')).
Proof.
  intros H. apply add_dataframe_resets_cache in H.
  unfold metadata, mbind, M_bind, get_es. by rewrite H.
Qed.

Lemma metadata_after_add_dataframe_witness :
  (metadata
     (add_dataframe Collaborators.ww_init Collaborators.DEFAULT_DTYPE_VALUES
        Collaborators._check_time_type "ratings" Ratings.ratings None None
        None false None None (sorted_flag false)
        (metadata (Cards.state (mkEntitySet None [] [] None None))).2).2).1
  = Ok (entityset_to_description
          (entityset
             (add_dataframe Collaborators.ww_init
                Collaborators.DEFAULT_DTYPE_VALUES
                Collaborators._check_time_type "ratings" Ratings.ratings None
                None None false None None (sorted_flag false)
                (metadata
                   (Cards.state (mkEntitySet None [] [] None None))).2).2)).
Proof.
  refine (metadata_after_add_dataframe Collaborators.ww_init
            Collaborators.DEFAULT_DTYPE_VALUES Collaborators._check_time_type
            "ratings" Ratings.ratings None None None false None None
            (sorted_flag false)
            (metadata (Cards.state (mkEntitySet None [] [] None None))).2
            _ _).
  vm_compute. reflexivity.
Defined.

(** X26: after [add_relationship] has registered a new relationship, the
    next read of [metadata] describes the entity set as it is then, the new
    relationship included. *)
Theorem metadata_after_add_relationship
  (Relationship_init :
     option string -> option string -> option string -> option string ->
     M Relationship)
  (r : Relationship) (st st' : State) :
  add_relationship Relationship_init None None None None (Some r) st
  = (Ok tt, st') →
  r ∉ relationships (entityset st) →
  ∃ d, (metadata st').1 = Ok d
       ∧ d = entityset_to_description (entityset st')
       ∧ d_relationships d = relationships (entityset st) ++ [r].
Proof.
  intros H Hnew.
  apply add_relationship_run_frame in H
    as (_ & _ & _ & _ & [[_ Hin]|(_ & _ & _ & Hcache & Hrels)]).
  { by specialize (Hin eq_refl). }
  eexists. unfold metadata, mbind, M_bind, get_es. rewrite Hcache. simpl.
  split; [done|]. split; [done|]. done.
Qed.

Lemma metadata_after_add_relationship_witness :
  ∃ d, (metadata (Cards.state Cards.es1)).1 = Ok d
       ∧ d = entityset_to_description Cards.es1
       ∧ d_relationships d = [] ++ [Cards.card_of_transaction].
Proof.
  refine (metadata_after_add_relationship Collaborators.Relationship_init
            Cards.card_of_transaction
            (metadata (Cards.state Cards.es0)).2 (Cards.state Cards.es1) _ _).
  - vm_compute. reflexivity.
  - simpl. set_solver.
Defined.

(** ** The checks of [normalize_dataframe] *)

Section NormalizeChecks.

Variable ww_copy : DataFrame -> result DataFrame.
Variable drop_duplicates_select :
  DataFrame -> string -> bool -> list string -> result DataFrame.
Variable df_rename : DataFrame -> option string -> option string -> DataFrame.
Variable df_join_on : DataFrame -> DataFrame -> string -> result DataFrame.

Lemma entityset_kept_refl (st : State) : entityset_kept st st.
Proof. done. Qed.

Lemma entityset_kept_trans (st1 st2 st3 : State) :
  entityset_kept st1 st2 → entityset_kept st2 st3 → entityset_kept st1 st3.
Proof. intros [H1 H2] [G1 G2]. split; congruence. Qed.

Lemma alloc_kept (l : list string) (st : State) (r : result nat) (st' : State) :
  alloc l st = (r, st') → entityset_kept st st'.
Proof. unfold alloc. by intros [= <- <-]. Qed.

Lemma read_list_inv (ref : nat) (st : State) (r : result (list string))
  (st' : State) :
  read_list ref st = (r, st') → st' = st.
Proof. unfold read_list. by intros [= <- <-]. Qed.

Lemma list_append_kept (ref : nat) (x : string) (st : State) (r : result unit)
  (st' : State) :
  list_append ref x st = (r, st') → entityset_kept st st'.
Proof. unfold list_append. by intros [= <- <-]. Qed.

Lemma or_empty_list_kept (columns : ColumnsArg) (st : State)
  (r : result ColumnsArg) (st' : State) :
  or_empty_list columns st = (r, st') → entityset_kept st st'.
Proof.
  unfold or_empty_list. intros H.
  destruct columns as [|ref|[|item items]]; run_inv H;
    repeat match goal with
    | Hs : alloc _ _ = _ |- _ => apply alloc_kept in Hs
    | Hs : read_list _ _ = _ |- _ => apply read_list_inv in Hs; subst
    end; done.
Qed.

Lemma check_columns_inv (columns : ColumnsArg) (st : State) (r : result nat)
  (st' : State) :
  check_columns columns st = (r, st') → st' = st.
Proof.
  unfold check_columns. intros H.
  destruct columns as [|ref|items]; run_inv H;
    repeat match goal with
    | Hs : read_list _ _ = _ |- _ => apply read_list_inv in Hs; subst
    end; done.
Qed.

Lemma check_not_index_inv (columns : list string) (index : string)
  (st : State) (r : result unit) (st' : State) :
  check_not_index columns index st = (r, st') → st' = st.
Proof.
  induction columns as [|v columns IH]; cbn [check_not_index]; intros H.
  - by run_inv H.
  - case_decide; [by run_inv H|by apply IH].
Qed.

Lemma check_not_time_index_inv (base_dataframe : DataFrame)
  (columns : list string) (st : State) (r : result unit) (st' : State) :
  check_not_time_index base_dataframe columns st = (r, st') → st' = st.
Proof.
  induction columns as [|v columns IH]; cbn [check_not_time_index]; intros H.
  - by run_inv H.
  - apply bind_run_inv in H as [(e & H & ->)|(s & st1 & H & H')].
    + by injection H as _ <-.
    + injection H as _ <-. case_decide; [by run_inv H'|by apply IH].
Qed.

Ltac kept_steps :=
  repeat match goal with
  | Hs : alloc _ _ = _ |- _ => apply alloc_kept in Hs
  | Hs : list_append _ _ _ = _ |- _ => apply list_append_kept in Hs
  | Hs : or_empty_list _ _ = _ |- _ => apply or_empty_list_kept in Hs
  | Hs : read_list _ _ = _ |- _ => apply read_list_inv in Hs; subst
  | Hs : check_columns _ _ = _ |- _ => apply check_columns_inv in Hs; subst
  | Hs : check_not_index _ _ _ = _ |- _ =>
      apply check_not_index_inv in Hs; subst
  | Hs : check_not_time_index _ _ _ = _ |- _ =>
      apply check_not_time_index_inv in Hs; subst
  end;
  repeat match goal with
  | H1 : entityset_kept ?a ?b, H2 : entityset_kept ?b ?c |- _ =>
      pose proof (entityset_kept_trans _ _ _ H1 H2); clear H1 H2
  end;
  first [assumption|apply entityset_kept_refl].

Lemma normalize_dataframe_validate_kept (base_dataframe_id index : string)
  (additional_columns copy_columns : ColumnsArg)
  (make_time_index : MakeTimeIndex) (st : State)
  (r : result (DataFrame * nat * nat)) (st' : State) :
  normalize_dataframe_validate base_dataframe_id index additional_columns
    copy_columns make_time_index st = (r, st') →
  entityset_kept st st'
  ∧ ∀ base additional_ref copy_ref,
      r = Ok (base, additional_ref, copy_ref) →
      __getitem__ (entityset st) base_dataframe_id = Ok base.
Proof.
  unfold normalize_dataframe_validate. intros H. run_inv H.
  all: split; [kept_steps|]; try done.
  all: intros base additional_ref copy_ref [= <- <- <-].
  all: unfold __getitem__.
  all: repeat match goal with
       | Hs : ?x = _ |- context [?x] => rewrite Hs
       end.
  all: done.
Qed.

Lemma normalize_dataframe_checks_kept (base_dataframe_id index : string)
  (additional_columns copy_columns : ColumnsArg)
  (make_time_index : MakeTimeIndex) (new_dataframe_time_index : option string)
  (st : State) (r : result NormalizeLocals) (st' : State) :
  normalize_dataframe_checks ww_copy base_dataframe_id index
    additional_columns copy_columns make_time_index new_dataframe_time_index st
  = (r, st') →
  entityset_kept st st'
  ∧ ∀ l, r = Ok l →
         __getitem__ (entityset st) base_dataframe_id = Ok (nl_base_dataframe l)
         ∧ (make_time_index = MtiNone →
            is_Some (dict_get (data (nl_base_dataframe l)) "time_index")).
Proof.
  unfold normalize_dataframe_checks. intros H.
  apply bind_run_inv in H as [(e & H & ->)|([[base a] c] & st1 & H & H')].
  { apply normalize_dataframe_validate_kept in H as [H _]. by split. }
  apply normalize_dataframe_validate_kept in H as [Hkept Hbase].
  specialize (Hbase _ _ _ eq_refl).
  run_inv H'.
  all: split; [kept_steps|]; try done.
  all: intros l [= <-]; simpl; split; [done|]; try done.
  all: intros _; unfold df_attr_time_index in *.
  all: repeat match goal with
       | Hs : match ?x with _ => _ end = Ok _ |- _ =>
           destruct x eqn:?; [|done]
       end; by eexists.
Qed.

Lemma normalize_dataframe_build_inv (index : string) (l : NormalizeLocals)
  (make_secondary_time_index : option (list (string * list string)))
  (new_dataframe_secondary_time_index : option string) (st : State)
  (r : result (DataFrame * option (list (string * list string))))
  (st' : State) :
  normalize_dataframe_build drop_duplicates_select df_rename df_join_on index l
    make_secondary_time_index new_dataframe_secondary_time_index st = (r, st') →
  st' = st.
Proof.
  unfold normalize_dataframe_build. intros H. run_inv H;
    repeat match goal with
    | Hs : read_list _ _ = _ |- _ => apply read_list_inv in Hs; subst
    end; done.
Qed.

End NormalizeChecks.

(** X27: the checks of [normalize_dataframe] (everything before the new
    table is built) and the building of the new table leave the entity set
    and the warnings as they were, whatever their outcome; only list
    objects of the caller can change. *)
Theorem normalize_dataframe_checks_leave_entityset
  (ww_copy : DataFrame -> result DataFrame)
  (drop_duplicates_select :
     DataFrame -> string -> bool -> list string -> result DataFrame)
  (df_rename : DataFrame -> option string -> option string -> DataFrame)
  (df_join_on : DataFrame -> DataFrame -> string -> result DataFrame)
  (base_dataframe_id index : string)
  (additional_columns copy_columns : ColumnsArg)
  (make_time_index : MakeTimeIndex)
  (make_secondary_time_index : option (list (string * list string)))
  (new_dataframe_time_index new_dataframe_secondary_time_index : option string)
  (st : State) :
  let '(res, st1) :=
    normalize_dataframe_checks ww_copy base_dataframe_id index
      additional_columns copy_columns make_time_index new_dataframe_time_index
      st in
  entityset st1 = entityset st
  ∧ warnings st1 = warnings st
  ∧ match res with
    | Raise _ => True
    | Ok l =>
        __getitem__ (entityset st) base_dataframe_id = Ok (nl_base_dataframe l)
        ∧ (normalize_dataframe_build drop_duplicates_select df_rename
             df_join_on index l make_secondary_time_index
             new_dataframe_secondary_time_index st1).2 = st1
    end.
Proof.
  destruct (normalize_dataframe_checks _ _ _ _ _ _ _ st) as [res st1] eqn:H.
  apply normalize_dataframe_checks_kept in H as [[Hes Hw] Hok].
  split; [done|]. split; [done|]. destruct res as [l|e]; [|done].
  destruct (Hok l eq_refl) as [Hbase _]. split; [done|].
  destruct (normalize_dataframe_build _ _ _ _ _ _ _ st1) as [r st2] eqn:Hb.
  by apply normalize_dataframe_build_inv in Hb.
Qed.

(** X28: called without [make_time_index], [normalize_dataframe] reads the
    attribute [time_index] of the base dataframe itself (line 683), so on
    a base table that has no column of that name the call raises and
    leaves the entity set as it was. *)
Theorem normalize_dataframe_needs_time_index_column
  (Relationship_init :
     option string -> option string -> option string -> option string ->
     M Relationship)
  (ww_init : DataFrame -> InitArgs -> result DataFrame)
  (DEFAULT_DTYPE_VALUES : Dtype -> option Value)
  (_check_time_type : Value -> option TimeType)
  (ww_copy : DataFrame -> result DataFrame)
  (drop_duplicates_select :
     DataFrame -> string -> bool -> list string -> result DataFrame)
  (df_rename : DataFrame -> option string -> option string -> DataFrame)
  (df_join_on : DataFrame -> DataFrame -> string -> result DataFrame)
  (ww_drop : DataFrame -> list string -> result DataFrame)
  (st : State) (base_dataframe_id new_dataframe_id index : string)
  (additional_columns copy_columns : ColumnsArg)
  (make_secondary_time_index : option (list (string * list string)))
  (new_dataframe_time_index new_dataframe_secondary_time_index : option string)
  (base : DataFrame) :
  __getitem__ (entityset st) base_dataframe_id = Ok base →
  dict_get (data base) "time_index" = None →
  ∃ e st',
    normalize_dataframe Relationship_init ww_init DEFAULT_DTYPE_VALUES
      _check_time_type ww_copy drop_duplicates_select df_rename df_join_on
      ww_drop base_dataframe_id new_dataframe_id index additional_columns
      copy_columns MtiNone make_secondary_time_index
      new_dataframe_time_index new_dataframe_secondary_time_index st
    = (Raise e, st')
    ∧ entityset st' = entityset st
    ∧ warnings st' = warnings st.
Proof.
  intros Hbase Hcolumn.
  destruct (normalize_dataframe_checks ww_copy base_dataframe_id index
              additional_columns copy_columns MtiNone new_dataframe_time_index
              st) as [[l|e] st1] eqn:H.
  - exfalso. apply normalize_dataframe_checks_kept in H as [_ Hok].
    destruct (Hok l eq_refl) as [Hl Hsome].
    rewrite Hbase in Hl. injection Hl as Hl.
    destruct (Hsome eq_refl) as [x Hx]. congruence.
  - exists e, st1. split.
    + unfold normalize_dataframe. by apply bind_Raise.
    + by apply normalize_dataframe_checks_kept in H as [[? ?] _].
Qed.

Lemma normalize_dataframe_needs_time_index_column_witness :
  ∃ e st',
    normalize_dataframe Collaborators.Relationship_init Collaborators.ww_init
      Collaborators.DEFAULT_DTYPE_VALUES Collaborators._check_time_type
      Collaborators.ww_copy Collaborators.drop_duplicates_select
      Collaborators.df_rename Collaborators.df_join_on Collaborators.ww_drop
      "cards" "brands" "brand" ColumnsNone ColumnsNone MtiNone None None None
      (Cards.state Brands.es)
    = (Raise e, st')
    ∧ entityset st' = entityset (Cards.state Brands.es)
    ∧ warnings st' = warnings (Cards.state Brands.es).
Proof.
  refine (normalize_dataframe_needs_time_index_column
            Collaborators.Relationship_init Collaborators.ww_init
            Collaborators.DEFAULT_DTYPE_VALUES Collaborators._check_time_type
            Collaborators.ww_copy Collaborators.drop_duplicates_select
            Collaborators.df_rename Collaborators.df_join_on
            Collaborators.ww_drop (Cards.state Brands.es) "cards" "brands"
            "brand" ColumnsNone ColumnsNone None None None Brands.cards _ _).
  - reflexivity.
  - reflexivity.
Defined.
